(** * Railway reservation system: seat inventory and train registry

    A shallow embedding of the data-access functions of [main.py]
    ([sanitize_train_number], [seat_table_name], [categorize_seat],
    [ensure_seat_table], [add_train], [delete_train],
    [allocate_next_available_seat], [book_ticket], [cancel_tickets]) over an
    explicit model of the SQLite database they talk to, followed by the
    properties of the specification.

    Conventions of the embedding.
    - A Python [str] is a Rocq [string]; its characters stand for the code
      points below 256.
    - A Python [int] is a [Z]; SQLite stores 64-bit integers, and binding an
      integer outside that range to a statement raises [OverflowError].
    - The database is the state seen through the single cached connection:
      the rows of [trains] and the seat tables.  SQLite compares the text
      column [train_number] byte by byte, but it resolves the name of a
      table without regard to the case of ASCII letters; the seat tables
      are therefore keyed by the folded table name ([sql_ident]).
    - A function of [main.py] that reports through [st.error] or
      [st.success] returns that report as a [notice]; a Python exception
      that leaves the function is a [Raise]. *)

From Stdlib Require Import ZArith NArith String Ascii List Lia Sorting.Sorted.
From Stdlib Require Import DecimalString.
From stdpp Require Import base option list sorting gmap strings.

Local Open Scope string_scope.
Local Open Scope Z_scope.

(** * The embedding of [main.py] *)

(** ** Python strings *)

Module PyStr.

Definition code (c : ascii) : N := N_of_ascii c.

(** The characters of the class [[A-Za-z0-9_]]. *)
Definition is_word_char (c : ascii) : bool :=
  let n := code c in
  ((65 <=? n) && (n <=? 90) || (97 <=? n) && (n <=? 122)
   || (48 <=? n) && (n <=? 57) || (n =? 95))%N.

Fixpoint all_chars (p : ascii → bool) (s : string) : bool :=
  match s with
  | EmptyString => true
  | String c s' => p c && all_chars p s'
  end.

(** [re.fullmatch(r"[A-Za-z0-9_]+", s)] as a truth value: one character
    or more, each of the class. *)
Definition fullmatch_word_plus (s : string) : bool :=
  match s with
  | EmptyString => false
  | String _ _ => all_chars is_word_char s
  end.

(** [str.isspace] on one character, for the code points below 256. *)
Definition isspace (c : ascii) : bool :=
  let n := code c in
  ((9 <=? n) && (n <=? 13) || (28 <=? n) && (n <=? 32)
   || (n =? 133) || (n =? 160))%N.

Fixpoint lstrip (s : string) : string :=
  match s with
  | EmptyString => EmptyString
  | String c s' => if isspace c then lstrip s' else s
  end.

Definition rstrip (s : string) : string :=
  String.rev (lstrip (String.rev s)).

(** [s.strip()] *)
Definition strip (s : string) : string := rstrip (lstrip s).

(** Truth value of a string: [not s] holds of the empty string only. *)
Definition truthy (s : string) : bool :=
  match s with EmptyString => false | String _ _ => true end.

(** ASCII case folding, as SQLite applies it to identifiers. *)
Definition fold_char (c : ascii) : ascii :=
  let n := code c in
  if ((65 <=? n) && (n <=? 90))%N then ascii_of_N (n + 32) else c.

Fixpoint fold_case (s : string) : string :=
  match s with
  | EmptyString => EmptyString
  | String c s' => String (fold_char c) (fold_case s')
  end.

(** Decimal numeral of a natural number, padded with zeros on the left to
    [width] characters ([%04d], [%02d]). *)
Fixpoint zeros (n : nat) : string :=
  match n with O => "" | S n' => String "0" (zeros n') end.

Definition decimal (n : N) : string := NilZero.string_of_uint (N.to_uint n).

Definition zero_padded (width : nat) (n : Z) : string :=
  let d := decimal (Z.to_N n) in
  zeros (width - String.length d) +:+ d.

End PyStr.

(** ** Exceptions and helpers *)

Inductive exn : Type :=
| ValueError        (* raised by [sanitize_train_number] *)
| OperationalError  (* raised by SQLite: no such table *)
| OverflowError.    (* raised by [sqlite3]: int too large for INTEGER *)

Inductive result (A : Type) : Type :=
| Ret (a : A)
| Raise (e : exn).
Arguments Ret {A} a.
Arguments Raise {A} e.

(** [sanitize_train_number]: the argument is a [str] by its type here, so
    only the pattern decides. *)
Definition sanitize_train_number (train_number : string) : result string :=
  if negb (PyStr.fullmatch_word_plus train_number)
  then Raise ValueError
  else Ret train_number.

(** [seat_table_name]: [f"seats_{tn}"]. *)
Definition seat_table_name (train_number : string) : result string :=
  match sanitize_train_number train_number with
  | Ret tn => Ret ("seats_" +:+ tn)
  | Raise e => Raise e
  end.

(** [categorize_seat]; Python's [%] with a positive divisor is [Z.modulo]. *)
Definition categorize_seat (seat_number : Z) : string :=
  let mod_ := seat_number mod 10 in
  if bool_decide (mod_ ∈ [0; 4; 5; 9]) then "Window"
  else if bool_decide (mod_ ∈ [2; 3; 6; 7]) then "Aisle"
  else "Middle".

(** ** The database *)

(** A row of a seat table, without its key [seat_number]. *)
Record seat_row : Type := SeatRow {
  seat_type : string;
  booked : Z;
  passenger_name : option string;
  passenger_age : option Z;
  passenger_gender : option string
}.

Record train_row : Type := TrainRow {
  train_number : string;
  train_name : string;
  departure_date : string;
  starting_destination : string;
  ending_destination : string
}.

(** [seat_number INTEGER PRIMARY KEY]: a seat table is a finite map from
    seat numbers to rows. *)
Record db : Type := Db {
  trains : list train_row;
  seat_tables : gmap string (gmap Z seat_row)
}.

(** The state of [init_db] on a new database file. *)
Definition init_db : db := Db [] ∅.

(** Computations on the connection: a state and exception monad. *)
Definition M (A : Type) : Type := db → result A * db.

Global Instance M_ret : MRet M := λ A a s, (Ret a, s).
Global Instance M_bind : MBind M := λ A B f m s,
  match m s with
  | (Ret a, s') => f a s'
  | (Raise e, s') => (Raise e, s')
  end.

Definition lift {A : Type} (r : result A) : M A := λ s, (r, s).

(** The SQL statements that [main.py] executes. *)
Module Sql.

(** The key under which SQLite finds a table: identifiers, table names
    among them, are matched without regard to the case of ASCII letters,
    so [seats_T1] and [seats_t1] name one table.  (The values of the text
    column [train_number] are compared exactly, see [select_train].) *)
Definition sql_ident (name : string) : string := PyStr.fold_case name.

Definition with_tables (f : gmap string (gmap Z seat_row) → gmap string (gmap Z seat_row))
    (s : db) : db :=
  Db (trains s) (f (seat_tables s)).

(** [CREATE TABLE IF NOT EXISTS {table} (...)] *)
Definition create_table_if_not_exists (table : string) : M unit := λ s,
  match seat_tables s !! sql_ident table with
  | Some _ => (Ret (), s)
  | None => (Ret (), with_tables <[sql_ident table := ∅]> s)
  end.

(** [DROP TABLE IF EXISTS {table}] *)
Definition drop_table_if_exists (table : string) : M unit := λ s,
  (Ret (), with_tables (delete (sql_ident table)) s).

(** The rows of [table]; a statement on a missing table raises. *)
Definition rows_of (table : string) : M (gmap Z seat_row) := λ s,
  match seat_tables s !! sql_ident table with
  | Some t => (Ret t, s)
  | None => (Raise OperationalError, s)
  end.

(** The integers that can be bound to a parameter [?]. *)
Definition sqlite_integer (n : Z) : bool :=
  (- 2 ^ 63 <=? n) && (n <? 2 ^ 63).

(** Binding the integer parameters of a statement, once the statement has
    been prepared. *)
Definition bind_integers (params : list Z) : M unit := λ s,
  if forallb sqlite_integer params then (Ret (), s)
  else (Raise OverflowError, s).

(** The write-back of a statement that changed the rows of [table]. *)
Definition store_rows (table : string) (t : gmap Z seat_row) : M unit := λ s,
  (Ret (), with_tables <[sql_ident table := t]> s).

(** [SELECT COUNT(1) FROM {table}] *)
Definition select_count (table : string) : M Z :=
  t ← rows_of table; mret (Z.of_nat (size t)).

(** [INSERT INTO {table}(...) VALUES (?, ?, ?, ?, ?, ?)] with
    [executemany]: one insertion per element, in order.  It is only run
    on an empty table with pairwise distinct keys. *)
Definition insert_many (table : string) (rows : list (Z * seat_row)) : M unit :=
  t ← rows_of table;
  store_rows table (foldl (λ acc r, <[r.1 := r.2]> acc) t rows).

(** [SELECT seat_number FROM {table} WHERE booked = 0 AND seat_type = ?
    ORDER BY seat_number ASC LIMIT 1], then [fetchone()]. *)
Definition free_of_type (ty : string) (r : seat_row) : bool :=
  (booked r =? 0) && bool_decide (seat_type r = ty).

Definition first_free (t : gmap Z seat_row) (ty : string) : option Z :=
  head (merge_sort Z.le
          (map_to_list (filter (λ kr, free_of_type ty kr.2 = true) t)).*1).

Definition select_first_free (table ty : string) : M (option Z) :=
  t ← rows_of table; mret (first_free t ty).

(** [SELECT seat_number, booked FROM {table} WHERE seat_number = ?],
    then [fetchone()]. *)
Definition select_seat (table : string) (n : Z) : M (option (Z * Z)) :=
  t ← rows_of table; bind_integers [n];;
  mret ((λ r, (n, booked r)) <$> t !! n).

(** [UPDATE {table} SET ... WHERE seat_number = ?]; [params] are the
    integers among the parameters of the statement. *)
Definition update_seat (table : string) (params : list Z) (n : Z)
    (set : seat_row → seat_row) : M unit :=
  t ← rows_of table; bind_integers params;;
  store_rows table (alter set n t).

(** [SELECT ... FROM trains WHERE train_number = ?], then [fetchone()]. *)
Definition select_train (tn : string) : M (option train_row) := λ s,
  (Ret (head (filter (λ r, train_number r = tn) (trains s))), s).

(** [INSERT INTO trains (...) VALUES (?, ?, ?, ?, ?)] *)
Definition insert_train (r : train_row) : M unit := λ s,
  (Ret (), Db (trains s ++ [r]) (seat_tables s)).

(** [DELETE FROM trains WHERE train_number = ?] *)
Definition delete_train_rows (tn : string) : M unit := λ s,
  (Ret (), Db (filter (λ r, train_number r ≠ tn) (trains s)) (seat_tables s)).

(** [SELECT ... FROM trains WHERE starting_destination = ? AND
    ending_destination = ?], then [fetchall()]: the rows in the order of
    the table. *)
Definition select_trains_by_route (start end_ : string) : M (list train_row) := λ s,
  (Ret (filter (λ r, starting_destination r = start ∧ ending_destination r = end_)
          (trains s)), s).

(** [SELECT ... FROM trains], then [fetchall()]. *)
Definition select_all_trains : M (list train_row) := λ s, (Ret (trains s), s).

(** The order of [ORDER BY seat_number ASC] on rows with their keys. *)
Definition by_seat_number (a b : Z * seat_row) : Prop := a.1 ≤ b.1.

Global Instance by_seat_number_dec : RelDecision by_seat_number.
Proof. intros a b. unfold by_seat_number. apply _. Defined.

(** [SELECT seat_number, seat_type, booked, passenger_name, passenger_age,
    passenger_gender FROM {table} ORDER BY seat_number ASC], then
    [fetchall()]. *)
Definition select_seats_ordered (table : string) : M (list (Z * seat_row)) :=
  t ← rows_of table; mret (merge_sort by_seat_number (map_to_list t)).

(** [SUM(CASE WHEN c THEN 1 ELSE 0 END)] over the rows of a group. *)
Definition sum_case (c : seat_row → bool) (rows : list seat_row) : Z :=
  foldr Z.add 0 ((λ r, if c r then 1 else 0) <$> rows).

(** The rows of the group of [ty] under [GROUP BY seat_type]. *)
Definition group_of (ty : string) (rows : list seat_row) : list seat_row :=
  filter (λ r, seat_type r = ty) rows.

(** [SELECT seat_type, SUM(CASE WHEN booked = 0 THEN 1 ELSE 0 END),
    SUM(CASE WHEN booked = 1 THEN 1 ELSE 0 END) FROM {table}
    GROUP BY seat_type ORDER BY seat_type], then [fetchall()]: one row for
    each seat type of the table, in the order of the strings. *)
Definition select_availability (table : string) : M (list (string * Z * Z)) :=
  t ← rows_of table;
  let rows := (map_to_list t).*2 in
  mret ((λ ty, (ty, sum_case (λ r, booked r =? 0) (group_of ty rows),
                    sum_case (λ r, booked r =? 1) (group_of ty rows)))
        <$> merge_sort String.le (remove_dups (seat_type <$> rows))).

End Sql.

(** ** Reports to the user *)

(** One constructor for each [st.error] and [st.success] of the
    data-access functions. *)
Inductive notice : Type :=
| err_all_fields_required
| err_train_number_chars
| err_train_exists (tn : string)
| ok_train_added (name tn : string)
| err_no_such_train (tn : string)
| err_date_mismatch
| ok_train_deleted (tn : string)
| err_no_available_seat (ty : string)
| ok_booked (seat : Z) (ty name : string)
| err_seat_missing (seat : Z) (tn : string)
| ok_cancelled (seat : Z) (tn : string).

(** The error kinds of the specification, and the kind of each report
    ([None] for a success). *)
Inductive error_kind : Type :=
| ValidationError | DuplicateTrain | NotFound | DateMismatch
| SeatNotFound | NoAvailableSeat.

Definition kind_of (n : notice) : option error_kind :=
  match n with
  | err_all_fields_required | err_train_number_chars => Some ValidationError
  | err_train_exists _ => Some DuplicateTrain
  | err_no_such_train _ => Some NotFound
  | err_date_mismatch => Some DateMismatch
  | err_no_available_seat _ => Some NoAvailableSeat
  | err_seat_missing _ _ => Some SeatNotFound
  | ok_train_added _ _ | ok_train_deleted _ | ok_booked _ _ _
  | ok_cancelled _ _ => None
  end.

(** ** Seat inventory *)

(** The tuple [(i, categorize_seat(i), 0, None, None, None)]. *)
Definition seed_row (i : Z) : Z * seat_row :=
  (i, SeatRow (categorize_seat i) 0 None None None).

(** [range(lo, hi)] *)
Definition py_range (lo hi : Z) : list Z := seqZ lo (hi - lo).

Definition ensure_seat_table (train_number : string) (total_seats : Z) : M unit :=
  table ← lift (seat_table_name train_number);
  Sql.create_table_if_not_exists table;;
  count ← Sql.select_count table;
  if count =? 0
  then Sql.insert_many table (seed_row <$> py_range 1 (total_seats + 1))
  else mret ().

(** The default of the parameter [total_seats]. *)
Definition default_total_seats : Z := 50.

Definition allocate_next_available_seat (train_number ty : string) : M (option Z) :=
  ensure_seat_table train_number default_total_seats;;
  table ← lift (seat_table_name train_number);
  row ← Sql.select_first_free table ty;
  mret row.

(** Truth value of an optional integer: [None] and [0] are false. *)
Definition truthy_seat (n : option Z) : bool :=
  match n with None => false | Some k => negb (k =? 0) end.

Definition set_booked (name : string) (age : Z) (gender : string) (r : seat_row) : seat_row :=
  SeatRow (seat_type r) 1 (Some name) (Some age) (Some gender).

Definition set_cancelled (r : seat_row) : seat_row :=
  SeatRow (seat_type r) 0 None None None.

Definition book_ticket (train_number passenger_name : string) (passenger_age : Z)
    (passenger_gender ty : string) : M notice :=
  train ← Sql.select_train train_number;
  if negb (bool_decide (is_Some train)) then mret (err_no_such_train train_number)
  else
    seat_number ← allocate_next_available_seat train_number ty;
    if negb (truthy_seat seat_number) then mret (err_no_available_seat ty)
    else
      table ← lift (seat_table_name train_number);
      Sql.update_seat table [passenger_age; default 0 seat_number]
        (default 0 seat_number)
        (set_booked (PyStr.strip passenger_name) passenger_age passenger_gender);;
      mret (ok_booked (default 0 seat_number) ty passenger_name).

Definition cancel_tickets (train_number : string) (seat_number : Z) : M notice :=
  train ← Sql.select_train train_number;
  if negb (bool_decide (is_Some train)) then mret (err_no_such_train train_number)
  else
    table ← lift (seat_table_name train_number);
    seat ← Sql.select_seat table seat_number;
    if negb (bool_decide (is_Some seat))
    then mret (err_seat_missing seat_number train_number)
    else
      Sql.update_seat table [seat_number] seat_number set_cancelled;;
      mret (ok_cancelled seat_number train_number).

(** ** Train registry *)

(** The argument [departure_date]: a [datetime.date] or a string. *)
Inductive date_arg : Type :=
| a_date (year month day : Z)
| a_str (s : string).

(** [date.isoformat()] *)
Definition isoformat (year month day : Z) : string :=
  PyStr.zero_padded 4 year +:+ "-" +:+ PyStr.zero_padded 2 month
  +:+ "-" +:+ PyStr.zero_padded 2 day.

(** The normalisation at the head of [add_train] and [delete_train]. *)
Definition departure_date_str (d : date_arg) : string :=
  match d with
  | a_date y m dd => isoformat y m dd
  | a_str s => s
  end.

Definition add_train (train_number train_name : string) (departure_date : date_arg)
    (starting_destination ending_destination : string) : M notice :=
  if negb (PyStr.truthy train_number) || negb (PyStr.truthy train_name)
     || negb (PyStr.truthy starting_destination)
     || negb (PyStr.truthy ending_destination)
  then mret err_all_fields_required
  else
    match sanitize_train_number train_number with
    | Raise _ => mret err_train_number_chars
    | Ret _ =>
      exists_ ← Sql.select_train train_number;
      if bool_decide (is_Some exists_) then mret (err_train_exists train_number)
      else
        Sql.insert_train
          (TrainRow train_number train_name (departure_date_str departure_date)
             starting_destination ending_destination);;
        ensure_seat_table train_number default_total_seats;;
        mret (ok_train_added train_name train_number)
    end.

(** [row[1]] of the row that [delete_train] selects. *)
Definition stored_date (row : train_row) : string := departure_date row.

Definition delete_train (train_number : string) (departure_date : date_arg) : M notice :=
  row ← Sql.select_train train_number;
  match row with
  | None => mret (err_no_such_train train_number)
  | Some r =>
    if bool_decide (stored_date r ≠ departure_date_str departure_date)
    then mret err_date_mismatch
    else
      match seat_table_name train_number with
      | Raise _ => mret err_train_number_chars
      | Ret table =>
        Sql.drop_table_if_exists table;;
        Sql.delete_train_rows train_number;;
        mret (ok_train_deleted train_number)
      end
  end.

(** ** Queries *)

Definition search_train_by_train_number (train_number : string) : M (option train_row) :=
  Sql.select_train train_number.

Definition search_trains_by_destinations (starting_destination ending_destination : string)
    : M (list train_row) :=
  Sql.select_trains_by_route starting_destination ending_destination.

(** The part of pandas that [get_seats_df] relies on: a column made from
    Python objects gets its type from its values. *)
Module Pd.

(** A cell of a column of integers that may be missing. *)
Inductive cell : Type :=
| int64 (n : Z)       (* a 64-bit integer *)
| float64 (x : Z)     (* a float64 whose value is the integer [x] *)
| nan                 (* the float64 NaN *)
| none.               (* the object [None] *)

Inductive dtype : Type := dtype_object | dtype_int64 | dtype_float64.

(** A column of [None] only stays a column of objects; a column of
    integers only becomes int64; integers beside [None] become float64.
    The integers are those that SQLite stores, of 64 bits. *)
Definition infer_dtype (values : list (option Z)) : dtype :=
  if forallb (λ v, bool_decide (v = None)) values then dtype_object
  else if forallb (λ v, bool_decide (is_Some v)) values then dtype_int64
  else dtype_float64.

(** The conversion of a 64-bit integer to float64: up to 53 bits the
    integer itself; beyond, the bits below the 53 highest are rounded off,
    to the nearest value and at a tie to the even one. *)
Definition float64_of_int (n : Z) : Z :=
  let a := Z.abs n in
  let e := Z.log2 a - 52 in
  if e <=? 0 then n
  else
    let q := a / 2 ^ e in
    let r := a mod 2 ^ e in
    let up := (2 ^ (e - 1) <? r) || ((r =? 2 ^ (e - 1)) && Z.odd q) in
    Z.sgn n * ((if up then q + 1 else q) * 2 ^ e).

Definition cell_of (d : dtype) (v : option Z) : cell :=
  match d, v with
  | dtype_int64, Some n => int64 n
  | dtype_float64, Some n => float64 (float64_of_int n)
  | dtype_float64, None => nan
  | _, _ => none
  end.

End Pd.

(** A line of the frame of [get_seats_df]: the six columns of the query
    and the column Status.  The columns Seat Number and Booked hold
    integers and the column Seat Type holds strings; the passenger columns
    may hold [None]. *)
Record seat_line : Type := SeatLine {
  line_number : Z;
  line_type : string;
  line_booked : Z;
  line_name : option string;
  line_age : Pd.cell;
  line_gender : option string;
  line_status : string
}.

(** [lambda b: "Booked" if int(b) == 1 else "Available"] *)
Definition status_of (b : Z) : string :=
  if b =? 1 then "Booked" else "Available".

(** [pd.DataFrame(rows, columns=[...])] and then
    [df["Status"] = df["Booked"].apply(...)]. *)
Definition seats_frame (rows : list (Z * seat_row)) : list seat_line :=
  let age_dtype := Pd.infer_dtype ((λ kr, passenger_age kr.2) <$> rows) in
  (λ kr, SeatLine kr.1 (seat_type kr.2) (booked kr.2) (passenger_name kr.2)
           (Pd.cell_of age_dtype (passenger_age kr.2)) (passenger_gender kr.2)
           (status_of (booked kr.2))) <$> rows.

Definition get_seats_df (train_number : string) : M (list seat_line) :=
  ensure_seat_table train_number default_total_seats;;
  table ← lift (seat_table_name train_number);
  rows ← Sql.select_seats_ordered table;
  mret (seats_frame rows).

Definition get_seat_availability (train_number : string)
    : M (list (string * Z * Z) * Z) :=
  ensure_seat_table train_number default_total_seats;;
  table ← lift (seat_table_name train_number);
  rows ← Sql.select_availability table;
  total ← Sql.select_count table;
  mret (rows, total).

(** ** The forms of [train_functions] *)

(** The values of the two select boxes of the form Book Ticket. *)
Inductive seat_choice : Type := choice_aisle | choice_middle | choice_window.

Inductive gender_choice : Type := choice_male | choice_female | choice_other.

Definition seat_choice_str (c : seat_choice) : string :=
  match c with
  | choice_aisle => "Aisle"
  | choice_middle => "Middle"
  | choice_window => "Window"
  end.

Definition gender_choice_str (c : gender_choice) : string :=
  match c with
  | choice_male => "Male"
  | choice_female => "Female"
  | choice_other => "Other"
  end.

(** What a form shows: a message of its own, the report of the
    data-access function it called, or the tables it displays. *)
Inductive form_notice : Type :=
| please_fill_all_fields        (* "Please fill in all required fields." *)
| please_enter_a_train_number   (* "Please enter a train number." *)
| please_enter_the_train_number (* "Please enter the Train Number." *)
| please_enter_number_and_name  (* "Please enter both Train Number and Passenger Name." *)
| reported (n : notice)
| trains_shown (rows : list train_row)
| no_trains_info                (* "No trains in the database." *)
| no_train_with_number (tn : string)
| no_trains_for_route
| nothing_shown
| seats_error                   (* [st.error(str(ve))] *)
| no_seats_info                 (* "No seats found. ..." *)
| seats_shown (summary : option (list (string * Z * Z) * Z))
              (lines : list seat_line).

(** [try: body except ValueError: handler] *)
Definition except_ValueError {A : Type} (body handler : M A) : M A := λ s,
  match body s with
  | (Raise ValueError, s') => handler s'
  | outcome => outcome
  end.

(** The choice of the side bar together with the values of the widgets of
    the chosen form, once its button is pressed.  A text input is a
    string, the date input a date, a number input with [min_value=1] and
    [step=1] an integer from 1 on. *)
Inductive action : Type :=
| act_add_train (train_number train_name : string) (year month day : Z)
                (starting_destination ending_destination : string)
| act_view_trains
| act_search_by_number (train_number : string)
| act_search_by_destinations (starting_destination ending_destination : string)
| act_delete_train (train_number : string) (year month day : Z)
| act_book_ticket (train_number : string) (ty : seat_choice)
                  (passenger_name : string) (passenger_age : positive)
                  (passenger_gender : gender_choice)
| act_cancel_ticket (train_number : string) (seat_number : positive)
| act_view_seats (train_number : string).

Definition train_functions (a : action) : M form_notice :=
  match a with
  | act_add_train train_number train_name year month day
                  starting_destination ending_destination =>
    if PyStr.truthy (PyStr.strip train_number)
       && PyStr.truthy (PyStr.strip train_name)
       && PyStr.truthy (PyStr.strip starting_destination)
       && PyStr.truthy (PyStr.strip ending_destination)
    then
      n ← add_train (PyStr.strip train_number) (PyStr.strip train_name)
            (a_date year month day)
            (PyStr.strip starting_destination) (PyStr.strip ending_destination);
      mret (reported n)
    else mret please_fill_all_fields
  | act_view_trains =>
    trains ← Sql.select_all_trains;
    match trains with
    | [] => mret no_trains_info
    | _ :: _ => mret (trains_shown trains)
    end
  | act_search_by_number train_number =>
    if PyStr.truthy (PyStr.strip train_number)
    then
      data ← search_train_by_train_number (PyStr.strip train_number);
      match data with
      | Some r => mret (trains_shown [r])
      | None => mret (no_train_with_number train_number)
      end
    else mret nothing_shown
  | act_search_by_destinations starting_destination ending_destination =>
    if PyStr.truthy (PyStr.strip starting_destination)
       && PyStr.truthy (PyStr.strip ending_destination)
    then
      data ← search_trains_by_destinations (PyStr.strip starting_destination)
               (PyStr.strip ending_destination);
      match data with
      | [] => mret no_trains_for_route
      | _ :: _ => mret (trains_shown data)
      end
    else mret nothing_shown
  | act_delete_train train_number year month day =>
    if PyStr.truthy (PyStr.strip train_number)
    then
      n ← delete_train (PyStr.strip train_number) (a_date year month day);
      mret (reported n)
    else mret please_enter_a_train_number
  | act_book_ticket train_number ty passenger_name passenger_age
                    passenger_gender =>
    if PyStr.truthy (PyStr.strip train_number)
       && PyStr.truthy (PyStr.strip passenger_name)
    then
      n ← book_ticket (PyStr.strip train_number) (PyStr.strip passenger_name)
            (Z.pos passenger_age) (gender_choice_str passenger_gender)
            (seat_choice_str ty);
      mret (reported n)
    else mret please_enter_number_and_name
  | act_cancel_ticket train_number seat_number =>
    if PyStr.truthy (PyStr.strip train_number)
    then
      n ← cancel_tickets (PyStr.strip train_number) (Z.pos seat_number);
      mret (reported n)
    else mret please_enter_the_train_number
  | act_view_seats train_number =>
    if PyStr.truthy (PyStr.strip train_number)
    then
      except_ValueError
        (df ← get_seats_df (PyStr.strip train_number);
         match df with
         | [] => mret no_seats_info
         | _ :: _ =>
           summary ← get_seat_availability (PyStr.strip train_number);
           match summary.1 with
           | [] => mret (seats_shown None df)
           | _ :: _ => mret (seats_shown (Some summary) df)
           end
         end)
        (mret seats_error)
    else mret please_enter_the_train_number
  end.

(** * Vocabulary of the properties *)

(** The seat table that SQLite finds for a train number: the inventory of
    the train. *)
Definition table_key (tn : string) : string := Sql.sql_ident ("seats_" +:+ tn).

Definition inventory (s : db) (tn : string) : option (gmap Z seat_row) :=
  seat_tables s !! table_key tn.

Definition seat (s : db) (tn : string) (n : Z) : option seat_row :=
  inventory s tn ≫= (.!! n).

(** A train is known when [trains] has a row with its number. *)
Definition known (s : db) (tn : string) : Prop :=
  ∃ r, r ∈ trains s ∧ train_number r = tn.

Definition valid_train_number (tn : string) : Prop :=
  PyStr.fullmatch_word_plus tn = true.

(** The table that seeding an empty table with [total] seats leaves. *)
Definition seeded (total : Z) : gmap Z seat_row :=
  foldl (λ acc r, <[r.1 := r.2]> acc) ∅ (seed_row <$> py_range 1 (total + 1)).

Definition put_inventory (tn : string) (t : gmap Z seat_row) (s : db) : db :=
  Sql.with_tables <[table_key tn := t]> s.

(** The state that [ensure_seat_table] leaves. *)
Definition ensured (tn : string) (total : Z) (s : db) : db :=
  match inventory s tn with
  | Some t => if decide (t = ∅) then put_inventory tn (seeded total) s else s
  | None => put_inventory tn (seeded total) s
  end.

Definition fresh_row (n : Z) : seat_row :=
  SeatRow (categorize_seat n) 0 None None None.

(** Seat [n] of table [t] is unbooked and of type [ty]. *)
Definition free_seat (t : gmap Z seat_row) (ty : string) (n : Z) : Prop :=
  ∃ r, t !! n = Some r ∧ booked r = 0 ∧ seat_type r = ty.

(** The four text fields of [add_train] are all non-empty. *)
Definition fields_given (tn name start end_ : string) : Prop :=
  tn ≠ "" ∧ name ≠ "" ∧ start ≠ "" ∧ end_ ≠ "".

(** The row that [fetchone()] returns for a train number. *)
Definition find_train (s : db) (tn : string) : option train_row :=
  head (filter (λ r, train_number r = tn) (trains s)).

Definition fully_booked (r : seat_row) : Prop :=
  booked r = 1 ∧ is_Some (passenger_name r) ∧ is_Some (passenger_age r)
  ∧ is_Some (passenger_gender r).

Definition fully_unbooked (r : seat_row) : Prop :=
  booked r = 0 ∧ passenger_name r = None ∧ passenger_age r = None
  ∧ passenger_gender r = None.

(** No partial state: a seat is fully booked or fully unbooked. *)
Definition seat_whole (r : seat_row) : Prop := fully_booked r ∨ fully_unbooked r.

Definition seats_whole (s : db) : Prop :=
  ∀ k t n r, seat_tables s !! k = Some t → t !! n = Some r → seat_whole r.

(** The characters that may stand in a table name built from a train
    number: the letters, the digits and the underscore. *)
Definition safe_char (c : ascii) : Prop :=
  c ∈ list_ascii_of_string
        "ABCDEFGHIJKLMNOPQRSTUVWXYZabcdefghijklmnopqrstuvwxyz0123456789_".

Definition safe_name (name : string) : Prop :=
  name ≠ "" ∧ ∀ c, c ∈ list_ascii_of_string name → safe_char c.

(** The number of seats of a table that are of type [ty] and whose
    [booked] is [v]. *)
Definition seat_count (t : gmap Z seat_row) (ty : string) (v : Z) : Z :=
  Z.of_nat (size (filter (λ kr, seat_type kr.2 = ty ∧ booked kr.2 = v) t)).

(** The white-space characters among the code points below 256: the
    controls TAB, LF, VT, FF, CR, FS, GS, RS and US, the space, NEL and the
    no-break space. *)
Definition white_space (c : ascii) : Prop :=
  N_of_ascii c ∈ [9; 10; 11; 12; 13; 28; 29; 30; 31; 32; 133; 160]%N.

Definition blank (x : string) : Prop :=
  ∀ c, c ∈ list_ascii_of_string x → white_space c.

(** [stored] is [name] without the white space at its two ends: [name]
    is [stored] between two blank strings, and [stored] neither starts
    nor ends with a white-space character. *)
Definition trimmed_of (name stored : string) : Prop :=
  (∃ pre post, name = pre +:+ stored +:+ post ∧ blank pre ∧ blank post)
  ∧ (∀ c rest, stored = String c rest → ¬ white_space c)
  ∧ (∀ init c, stored = init +:+ String c "" → ¬ white_space c).

(** A text as a form hands it on: not empty, with no white space at its
    ends. *)
Definition trimmed (x : string) : Prop := x ≠ "" ∧ PyStr.strip x = x.

(** The passenger of a seat as the form Book Ticket hands it on: a name
    that is not empty and has no white space at its ends, an age from 1
    on, and one of the three genders of the select box. *)
Definition passenger_ok (r : seat_row) : Prop :=
  ∃ name age gender,
    passenger_name r = Some name ∧ trimmed name
    ∧ passenger_age r = Some age ∧ 1 ≤ age
    ∧ passenger_gender r = Some gender
    ∧ gender ∈ ["Male"; "Female"; "Other"].

(** A train record as the form Add Train hands it on. *)
Definition train_ok (r : train_row) : Prop :=
  valid_train_number (train_number r) ∧ trimmed (train_number r)
  ∧ trimmed (train_name r)
  ∧ trimmed (starting_destination r) ∧ trimmed (ending_destination r)
  ∧ ∃ y m d, departure_date r = isoformat y m d.

(** The integers that a float64 holds: a significand of at most 53 bits
    times a power of two. *)
Definition binary64_int (x : Z) : Prop :=
  ∃ m e : Z, x = m * 2 ^ e ∧ Z.abs m < 2 ^ 53 ∧ (0 ≤ e ≤ 971).

(** [x] is a float64 nearest to the integer [n]. *)
Definition nearest_float64 (n x : Z) : Prop :=
  binary64_int x ∧ ∀ y, binary64_int y → Z.abs (x - n) ≤ Z.abs (y - n).

(** What the column Passenger Age of the frame shows for a seat of the
    table [t] whose stored age is [age]: the integer itself when every
    seat of the table has an age; a float64 nearest to it, which is the
    integer itself up to 53 bits, when some seat has none; NaN for a seat
    without age beside seats with one; [None] when no seat has an age. *)
Definition age_shown (t : gmap Z seat_row) (age : option Z) (c : Pd.cell)
    : Prop :=
  match age with
  | Some a =>
    ((∀ n r, t !! n = Some r → is_Some (passenger_age r)) → c = Pd.int64 a)
    ∧ ((∃ n r, t !! n = Some r ∧ passenger_age r = None) →
       ∃ x, c = Pd.float64 x
            ∧ (Z.abs a ≤ 2 ^ 53 → x = a)
            ∧ (- 2 ^ 63 ≤ a < 2 ^ 63 → nearest_float64 a x))
  | None =>
    ((∃ n r, t !! n = Some r ∧ is_Some (passenger_age r)) → c = Pd.nan)
    ∧ ((∀ n r, t !! n = Some r → passenger_age r = None) → c = Pd.none)
  end.

(** The year, month and day of a [datetime.date] lie in these ranges. *)
Definition date_in_range (y m d : Z) : Prop :=
  1 ≤ y ≤ 9999 ∧ 1 ≤ m ≤ 12 ∧ 1 ≤ d ≤ 31.

(** The number that a string of decimal digits writes. *)
Definition digits_value (s : string) : Z :=
  foldl (λ acc c, 10 * acc + (Z.of_N (PyStr.code c) - 48)) 0
    (list_ascii_of_string s).

(** ** The states the program reaches *)

(** One call of a data-access function from the user interface.  Viewing
    the seats ([get_seats_df], [get_seat_availability]) changes the state
    through [ensure_seat_table] only. *)
Inductive step : db → db → Prop :=
| step_add tn name d start end_ s :
    step s (add_train tn name d start end_ s).2
| step_delete tn d s :
    step s (delete_train tn d s).2
| step_book tn name age gender ty s :
    step s (book_ticket tn name age gender ty s).2
| step_cancel tn n s :
    step s (cancel_tickets tn n s).2
| step_view tn s :
    step s (ensure_seat_table tn default_total_seats s).2.

Inductive reachable : db → Prop :=
| reach_init : reachable init_db
| reach_step s s' : reachable s → step s s' → reachable s'.

(** The states reached through the forms alone. *)
Inductive ui_reachable : db → Prop :=
| ui_init : ui_reachable init_db
| ui_step a s : ui_reachable s → ui_reachable (train_functions a s).2.

(** The shape of a seat table of the program: the seats 1..50, each of the
    type of its number, each whole. *)
Definition table_ok (t : gmap Z seat_row) : Prop :=
  ∀ n, match t !! n with
       | Some r => 1 ≤ n ≤ default_total_seats
                   ∧ seat_type r = categorize_seat n ∧ seat_whole r
       | None => ¬ (1 ≤ n ≤ default_total_seats)
       end.

Record wf (s : db) : Prop := Wf {
  wf_numbers : ∀ r, r ∈ trains s → valid_train_number (train_number r);
  wf_tables : ∀ k t, seat_tables s !! k = Some t → table_ok t;
  wf_orphans : ∀ k t, seat_tables s !! k = Some t →
    (∃ r, r ∈ trains s ∧ table_key (train_number r) = k)
    ∨ t = seeded default_total_seats
}.

(** ** Scenarios *)

(** The scenario of the specification: train T1 is created, then Alice and
    Bob each book a Window seat. *)
Definition after_create : db :=
  (add_train "T1" "Express" (a_date 2025 1 1) "A" "B" init_db).2.

Definition after_alice : db :=
  (book_ticket "T1" "Alice" 30 "Female" "Window" after_create).2.

Definition after_bob : db :=
  (book_ticket "T1" "Bob" 40 "Male" "Window" after_alice).2.

(** The inventory of T1 once Alice has booked. *)
Definition alice_table : gmap Z seat_row :=
  default ∅ (inventory after_alice "T1").

(** The 20 Window seats of a train of 50 seats. *)
Definition window_seats : list Z :=
  filter (λ n, categorize_seat n = "Window") (seqZ 1 default_total_seats).

(** T1 after a passenger has booked every Window seat. *)
Definition windows_sold_out : db :=
  foldl (λ s _, (book_ticket "T1" "Pat" 33 "Other" "Window" s).2)
    after_create window_seats.

(** The inventory of T1 with its Window seats sold. *)
Definition sold_out_table : gmap Z seat_row :=
  default ∅ (inventory windows_sold_out "T1").

(** Alice books on T1 with an age of 54 bits. *)
Definition big_age_booked : db :=
  (book_ticket "T1" "Alice" (2 ^ 53 + 1) "Female" "Window" after_create).2.

(** Train t1 exists and Alice holds its seat 4. *)
Definition lower_case_booked : db :=
  (book_ticket "t1" "Alice" 30 "Female" "Window"
     (add_train "t1" "Local" (a_date 2025 1 1) "A" "B" init_db).2).2.

(** Trains t1 and T1 are created, then t1 is deleted: T1 is left without
    a seat table. *)
Definition upper_case_left : db :=
  (delete_train "t1" (a_date 2025 1 1)
     (add_train "T1" "Express" (a_date 2025 1 1) "A" "B"
        (add_train "t1" "Local" (a_date 2025 1 1) "A" "B" init_db).2).2).2.

(** * Lemmas on the embedding *)

Example strip_alice : PyStr.strip "  Alice Liddell " = "Alice Liddell".
Proof. reflexivity. Qed.

Example categorize_first_decade :
  categorize_seat <$> seqZ 1 10 =
  ["Middle"; "Aisle"; "Aisle"; "Window"; "Window";
   "Aisle"; "Aisle"; "Middle"; "Window"; "Window"].
Proof. reflexivity. Qed.

Example pad_year : PyStr.zero_padded 4 987 = "0987".
Proof. reflexivity. Qed.

Ltac run_step :=
  cbv beta iota zeta delta
    [mbind mret M_bind M_ret lift
     Sql.select_count Sql.insert_many Sql.select_first_free Sql.select_seat
     Sql.update_seat Sql.rows_of Sql.store_rows Sql.bind_integers
     Sql.create_table_if_not_exists Sql.drop_table_if_exists
     Sql.select_train Sql.insert_train Sql.delete_train_rows] in *;
  cbn [fst snd seat_tables trains Sql.with_tables] in *.

(** ** Running the operations *)

Lemma seat_table_name_valid tn :
  valid_train_number tn → seat_table_name tn = Ret ("seats_" +:+ tn).
Proof.
  unfold valid_train_number, seat_table_name, sanitize_train_number.
  intros ->. reflexivity.
Qed.

Lemma seat_table_name_invalid tn :
  ¬ valid_train_number tn → seat_table_name tn = Raise ValueError.
Proof.
  unfold valid_train_number, seat_table_name, sanitize_train_number.
  destruct (PyStr.fullmatch_word_plus tn); [congruence | reflexivity].
Qed.

Lemma with_tables_insert_insert k (t t' : gmap Z seat_row) s :
  Sql.with_tables <[k := t]> (Sql.with_tables <[k := t']> s)
  = Sql.with_tables <[k := t]> s.
Proof.
  unfold Sql.with_tables. cbn. f_equal. apply insert_insert_eq.
Qed.

Lemma ensure_seat_table_run tn total s :
  valid_train_number tn →
  ensure_seat_table tn total s = (Ret (), ensured tn total s).
Proof.
  intros Hv. unfold ensure_seat_table, ensured, inventory, put_inventory.
  rewrite (seat_table_name_valid _ Hv). run_step. fold (table_key tn).
  destruct (seat_tables s !! table_key tn) as [t|] eqn:Ht.
  - rewrite Ht. cbv beta iota. destruct (decide (t = ∅)) as [->|Hne].
    + rewrite map_size_empty. cbv beta iota. change (Z.of_nat 0 =? 0) with true.
      cbv beta iota. rewrite Ht. reflexivity.
    + destruct (Z.eqb_spec (Z.of_nat (size t)) 0) as [Hz|Hz]; [|reflexivity].
      exfalso. apply Hne, map_size_empty_iff. lia.
  - cbn [seat_tables Sql.with_tables]. rewrite lookup_insert_eq. cbv beta iota.
    rewrite map_size_empty. change (Z.of_nat 0 =? 0) with true.
    cbv beta iota. cbn [seat_tables Sql.with_tables].
    rewrite lookup_insert_eq.
    by rewrite with_tables_insert_insert.
Qed.

Lemma ensure_seat_table_invalid tn total s :
  ¬ valid_train_number tn →
  ensure_seat_table tn total s = (Raise ValueError, s).
Proof.
  intros Hv. unfold ensure_seat_table.
  rewrite (seat_table_name_invalid _ Hv). reflexivity.
Qed.

Lemma foldl_insert_lookup (f : Z → seat_row) (l : list Z) (t : gmap Z seat_row) n :
  foldl (λ acc r, <[r.1 := r.2]> acc) t ((λ i, (i, f i)) <$> l) !! n
  = if bool_decide (n ∈ l) then Some (f n) else t !! n.
Proof.
  revert t. induction l as [|i l IH]; intros t; cbn.
  - rewrite bool_decide_eq_false_2; [done | by intros ?%elem_of_nil].
  - rewrite IH. destruct (decide (n ∈ l)) as [Hin|Hin].
    + rewrite !bool_decide_eq_true_2; [done | by right | done].
    + rewrite (bool_decide_eq_false_2 _ Hin).
      destruct (decide (i = n)) as [->|Hne].
      * rewrite lookup_insert_eq, bool_decide_eq_true_2; [done | left].
      * rewrite lookup_insert_ne by done.
        rewrite bool_decide_eq_false_2; [done|].
        intros [?|?]%elem_of_cons; congruence.
Qed.

Lemma seeded_lookup total n :
  seeded total !! n = if bool_decide (1 ≤ n ≤ total) then Some (fresh_row n) else None.
Proof.
  unfold seeded.
  change seed_row with (λ i, (i, fresh_row i)).
  rewrite foldl_insert_lookup, lookup_empty. unfold py_range.
  rewrite (bool_decide_ext (n ∈ seqZ 1 (total + 1 - 1)) (1 ≤ n ≤ total)); [done|].
  rewrite elem_of_seqZ. lia.
Qed.

Lemma seeded_lookup_Some total n r :
  seeded total !! n = Some r ↔ 1 ≤ n ≤ total ∧ r = fresh_row n.
Proof.
  rewrite seeded_lookup. case_bool_decide as H; split.
  - by intros [= <-].
  - by intros [_ ->].
  - discriminate.
  - by intros [? _].
Qed.

(** ** The allocation query *)

Lemma free_of_type_true ty r :
  Sql.free_of_type ty r = true ↔ booked r = 0 ∧ seat_type r = ty.
Proof.
  unfold Sql.free_of_type.
  rewrite andb_true_iff, Z.eqb_eq, bool_decide_eq_true. reflexivity.
Qed.

Lemma head_sorted_Some (l : list Z) n :
  head (merge_sort Z.le l) = Some n ↔ n ∈ l ∧ ∀ m, m ∈ l → n ≤ m.
Proof.
  pose proof (merge_sort_Permutation Z.le l) as Hp.
  pose proof (StronglySorted_merge_sort Z.le l) as Hs.
  destruct (merge_sort Z.le l) as [|x l'] eqn:E; cbn.
  - split; [discriminate|]. intros [Hin _].
    rewrite <- Hp in Hin. by apply elem_of_nil in Hin.
  - apply StronglySorted_inv in Hs as [_ Hx]. rewrite Forall_forall in Hx.
    assert (Hmin : ∀ m, m ∈ l → x ≤ m).
    { intros m Hm. rewrite <- Hp in Hm. apply elem_of_cons in Hm as [->|Hm].
      - lia.
      - by apply Hx. }
    assert (Hxl : x ∈ l) by (rewrite <- Hp; left).
    split.
    + intros [= <-]. auto.
    + intros [Hn Hle]. f_equal.
      specialize (Hmin n Hn). specialize (Hle x Hxl). lia.
Qed.

Lemma head_sorted_None (l : list Z) :
  head (merge_sort Z.le l) = None ↔ l = [].
Proof.
  pose proof (merge_sort_Permutation Z.le l) as Hp.
  destruct (merge_sort Z.le l) as [|x l'] eqn:E; cbn.
  - split; [|done]. intros _. by apply Permutation_nil.
  - split; [discriminate|]. intros ->.
    symmetry in Hp. by apply Permutation_nil_cons in Hp.
Qed.

Lemma free_keys_spec (t : gmap Z seat_row) ty n :
  n ∈ (map_to_list (filter (λ kr, Sql.free_of_type ty kr.2 = true) t)).*1
  ↔ free_seat t ty n.
Proof.
  unfold free_seat. rewrite list_elem_of_fmap. split.
  - intros [[k r] [-> Hin]]. cbn.
    apply elem_of_map_to_list, map_lookup_filter_Some in Hin as [Hl Hf].
    cbn in Hf. apply free_of_type_true in Hf. eauto.
  - intros (r & Hl & Hb & Hty). exists (n, r). split; [done|].
    apply elem_of_map_to_list, map_lookup_filter_Some. split; [done|].
    cbn. by apply free_of_type_true.
Qed.

Lemma first_free_Some (t : gmap Z seat_row) ty n :
  Sql.first_free t ty = Some n
  ↔ free_seat t ty n ∧ ∀ m, free_seat t ty m → n ≤ m.
Proof.
  unfold Sql.first_free. rewrite head_sorted_Some, free_keys_spec.
  split; intros [H1 H2]; (split; [done|]); intros m Hm; apply H2.
  - by apply free_keys_spec.
  - by apply free_keys_spec in Hm.
Qed.

Lemma first_free_None (t : gmap Z seat_row) ty :
  Sql.first_free t ty = None ↔ ∀ m, ¬ free_seat t ty m.
Proof.
  unfold Sql.first_free. rewrite head_sorted_None. split.
  - intros E m Hm. apply free_keys_spec in Hm. rewrite E in Hm.
    by apply elem_of_nil in Hm.
  - intros H.
    destruct (map_to_list _).*1 as [|k l] eqn:E; [done|].
    exfalso. apply (H k), free_keys_spec. rewrite E. left.
Qed.

Lemma select_train_is_Some s tn :
  is_Some (head (filter (λ r, train_number r = tn) (trains s))) ↔ known s tn.
Proof.
  unfold known. rewrite <- not_eq_None_Some, head_None. split.
  - intros H. destruct (filter _ (trains s)) as [|r l] eqn:E; [done|].
    assert (r ∈ filter (λ r, train_number r = tn) (trains s)) as Hf
      by (rewrite E; left).
    apply list_elem_of_filter in Hf as [Hr Hin]. eauto.
  - intros (r & Hin & Hr) E.
    assert (r ∈ filter (λ r, train_number r = tn) (trains s)) as Hf
      by (by apply list_elem_of_filter).
    rewrite E in Hf. by apply elem_of_nil in Hf.
Qed.

Lemma allocate_run tn ty s :
  valid_train_number tn →
  ∃ t, inventory (ensured tn default_total_seats s) tn = Some t
     ∧ allocate_next_available_seat tn ty s
       = (Ret (Sql.first_free t ty), ensured tn default_total_seats s).
Proof.
  intros Hv. unfold allocate_next_available_seat.
  unfold mbind at 1, M_bind at 1. rewrite (ensure_seat_table_run _ _ _ Hv).
  rewrite (seat_table_name_valid _ Hv). run_step. fold (table_key tn).
  assert (is_Some (inventory (ensured tn default_total_seats s) tn)) as [t Ht].
  { unfold ensured, inventory, put_inventory.
    destruct (seat_tables s !! table_key tn) as [t|] eqn:E.
    - destruct (decide (t = ∅)); cbn; [rewrite lookup_insert_eq|]; eauto.
    - cbn. rewrite lookup_insert_eq; eauto. }
  exists t. split; [done|]. unfold inventory in Ht. rewrite Ht. reflexivity.
Qed.

Lemma book_ticket_unknown tn name age gender ty s :
  ¬ known s tn →
  book_ticket tn name age gender ty s = (Ret (err_no_such_train tn), s).
Proof.
  intros Hk. unfold book_ticket. run_step.
  rewrite bool_decide_eq_false_2; [done|]. by rewrite select_train_is_Some.
Qed.

Lemma book_ticket_run tn name age gender ty s :
  known s tn → valid_train_number tn →
  ∃ t, inventory (ensured tn default_total_seats s) tn = Some t
     ∧ book_ticket tn name age gender ty s
       = if truthy_seat (Sql.first_free t ty)
         then
           if forallb Sql.sqlite_integer [age; default 0 (Sql.first_free t ty)]
           then (Ret (ok_booked (default 0 (Sql.first_free t ty)) ty name),
                 put_inventory tn
                   (alter (set_booked (PyStr.strip name) age gender)
                      (default 0 (Sql.first_free t ty)) t)
                   (ensured tn default_total_seats s))
           else (Raise OverflowError, ensured tn default_total_seats s)
         else (Ret (err_no_available_seat ty), ensured tn default_total_seats s).
Proof.
  intros Hk Hv. destruct (allocate_run tn ty s Hv) as (t & Ht & Hrun).
  exists t. split; [done|]. unfold book_ticket.
  unfold mbind at 1, M_bind at 1. unfold Sql.select_train at 1.
  rewrite bool_decide_eq_true_2 by (by rewrite select_train_is_Some).
  cbn [negb]. unfold mbind at 1, M_bind at 1. rewrite Hrun.
  destruct (truthy_seat (Sql.first_free t ty)); cbn [negb]; [|reflexivity].
  rewrite (seat_table_name_valid _ Hv). run_step. fold (table_key tn).
  unfold inventory in Ht. rewrite Ht.
  destruct (forallb _ _); reflexivity.
Qed.

Lemma book_ticket_invalid tn name age gender ty s :
  known s tn → ¬ valid_train_number tn →
  book_ticket tn name age gender ty s = (Raise ValueError, s).
Proof.
  intros Hk Hv. unfold book_ticket.
  unfold mbind at 1, M_bind at 1. unfold Sql.select_train at 1.
  rewrite bool_decide_eq_true_2 by (by rewrite select_train_is_Some).
  cbn [negb]. unfold mbind at 1, M_bind at 1.
  unfold allocate_next_available_seat. unfold mbind at 1, M_bind at 1.
  by rewrite (ensure_seat_table_invalid _ _ _ Hv).
Qed.

Lemma cancel_tickets_unknown tn n s :
  ¬ known s tn → cancel_tickets tn n s = (Ret (err_no_such_train tn), s).
Proof.
  intros Hk. unfold cancel_tickets. run_step.
  rewrite bool_decide_eq_false_2; [done|]. by rewrite select_train_is_Some.
Qed.

Lemma cancel_tickets_run tn n s :
  known s tn → valid_train_number tn →
  cancel_tickets tn n s
  = match inventory s tn with
    | None => (Raise OperationalError, s)
    | Some t =>
      if Sql.sqlite_integer n
      then match t !! n with
           | None => (Ret (err_seat_missing n tn), s)
           | Some _ => (Ret (ok_cancelled n tn),
                        put_inventory tn (alter set_cancelled n t) s)
           end
      else (Raise OverflowError, s)
    end.
Proof.
  intros Hk Hv. unfold cancel_tickets.
  unfold mbind at 1, M_bind at 1. unfold Sql.select_train at 1.
  rewrite bool_decide_eq_true_2 by (by rewrite select_train_is_Some).
  cbn [negb]. rewrite (seat_table_name_valid _ Hv). run_step.
  fold (table_key tn). unfold inventory.
  destruct (seat_tables s !! table_key tn) as [t|] eqn:Ht; [|reflexivity].
  cbn [forallb]. rewrite andb_true_r.
  destruct (Sql.sqlite_integer n); [|reflexivity].
  destruct (t !! n) as [r|] eqn:Hn; cbn.
  - rewrite Ht. reflexivity.
  - reflexivity.
Qed.

Lemma cancel_tickets_invalid tn n s :
  known s tn → ¬ valid_train_number tn →
  cancel_tickets tn n s = (Raise ValueError, s).
Proof.
  intros Hk Hv. unfold cancel_tickets.
  unfold mbind at 1, M_bind at 1. unfold Sql.select_train at 1.
  rewrite bool_decide_eq_true_2 by (by rewrite select_train_is_Some).
  cbn [negb]. by rewrite (seat_table_name_invalid _ Hv).
Qed.

Lemma truthy_true s : PyStr.truthy s = true ↔ s ≠ "".
Proof. destruct s; cbn; split; congruence. Qed.

Lemma add_train_missing_field tn name d start end_ s :
  ¬ fields_given tn name start end_ →
  add_train tn name d start end_ s = (Ret err_all_fields_required, s).
Proof.
  intros H. unfold add_train.
  destruct (PyStr.truthy tn) eqn:E1, (PyStr.truthy name) eqn:E2,
    (PyStr.truthy start) eqn:E3, (PyStr.truthy end_) eqn:E4; try reflexivity.
  exfalso. apply H. unfold fields_given. by rewrite <- !truthy_true.
Qed.

Lemma add_train_bad_number tn name d start end_ s :
  fields_given tn name start end_ → ¬ valid_train_number tn →
  add_train tn name d start end_ s = (Ret err_train_number_chars, s).
Proof.
  intros (H1 & H2 & H3 & H4) Hv. unfold add_train.
  apply truthy_true in H1, H2, H3, H4. rewrite H1, H2, H3, H4. cbn.
  unfold sanitize_train_number, valid_train_number in *.
  destruct (PyStr.fullmatch_word_plus tn); [done | reflexivity].
Qed.

Lemma add_train_duplicate tn name d start end_ s :
  fields_given tn name start end_ → valid_train_number tn → known s tn →
  add_train tn name d start end_ s = (Ret (err_train_exists tn), s).
Proof.
  intros (H1 & H2 & H3 & H4) Hv Hk. unfold add_train.
  apply truthy_true in H1, H2, H3, H4. rewrite H1, H2, H3, H4. cbn.
  unfold sanitize_train_number. rewrite Hv. cbn. run_step.
  by rewrite bool_decide_eq_true_2 by (by rewrite select_train_is_Some).
Qed.

Lemma add_train_run tn name d start end_ s :
  fields_given tn name start end_ → valid_train_number tn → ¬ known s tn →
  add_train tn name d start end_ s
  = (Ret (ok_train_added name tn),
     ensured tn default_total_seats
       (Db (trains s ++ [TrainRow tn name (departure_date_str d) start end_])
           (seat_tables s))).
Proof.
  intros (H1 & H2 & H3 & H4) Hv Hk. unfold add_train.
  apply truthy_true in H1, H2, H3, H4. rewrite H1, H2, H3, H4. cbn.
  unfold sanitize_train_number. rewrite Hv. cbn.
  unfold mbind at 1, M_bind at 1. unfold Sql.select_train at 1.
  rewrite bool_decide_eq_false_2 by (by rewrite select_train_is_Some).
  unfold mbind at 1, M_bind at 1. unfold Sql.insert_train at 1.
  unfold mbind at 1, M_bind at 1. rewrite (ensure_seat_table_run _ _ _ Hv).
  reflexivity.
Qed.

Lemma delete_train_unknown tn d s :
  ¬ known s tn → delete_train tn d s = (Ret (err_no_such_train tn), s).
Proof.
  intros Hk. unfold delete_train. run_step.
  destruct (head _) as [r|] eqn:E; [|done].
  exfalso. apply Hk, select_train_is_Some. rewrite E. eauto.
Qed.

Lemma delete_train_run tn d s r :
  find_train s tn = Some r →
  delete_train tn d s
  = if decide (stored_date r = departure_date_str d)
    then match seat_table_name tn with
         | Raise _ => (Ret err_train_number_chars, s)
         | Ret _ =>
           (Ret (ok_train_deleted tn),
            Db (filter (λ r, train_number r ≠ tn) (trains s))
               (delete (table_key tn) (seat_tables s)))
         end
    else (Ret err_date_mismatch, s).
Proof.
  unfold find_train. intros Hf. unfold delete_train.
  unfold mbind at 1, M_bind at 1. unfold Sql.select_train at 1. rewrite Hf.
  destruct (decide (stored_date r = departure_date_str d)) as [E|E].
  - rewrite bool_decide_eq_false_2 by (by intros ?).
    unfold seat_table_name, sanitize_train_number.
    destruct (PyStr.fullmatch_word_plus tn); reflexivity.
  - by rewrite bool_decide_eq_true_2.
Qed.

(** ** The invariant of the reachable states *)

Lemma known_dec s tn : known s tn ∨ ¬ known s tn.
Proof.
  rewrite <- select_train_is_Some.
  destruct (head (filter (λ r, train_number r = tn) (trains s))); [left|right].
  - eauto.
  - by intros [? ?].
Qed.

Lemma valid_dec tn : valid_train_number tn ∨ ¬ valid_train_number tn.
Proof.
  unfold valid_train_number.
  destruct (PyStr.fullmatch_word_plus tn); [by left | by right].
Qed.

Lemma fresh_row_whole n : seat_whole (fresh_row n).
Proof. right. by repeat split. Qed.

Lemma set_booked_whole name age gender r :
  seat_whole (set_booked name age gender r).
Proof. left. repeat split; cbn; eauto. Qed.

Lemma set_cancelled_whole r : seat_whole (set_cancelled r).
Proof. right. by repeat split. Qed.

Lemma seeded_ok : table_ok (seeded default_total_seats).
Proof.
  intros n. rewrite seeded_lookup. case_bool_decide as H; [|done].
  split; [done|]. split; [done | apply fresh_row_whole].
Qed.

Lemma ensured_cases tn total s :
  ensured tn total s = s
  ∨ ensured tn total s = put_inventory tn (seeded total) s.
Proof.
  unfold ensured. destruct (inventory s tn) as [t|]; [|by right].
  destruct (decide (t = ∅)); [by right | by left].
Qed.

Lemma ensured_trains tn total s : trains (ensured tn total s) = trains s.
Proof. destruct (ensured_cases tn total s) as [-> | ->]; reflexivity. Qed.

Lemma put_inventory_lookup tn t s k :
  seat_tables (put_inventory tn t s) !! k
  = if decide (table_key tn = k) then Some t else seat_tables s !! k.
Proof. unfold put_inventory. cbn. apply lookup_insert. Qed.

Lemma wf_put_seeded tn s :
  wf s → wf (put_inventory tn (seeded default_total_seats) s).
Proof.
  intros [H1 H2 H3]. split.
  - exact H1.
  - intros k t. rewrite put_inventory_lookup. case_decide.
    + intros [= <-]. apply seeded_ok.
    + apply H2.
  - intros k t. rewrite put_inventory_lookup. case_decide.
    + intros [= <-]. by right.
    + apply H3.
Qed.

Lemma wf_ensured tn s : wf s → wf (ensured tn default_total_seats s).
Proof.
  intros Hwf. destruct (ensured_cases tn default_total_seats s) as [-> | ->].
  - done.
  - by apply wf_put_seeded.
Qed.

(** An update of one row that keeps the seat type and leaves the seat
    whole keeps the state well formed, when the train is known. *)
Lemma wf_put_alter tn t n f s :
  wf s → known s tn → inventory s tn = Some t →
  (∀ r, seat_type (f r) = seat_type r ∧ seat_whole (f r)) →
  wf (put_inventory tn (alter f n t) s).
Proof.
  intros [H1 H2 H3] (r0 & Hin & Hr0) Ht Hf. split.
  - exact H1.
  - intros k t'. rewrite put_inventory_lookup. case_decide; [|apply H2].
    intros [= <-] m. specialize (H2 _ _ Ht m). rewrite lookup_alter.
    case_decide; [subst m|done].
    destruct (t !! n) as [r|]; cbn; [|done].
    destruct H2 as (Hn & Hty & _). destruct (Hf r) as [-> Hw]. done.
  - intros k t'. rewrite put_inventory_lookup. case_decide; [|apply H3].
    intros _. left. exists r0. by subst.
Qed.

Lemma wf_init : wf init_db.
Proof. split; cbn; intros *; try by rewrite ?lookup_empty. by intros ?%elem_of_nil. Qed.

Lemma wf_ensure_seat_table tn s :
  wf s → wf (ensure_seat_table tn default_total_seats s).2.
Proof.
  intros Hwf. destruct (valid_dec tn) as [Hv|Hv].
  - rewrite (ensure_seat_table_run _ _ _ Hv). by apply wf_ensured.
  - by rewrite (ensure_seat_table_invalid _ _ _ Hv).
Qed.

Lemma wf_book_ticket tn name age gender ty s :
  wf s → wf (book_ticket tn name age gender ty s).2.
Proof.
  intros Hwf. destruct (known_dec s tn) as [Hk|Hk].
  2: by rewrite (book_ticket_unknown _ _ _ _ _ _ Hk).
  destruct (valid_dec tn) as [Hv|Hv].
  2: by rewrite (book_ticket_invalid _ _ _ _ _ _ Hk Hv).
  destruct (book_ticket_run tn name age gender ty s Hk Hv) as (t & Ht & ->).
  pose proof (wf_ensured tn s Hwf) as Hwf'.
  destruct (truthy_seat _); cbn [snd]; [|done].
  destruct (forallb _ _); cbn [snd]; [|done].
  apply wf_put_alter; try done.
  - destruct Hk as (r & Hin & Hr). exists r. by rewrite ensured_trains.
  - intros r. split; [done | apply set_booked_whole].
Qed.

Lemma wf_cancel_tickets tn n s : wf s → wf (cancel_tickets tn n s).2.
Proof.
  intros Hwf. destruct (known_dec s tn) as [Hk|Hk].
  2: by rewrite (cancel_tickets_unknown _ _ _ Hk).
  destruct (valid_dec tn) as [Hv|Hv].
  2: by rewrite (cancel_tickets_invalid _ _ _ Hk Hv).
  rewrite (cancel_tickets_run _ _ _ Hk Hv).
  destruct (inventory s tn) as [t|] eqn:Ht; [|done].
  destruct (Sql.sqlite_integer n); [|done].
  destruct (t !! n) eqn:Hn; cbn; [|done].
  apply wf_put_alter; try done.
  intros r. split; [done | apply set_cancelled_whole].
Qed.

Lemma fields_dec tn name start end_ :
  fields_given tn name start end_ ∨ ¬ fields_given tn name start end_.
Proof.
  unfold fields_given.
  destruct tn, name, start, end_; try (right; intros (?&?&?&?); congruence).
  left. repeat split; congruence.
Qed.

Lemma wf_add_train tn name d start end_ s :
  wf s → wf (add_train tn name d start end_ s).2.
Proof.
  intros Hwf. destruct (fields_dec tn name start end_) as [Hf|Hf].
  2: by rewrite (add_train_missing_field _ _ _ _ _ _ Hf).
  destruct (valid_dec tn) as [Hv|Hv].
  2: by rewrite (add_train_bad_number _ _ _ _ _ _ Hf Hv).
  destruct (known_dec s tn) as [Hk|Hk].
  1: by rewrite (add_train_duplicate _ _ _ _ _ _ Hf Hv Hk).
  rewrite (add_train_run _ _ _ _ _ _ Hf Hv Hk). cbn.
  apply wf_ensured. destruct Hwf as [H1 H2 H3]. split; cbn.
  - intros r [Hr|Hr]%elem_of_app; [by apply H1|].
    apply list_elem_of_singleton in Hr as ->. done.
  - exact H2.
  - intros k t Hkt. destruct (H3 k t Hkt) as [(r & Hin & Hr)|Ht]; [left|by right].
    exists r. split; [|done]. apply elem_of_app. by left.
Qed.

Lemma wf_delete_train tn d s : wf s → wf (delete_train tn d s).2.
Proof.
  intros Hwf. destruct (find_train s tn) as [r|] eqn:Hf.
  2: { rewrite delete_train_unknown; [done|].
       rewrite <- select_train_is_Some. fold (find_train s tn).
       rewrite Hf. by intros [? ?]. }
  rewrite (delete_train_run _ _ _ _ Hf).
  destruct (decide _); [|done].
  destruct (seat_table_name tn); [|done]. cbn.
  destruct Hwf as [H1 H2 H3]. split; cbn.
  - intros r' [_ Hr]%list_elem_of_filter. by apply H1.
  - intros k t [_ Hkt]%lookup_delete_Some. by apply (H2 k).
  - intros k t [Hne Hkt]%lookup_delete_Some.
    destruct (H3 k t Hkt) as [(r' & Hin & Hr)|Ht]; [left|by right].
    exists r'. split; [|done]. apply list_elem_of_filter. split; [|done].
    intros E. apply Hne. by rewrite <- Hr, E.
Qed.

Lemma step_wf s s' : step s s' → wf s → wf s'.
Proof.
  intros [] Hwf;
    auto using wf_add_train, wf_delete_train, wf_book_ticket,
      wf_cancel_tickets, wf_ensure_seat_table.
Qed.

Lemma reachable_wf s : reachable s → wf s.
Proof. induction 1; eauto using wf_init, step_wf. Qed.

Lemma reachable_known_valid s tn :
  reachable s → known s tn → valid_train_number tn.
Proof.
  intros Hr (r & Hin & <-). by apply (wf_numbers _ (reachable_wf _ Hr)).
Qed.

(** ** Reading the state after an operation *)

Lemma inventory_put tn t s : inventory (put_inventory tn t s) tn = Some t.
Proof. unfold inventory. rewrite put_inventory_lookup. by case_decide. Qed.

Lemma seat_put tn t s n : seat (put_inventory tn t s) tn n = t !! n.
Proof. unfold seat. by rewrite inventory_put. Qed.

Lemma tables_put_other tn t s k :
  k ≠ table_key tn → seat_tables (put_inventory tn t s) !! k = seat_tables s !! k.
Proof. intros H. rewrite put_inventory_lookup. case_decide; congruence. Qed.

Lemma ensured_nonempty tn total s t :
  inventory s tn = Some t → t ≠ ∅ → ensured tn total s = s.
Proof. unfold ensured. intros -> H. by case_decide. Qed.

Lemma table_ok_nonempty t : table_ok t → t ≠ ∅.
Proof.
  intros H E. specialize (H 1). rewrite E, lookup_empty in H.
  apply H. unfold default_total_seats. lia.
Qed.

Lemma ensured_seat_preserved tn total s tn' m r :
  seat s tn' m = Some r → seat (ensured tn total s) tn' m = Some r.
Proof.
  unfold ensured, seat, inventory. intros H.
  assert (∀ t, (seat_tables s !! table_key tn = None
                ∨ seat_tables s !! table_key tn = Some ∅) →
     seat_tables (put_inventory tn t s) !! table_key tn' ≫= (.!! m) = Some r)
    as Hput.
  { intros t Hold. rewrite put_inventory_lookup. case_decide as E; [|done].
    rewrite <- E in H. destruct Hold as [Hold|Hold]; rewrite Hold in H; cbn in H.
    - discriminate.
    - by rewrite lookup_empty in H. }
  destruct (seat_tables s !! table_key tn) as [t|] eqn:Ht.
  - case_decide as E; [subst t; apply Hput; by right | done].
  - apply Hput. by left.
Qed.

Lemma categorize_seat_values n :
  categorize_seat n ∈ ["Window"; "Aisle"; "Middle"].
Proof.
  unfold categorize_seat. repeat case_bool_decide.
  - left.
  - right. left.
  - do 2 right. left.
Qed.

(** In a state the program reaches, a seat table holds the seats 1..50. *)
Lemma reachable_inventory_range s tn t n :
  reachable s → inventory s tn = Some t →
  is_Some (t !! n) ↔ 1 ≤ n ≤ default_total_seats.
Proof.
  intros Hr Ht. pose proof (wf_tables _ (reachable_wf _ Hr) _ _ Ht n) as H.
  destruct (t !! n).
  - split; [tauto | eauto].
  - split; [by intros [? ?] | tauto].
Qed.

Lemma sqlite_integer_true n :
  Sql.sqlite_integer n = true ↔ - 2 ^ 63 ≤ n < 2 ^ 63.
Proof.
  unfold Sql.sqlite_integer. rewrite andb_true_iff, Z.leb_le, Z.ltb_lt.
  reflexivity.
Qed.

Lemma seat_number_sqlite_integer n :
  1 ≤ n ≤ default_total_seats → Sql.sqlite_integer n = true.
Proof.
  intros H. apply sqlite_integer_true. unfold default_total_seats in H. lia.
Qed.

Lemma wf_seats_whole s : wf s → seats_whole s.
Proof.
  intros Hwf k t n r Ht Hn. pose proof (wf_tables _ Hwf _ _ Ht n) as H.
  rewrite Hn in H. tauto.
Qed.

(** ** Stripping *)

Lemma all_chars_spec p s :
  PyStr.all_chars p s = true ↔ ∀ c, c ∈ list_ascii_of_string s → p c = true.
Proof.
  induction s as [|a s IH]; cbn.
  - split; [|done]. intros _ c Hc. by apply elem_of_nil in Hc.
  - rewrite andb_true_iff, IH. split.
    + intros [Ha Hs] c [->|Hc]%elem_of_cons; auto.
    + intros H. split; [apply H; left | intros c Hc; apply H; by right].
Qed.

Lemma chars_rev_app s1 s2 :
  list_ascii_of_string (String.rev_app s1 s2)
  = (reverse (list_ascii_of_string s1) ++ list_ascii_of_string s2)%list.
Proof.
  revert s2. induction s1 as [|a s1 IH]; intros s2; [done|].
  cbn [String.rev_app list_ascii_of_string].
  rewrite IH, reverse_cons. cbn [list_ascii_of_string].
  by rewrite <- app_assoc.
Qed.

Lemma chars_rev s :
  list_ascii_of_string (String.rev s) = reverse (list_ascii_of_string s).
Proof. unfold String.rev. by rewrite chars_rev_app, app_nil_r. Qed.

Lemma chars_app s1 s2 :
  list_ascii_of_string (s1 +:+ s2)
  = (list_ascii_of_string s1 ++ list_ascii_of_string s2)%list.
Proof.
  induction s1 as [|a s1 IH]; [done|].
  change (String a s1 +:+ s2) with (String a (s1 +:+ s2)).
  cbn [list_ascii_of_string app]. by rewrite IH.
Qed.

Lemma chars_inj s1 s2 :
  list_ascii_of_string s1 = list_ascii_of_string s2 → s1 = s2.
Proof.
  intros H. rewrite <- (string_of_list_ascii_of_string s1),
    <- (string_of_list_ascii_of_string s2). by rewrite H.
Qed.

(** A string is blank when each of its characters is white space. *)
Lemma lstrip_split s :
  ∃ pre, s = pre +:+ PyStr.lstrip s ∧ PyStr.all_chars PyStr.isspace pre = true.
Proof.
  induction s as [|a s (pre & E & Hpre)]; cbn.
  - by exists "".
  - destruct (PyStr.isspace a) eqn:Ha.
    + exists (String a pre). cbn. rewrite Ha, Hpre. split; [|done].
      change (String a pre +:+ PyStr.lstrip s)
        with (String a (pre +:+ PyStr.lstrip s)).
      by rewrite <- E.
    + by exists "".
Qed.

Lemma lstrip_head s c rest :
  PyStr.lstrip s = String c rest → PyStr.isspace c = false.
Proof.
  induction s as [|a s IH]; cbn; [discriminate|].
  destruct (PyStr.isspace a) eqn:Ha; [done|]. by intros [= <- _].
Qed.

Lemma lstrip_id s :
  (∀ c rest, s = String c rest → PyStr.isspace c = false) → PyStr.lstrip s = s.
Proof.
  destruct s as [|a s]; [done|]. intros H. cbn.
  by rewrite (H a s eq_refl).
Qed.

Lemma rev_rev s : String.rev (String.rev s) = s.
Proof. apply chars_inj. by rewrite !chars_rev, reverse_involutive. Qed.

Lemma rev_app s1 s2 : String.rev (s1 +:+ s2) = String.rev s2 +:+ String.rev s1.
Proof.
  apply chars_inj. by rewrite chars_rev, !chars_app, !chars_rev, reverse_app.
Qed.

Lemma all_chars_rev p s :
  PyStr.all_chars p (String.rev s) = PyStr.all_chars p s.
Proof.
  apply eq_true_iff_eq. rewrite !all_chars_spec, chars_rev.
  split; intros H c Hc; apply H.
  - by apply elem_of_reverse.
  - by apply elem_of_reverse.
Qed.

Lemma rstrip_split s :
  ∃ post, s = PyStr.rstrip s +:+ post ∧ PyStr.all_chars PyStr.isspace post = true.
Proof.
  unfold PyStr.rstrip.
  destruct (lstrip_split (String.rev s)) as (pre & E & Hpre).
  exists (String.rev pre). split; [|by rewrite all_chars_rev].
  rewrite <- rev_app, <- E. by rewrite rev_rev.
Qed.

Lemma rstrip_last s init c :
  PyStr.rstrip s = init +:+ String c "" → PyStr.isspace c = false.
Proof.
  unfold PyStr.rstrip. intros H.
  apply (f_equal String.rev) in H. rewrite rev_rev, rev_app in H.
  by apply lstrip_head in H.
Qed.

(** Taking white space off the end keeps the first character. *)
Lemma rstrip_head s c rest :
  PyStr.rstrip s = String c rest → ∃ rest', s = String c rest'.
Proof.
  intros H. destruct (rstrip_split s) as (post & E & _).
  rewrite H in E. cbn in E. eauto.
Qed.

Lemma rstrip_id s :
  (∀ init c, s = init +:+ String c "" → PyStr.isspace c = false) →
  PyStr.rstrip s = s.
Proof.
  intros H. unfold PyStr.rstrip. rewrite lstrip_id; [apply rev_rev|].
  intros c rest E. apply (H (String.rev rest) c).
  apply (f_equal String.rev) in E. rewrite rev_rev in E. rewrite E.
  change (String c rest) with (String c "" +:+ rest). by rewrite rev_app.
Qed.

Lemma strip_split s :
  ∃ pre post,
    s = pre +:+ PyStr.strip s +:+ post
    ∧ PyStr.all_chars PyStr.isspace pre = true
    ∧ PyStr.all_chars PyStr.isspace post = true.
Proof.
  destruct (lstrip_split s) as (pre & E1 & Hpre).
  destruct (rstrip_split (PyStr.lstrip s)) as (post & E2 & Hpost).
  exists pre, post. split; [|done]. unfold PyStr.strip. by rewrite <- E2.
Qed.

Lemma strip_head s c rest :
  PyStr.strip s = String c rest → PyStr.isspace c = false.
Proof.
  unfold PyStr.strip. intros H.
  apply rstrip_head in H as [rest' H]. by apply lstrip_head in H.
Qed.

Lemma strip_last s init c :
  PyStr.strip s = init +:+ String c "" → PyStr.isspace c = false.
Proof. unfold PyStr.strip. intros H. by apply rstrip_last in H. Qed.

Lemma isspace_white_space c : PyStr.isspace c = true ↔ white_space c.
Proof.
  unfold white_space.
  assert (PyStr.isspace c
          = bool_decide (N_of_ascii c
                         ∈ [9; 10; 11; 12; 13; 28; 29; 30; 31; 32; 133; 160]%N))
    as ->.
  { destruct c as [[] [] [] [] [] [] [] []]; vm_compute; reflexivity. }
  apply bool_decide_eq_true.
Qed.

Lemma all_isspace_blank x : PyStr.all_chars PyStr.isspace x = true ↔ blank x.
Proof.
  rewrite all_chars_spec. unfold blank.
  split; intros H c Hc; by apply isspace_white_space, H.
Qed.

Lemma strip_trimmed_of name : trimmed_of name (PyStr.strip name).
Proof.
  split; [|split].
  - destruct (strip_split name) as (pre & post & E & Hpre & Hpost).
    exists pre, post. by rewrite <- !all_isspace_blank.
  - intros c rest E Hc. apply isspace_white_space in Hc.
    by rewrite (strip_head _ _ _ E) in Hc.
  - intros init c E Hc. apply isspace_white_space in Hc.
    by rewrite (strip_last _ _ _ E) in Hc.
Qed.

(** * Properties of the specification *)

(** C2.  The classification of a seat number [n] is a function of
    [n mod 10]: the residues 0, 4, 5 and 9 give Window, the residues 2, 3, 6
    and 7 give Aisle, and the residues 1 and 8 give Middle; every integer
    falls in one of the three cases. *)
Theorem categorize_seat_rule (n : Z) :
  (n mod 10 = 0 ∨ n mod 10 = 4 ∨ n mod 10 = 5 ∨ n mod 10 = 9
     → categorize_seat n = "Window")
  ∧ (n mod 10 = 2 ∨ n mod 10 = 3 ∨ n mod 10 = 6 ∨ n mod 10 = 7
     → categorize_seat n = "Aisle")
  ∧ (n mod 10 = 1 ∨ n mod 10 = 8 → categorize_seat n = "Middle")
  ∧ (n mod 10 = 0 ∨ n mod 10 = 4 ∨ n mod 10 = 5 ∨ n mod 10 = 9
     ∨ n mod 10 = 2 ∨ n mod 10 = 3 ∨ n mod 10 = 6 ∨ n mod 10 = 7
     ∨ n mod 10 = 1 ∨ n mod 10 = 8).
Proof.
  unfold categorize_seat.
  pose proof (Z.mod_pos_bound n 10 ltac:(lia)) as Hb.
  assert (Hcase : n mod 10 = 0 ∨ n mod 10 = 1 ∨ n mod 10 = 2 ∨ n mod 10 = 3
                  ∨ n mod 10 = 4 ∨ n mod 10 = 5 ∨ n mod 10 = 6
                  ∨ n mod 10 = 7 ∨ n mod 10 = 8 ∨ n mod 10 = 9) by lia.
  repeat split; [intros H .. | lia];
    decompose [or] Hcase; clear Hcase;
    match goal with E : n mod 10 = _ |- _ => rewrite E in * end;
    first [reflexivity | lia].
Qed.

Lemma categorize_seat_rule_witness :
  categorize_seat 24 = "Window" ∧ categorize_seat (-3) = "Aisle"
  ∧ categorize_seat 41 = "Middle".
Proof.
  split; [|split].
  - apply (proj1 (categorize_seat_rule 24)). right. left. reflexivity.
  - apply (proj1 (proj2 (categorize_seat_rule (-3)))).
    do 3 right. reflexivity.
  - apply (proj1 (proj2 (proj2 (categorize_seat_rule 41)))).
    left. reflexivity.
Defined.

(** C1.  For a train number that names a seat table,
    [allocate_next_available_seat] returns without raising, leaves the
    state that [ensure_seat_table] leaves, and its result is read off the
    inventory [t] of the train in that state: [Some n] exactly when [n] is
    the smallest number of an unbooked seat of the requested type, [None]
    exactly when the inventory has no unbooked seat of that type.  An
    inventory that already has seats is that [t], and the state is then
    unchanged. *)
Theorem allocate_next_available_seat_lowest tn ty s :
  valid_train_number tn →
  ∃ res t,
    allocate_next_available_seat tn ty s
      = (Ret res, ensured tn default_total_seats s)
    ∧ inventory (ensured tn default_total_seats s) tn = Some t
    ∧ (∀ n, res = Some n ↔ free_seat t ty n ∧ ∀ m, free_seat t ty m → n ≤ m)
    ∧ (res = None ↔ ∀ m, ¬ free_seat t ty m)
    ∧ (∀ t0, inventory s tn = Some t0 → t0 ≠ ∅ →
         t = t0 ∧ ensured tn default_total_seats s = s).
Proof.
  intros Hv. destruct (allocate_run tn ty s Hv) as (t & Ht & Hrun).
  exists (Sql.first_free t ty), t.
  split; [done|]. split; [done|]. split; [|split].
  - intros n. apply first_free_Some.
  - apply first_free_None.
  - intros t0 Ht0 Hne.
    rewrite (ensured_nonempty _ _ _ _ Ht0 Hne) in Ht |- *.
    split; congruence.
Qed.

Lemma reachable_after_create : reachable after_create.
Proof. apply (reach_step init_db); [apply reach_init | apply step_add]. Qed.

Lemma reachable_after_alice : reachable after_alice.
Proof.
  apply (reach_step after_create); [apply reachable_after_create | apply step_book].
Qed.

Lemma reachable_after_bob : reachable after_bob.
Proof.
  apply (reach_step after_alice); [apply reachable_after_alice | apply step_book].
Qed.


Lemma known_T1_after_alice : known after_alice "T1".
Proof. apply select_train_is_Some. vm_compute. eauto. Qed.

Lemma known_T1_after_bob : known after_bob "T1".
Proof. apply select_train_is_Some. vm_compute. eauto. Qed.

Example alice_then_bob :
  (book_ticket "T1" "Alice" 30 "Female" "Window" after_create).1
    = Ret (ok_booked 4 "Window" "Alice")
  ∧ (book_ticket "T1" "Bob" 40 "Male" "Window" after_alice).1
    = Ret (ok_booked 5 "Window" "Bob")
  ∧ seat after_bob "T1" 4
    = Some (SeatRow "Window" 1 (Some "Alice") (Some 30) (Some "Female"))
  ∧ seat after_bob "T1" 5
    = Some (SeatRow "Window" 1 (Some "Bob") (Some 40) (Some "Male"))
  ∧ seat after_bob "T1" 9 = Some (SeatRow "Window" 0 None None None).
Proof. repeat split; vm_compute; reflexivity. Qed.

Lemma allocate_next_available_seat_lowest_witness :
  ∃ res t,
    allocate_next_available_seat "T1" "Window" after_alice
      = (Ret res, ensured "T1" default_total_seats after_alice)
    ∧ inventory (ensured "T1" default_total_seats after_alice) "T1" = Some t
    ∧ (∀ n, res = Some n
            ↔ free_seat t "Window" n ∧ ∀ m, free_seat t "Window" m → n ≤ m)
    ∧ (res = None ↔ ∀ m, ¬ free_seat t "Window" m)
    ∧ (∀ t0, inventory after_alice "T1" = Some t0 → t0 ≠ ∅ →
         t = t0 ∧ ensured "T1" default_total_seats after_alice = after_alice).
Proof.
  apply (allocate_next_available_seat_lowest "T1" "Window" after_alice).
  reflexivity.
Defined.

Example age_out_of_range :
  book_ticket "T1" "Alice" (2 ^ 63) "Female" "Window" after_create
  = (Raise OverflowError, after_create).
Proof. vm_compute. reflexivity. Qed.

(** C3.  In a state the program reaches, for a known train whose inventory
    has an unbooked seat of the requested type, and an age that SQLite can
    store, [book_ticket] succeeds with the seat [n] that
    [allocate_next_available_seat] returns, the lowest unbooked seat of
    that type; afterwards seat [n] is booked and carries the trimmed
    passenger name, that is the name without the white space at its two
    ends, the age and the gender; every other seat of the inventory is as
    before, and so are the other seat tables and the train records. *)
Theorem book_ticket_books_lowest tn name age gender ty s t :
  reachable s → known s tn → inventory s tn = Some t →
  (∃ m, free_seat t ty m) → - 2 ^ 63 ≤ age < 2 ^ 63 →
  ∃ n s' stored,
    book_ticket tn name age gender ty s = (Ret (ok_booked n ty name), s')
    ∧ allocate_next_available_seat tn ty s = (Ret (Some n), s)
    ∧ free_seat t ty n
    ∧ (∀ m, free_seat t ty m → n ≤ m)
    ∧ seat s' tn n = Some (SeatRow ty 1 (Some stored) (Some age) (Some gender))
    ∧ stored = PyStr.strip name
    ∧ trimmed_of name stored
    ∧ (∀ m, m ≠ n → seat s' tn m = seat s tn m)
    ∧ (∀ k, k ≠ table_key tn → seat_tables s' !! k = seat_tables s !! k)
    ∧ trains s' = trains s.
Proof.
  intros Hr Hk Ht [m0 Hm0] Hage.
  pose proof (reachable_wf _ Hr) as Hwf.
  pose proof (reachable_known_valid _ _ Hr Hk) as Hv.
  pose proof (wf_tables _ Hwf _ _ Ht) as Hok.
  pose proof (ensured_nonempty tn default_total_seats s t Ht
                (table_ok_nonempty _ Hok)) as He.
  destruct (book_ticket_run tn name age gender ty s Hk Hv) as (t' & Ht' & Hbook).
  destruct (allocate_run tn ty s Hv) as (t'' & Ht'' & Halloc).
  rewrite He in *. assert (t' = t) as -> by congruence.
  assert (t'' = t) as -> by congruence.
  destruct (Sql.first_free t ty) as [n|] eqn:Hff.
  2: { exfalso. eapply first_free_None; eauto. }
  apply first_free_Some in Hff as [Hfree Hmin].
  destruct Hfree as (r & Hn & Hb & Hty).
  pose proof (Hok n) as Hrow. rewrite Hn in Hrow. destruct Hrow as (Hrange & _).
  assert (truthy_seat (Some n) = true) as Htr.
  { cbn. apply negb_true_iff, Z.eqb_neq. lia. }
  rewrite Htr in Hbook. change (default 0 (Some n)) with n in Hbook.
  cbn [forallb] in Hbook.
  rewrite (proj2 (sqlite_integer_true age) Hage) in Hbook.
  rewrite (seat_number_sqlite_integer n Hrange) in Hbook.
  cbn [andb] in Hbook.
  exists n, (put_inventory tn
               (alter (set_booked (PyStr.strip name) age gender) n t) s),
    (PyStr.strip name).
  split; [done|]. split; [done|]. split; [by exists r|]. split; [done|].
  split; [|split; [done|split; [apply strip_trimmed_of|split; [|split]]]].
  - rewrite seat_put, lookup_alter_eq, Hn. cbn. unfold set_booked. by rewrite Hty.
  - intros m Hm. rewrite seat_put, lookup_alter_ne by done.
    unfold seat. by rewrite Ht.
  - intros k Hk'. by apply tables_put_other.
  - reflexivity.
Qed.

Lemma book_ticket_books_lowest_witness :
  ∃ s',
    book_ticket "T1" "  Bob " 40 "Male" "Window" after_alice
      = (Ret (ok_booked 5 "Window" "  Bob "), s')
    ∧ allocate_next_available_seat "T1" "Window" after_alice
      = (Ret (Some 5), after_alice)
    ∧ free_seat alice_table "Window" 5
    ∧ (∀ m, free_seat alice_table "Window" m → 5 ≤ m)
    ∧ seat s' "T1" 5
      = Some (SeatRow "Window" 1 (Some "Bob") (Some 40) (Some "Male"))
    ∧ trimmed_of "  Bob " "Bob"
    ∧ (∀ m, m ≠ 5 → seat s' "T1" m = seat after_alice "T1" m)
    ∧ (∀ k, k ≠ table_key "T1" →
         seat_tables s' !! k = seat_tables after_alice !! k)
    ∧ trains s' = trains after_alice.
Proof.
  destruct (book_ticket_books_lowest "T1" "  Bob " 40 "Male" "Window"
              after_alice alice_table)
    as (n & s' & stored & Hbook & Halloc & Hfree & Hmin & Hseat & Hstored
        & Htrim & Hframe).
  - apply reachable_after_alice.
  - apply known_T1_after_alice.
  - vm_compute. reflexivity.
  - exists 5. eexists. split; [vm_compute; reflexivity|]. split; reflexivity.
  - lia.
  - assert (allocate_next_available_seat "T1" "Window" after_alice
            = (Ret (Some 5), after_alice)) as E by (vm_compute; reflexivity).
    assert (n = 5) as -> by congruence.
    assert (stored = "Bob") as -> by (rewrite Hstored; vm_compute; reflexivity).
    exists s'. done.
Defined.

(** What a failed booking of a known train leaves: the state that
    [ensure_seat_table] leaves, in which every seat there was is as before. *)
Lemma book_ticket_no_seat tn name age gender ty s :
  reachable s → known s tn →
  (∀ t, inventory (ensured tn default_total_seats s) tn = Some t →
        ∀ m, ¬ free_seat t ty m) →
  book_ticket tn name age gender ty s
    = (Ret (err_no_available_seat ty), ensured tn default_total_seats s)
  ∧ (is_Some (inventory s tn) → ensured tn default_total_seats s = s).
Proof.
  intros Hr Hk Hnone.
  pose proof (reachable_wf _ Hr) as Hwf.
  pose proof (reachable_known_valid _ _ Hr Hk) as Hv.
  destruct (book_ticket_run tn name age gender ty s Hk Hv) as (t & Ht & ->).
  apply (proj2 (first_free_None t ty)) in Hnone; [|done].
  rewrite Hnone. cbn. split; [done|].
  intros [t0 Ht0]. apply (ensured_nonempty _ _ _ t0); [done|].
  apply table_ok_nonempty, (wf_tables _ Hwf _ _ Ht0).
Qed.

(** C4.  [book_ticket] reports that the train does not exist when no row of
    [trains] has its number, and leaves the state as it is.  In a state the
    program reaches, for a known train whose inventory (as
    [ensure_seat_table] leaves it) has no unbooked seat of the requested
    type, it reports that no seat is available; the train records are as
    before and every seat there was is as before, and when the train had
    its seat table already the whole state is as before. *)
Theorem book_ticket_failures tn name age gender ty s :
  (¬ known s tn →
     book_ticket tn name age gender ty s = (Ret (err_no_such_train tn), s)
     ∧ kind_of (err_no_such_train tn) = Some NotFound)
  ∧ (reachable s → known s tn →
     (∀ t, inventory (ensured tn default_total_seats s) tn = Some t →
           ∀ m, ¬ free_seat t ty m) →
     ∃ s',
       book_ticket tn name age gender ty s = (Ret (err_no_available_seat ty), s')
       ∧ kind_of (err_no_available_seat ty) = Some NoAvailableSeat
       ∧ trains s' = trains s
       ∧ (∀ tn' m r, seat s tn' m = Some r → seat s' tn' m = Some r)
       ∧ (is_Some (inventory s tn) → s' = s)).
Proof.
  split.
  - intros Hk. split; [by apply book_ticket_unknown | reflexivity].
  - intros Hr Hk Hnone.
    destruct (book_ticket_no_seat tn name age gender ty s Hr Hk Hnone)
      as [Hbook Hsame].
    exists (ensured tn default_total_seats s).
    split; [done|]. split; [reflexivity|]. split; [apply ensured_trains|].
    split; [|done]. intros tn' m r. apply ensured_seat_preserved.
Qed.

Lemma reachable_foldl_book (l : list Z) s :
  reachable s →
  reachable (foldl (λ s _, (book_ticket "T1" "Pat" 33 "Other" "Window" s).2) s l).
Proof.
  revert s. induction l as [|x l IH]; intros s Hs; cbn; [done|].
  apply IH. apply (reach_step s); [done | apply step_book].
Qed.

Lemma reachable_windows_sold_out : reachable windows_sold_out.
Proof.
  unfold windows_sold_out. apply reachable_foldl_book, reachable_after_create.
Qed.

Lemma inventory_windows_sold_out :
  inventory (ensured "T1" default_total_seats windows_sold_out) "T1"
  = Some sold_out_table.
Proof. vm_compute. reflexivity. Qed.

Lemma first_free_sold_out : Sql.first_free sold_out_table "Window" = None.
Proof. vm_compute. reflexivity. Qed.

Lemma no_free_window_sold_out t :
  inventory (ensured "T1" default_total_seats windows_sold_out) "T1" = Some t →
  ∀ m, ¬ free_seat t "Window" m.
Proof.
  intros Ht. apply first_free_None.
  pose proof inventory_windows_sold_out as E.
  assert (t = sold_out_table) as -> by (apply (inj Some); by rewrite <- Ht, <- E).
  apply first_free_sold_out.
Qed.

Lemma book_ticket_failures_witness :
  (book_ticket "T9" "Ann" 28 "Female" "Window" after_create
     = (Ret (err_no_such_train "T9"), after_create)
   ∧ kind_of (err_no_such_train "T9") = Some NotFound)
  ∧ ∃ s',
      book_ticket "T1" "Ann" 28 "Female" "Window" windows_sold_out
        = (Ret (err_no_available_seat "Window"), s')
      ∧ kind_of (err_no_available_seat "Window") = Some NoAvailableSeat
      ∧ trains s' = trains windows_sold_out
      ∧ (∀ tn' m r, seat windows_sold_out tn' m = Some r → seat s' tn' m = Some r)
      ∧ (is_Some (inventory windows_sold_out "T1") → s' = windows_sold_out).
Proof.
  split.
  - apply (proj1 (book_ticket_failures "T9" "Ann" 28 "Female" "Window"
                    after_create)).
    rewrite <- select_train_is_Some. vm_compute. by intros [? ?].
  - apply (proj2 (book_ticket_failures "T1" "Ann" 28 "Female" "Window"
                    windows_sold_out)).
    + apply reachable_windows_sold_out.
    + apply select_train_is_Some. vm_compute. eauto.
    + apply no_free_window_sold_out.
Defined.

(** C10.  In a state the program reaches, [book_ticket] for a known train
    with a seat type other than Window, Aisle and Middle is not refused as
    invalid input: it reports that no seat of that type is available; the
    train records are as before and every seat there was is as before, and
    when the train had its seat table already the whole state is as
    before. *)
Theorem book_ticket_other_type tn name age gender ty s :
  reachable s → known s tn → ty ∉ ["Window"; "Aisle"; "Middle"] →
  ∃ s',
    book_ticket tn name age gender ty s = (Ret (err_no_available_seat ty), s')
    ∧ kind_of (err_no_available_seat ty) = Some NoAvailableSeat
    ∧ trains s' = trains s
    ∧ (∀ tn' m r, seat s tn' m = Some r → seat s' tn' m = Some r)
    ∧ (is_Some (inventory s tn) → s' = s).
Proof.
  intros Hr Hk Hty.
  assert (∀ t, inventory (ensured tn default_total_seats s) tn = Some t →
               ∀ m, ¬ free_seat t ty m) as Hnone.
  { intros t Ht m (r & Hm & _ & Hr').
    pose proof (wf_ensured tn s (reachable_wf _ Hr)) as Hwf.
    pose proof (wf_tables _ Hwf _ _ Ht m) as Hok. rewrite Hm in Hok.
    destruct Hok as (_ & Hcat & _).
    apply Hty. rewrite <- Hr', Hcat. apply categorize_seat_values. }
  destruct (book_ticket_no_seat tn name age gender ty s Hr Hk Hnone)
    as [Hbook Hsame].
  exists (ensured tn default_total_seats s).
  split; [done|]. split; [reflexivity|]. split; [apply ensured_trains|].
  split; [|done]. intros tn' m r. apply ensured_seat_preserved.
Qed.

Lemma book_ticket_other_type_witness :
  ∃ s',
    book_ticket "T1" "Ann" 28 "Female" "Sofa" after_alice
      = (Ret (err_no_available_seat "Sofa"), s')
    ∧ kind_of (err_no_available_seat "Sofa") = Some NoAvailableSeat
    ∧ trains s' = trains after_alice
    ∧ (∀ tn' m r, seat after_alice tn' m = Some r → seat s' tn' m = Some r)
    ∧ (is_Some (inventory after_alice "T1") → s' = after_alice).
Proof.
  apply (book_ticket_other_type "T1" "Ann" 28 "Female" "Sofa" after_alice).
  - apply reachable_after_alice.
  - apply known_T1_after_alice.
  - apply (bool_decide_unpack _). vm_compute. exact I.
Defined.




Lemma find_train_known s tn : is_Some (find_train s tn) ↔ known s tn.
Proof. apply select_train_is_Some. Qed.

Lemma reachable_upper_case_left : reachable upper_case_left.
Proof.
  unfold upper_case_left.
  eapply reach_step; [|apply step_delete].
  eapply reach_step; [|apply step_add].
  eapply reach_step; [apply reach_init | apply step_add].
Qed.

(** The forms that lead to [upper_case_left]. *)
Lemma ui_reachable_upper_case_left : ui_reachable upper_case_left.
Proof.
  replace upper_case_left
    with (train_functions (act_delete_train "t1" 2025 1 1)
            (train_functions (act_add_train "T1" "Express" 2025 1 1 "A" "B")
               (train_functions (act_add_train "t1" "Local" 2025 1 1 "A" "B")
                  init_db).2).2).2
    by (vm_compute; reflexivity).
  apply ui_step, ui_step, ui_step, ui_init.
Qed.

(** C5 fails on the code for a known train whose seat table is gone.
    Trains t1 and T1 are added and t1 is deleted, through the functions or
    through the forms: SQLite finds the one table seats_t1 under both
    names, so the deletion of t1 drops the seat table of T1, and
    [cancel_tickets] never calls [ensure_seat_table].  Train T1 is known
    and seat 5 lies in the range 1..50, but [cancel_tickets] raises
    [OperationalError] where the claim has it clear the seat and report
    success; the form Cancel Ticket does not catch the exception. *)
Theorem cancel_tickets_dropped_table :
  reachable upper_case_left
  ∧ ui_reachable upper_case_left
  ∧ known upper_case_left "T1"
  ∧ 1 ≤ 5 ≤ default_total_seats
  ∧ inventory upper_case_left "T1" = None
  ∧ cancel_tickets "T1" 5 upper_case_left
    = (Raise OperationalError, upper_case_left)
  ∧ train_functions (act_cancel_ticket "T1" 5) upper_case_left
    = (Raise OperationalError, upper_case_left).
Proof.
  split; [apply reachable_upper_case_left|].
  split; [apply ui_reachable_upper_case_left|].
  split; [apply select_train_is_Some; vm_compute; eauto|].
  split; [unfold default_total_seats; lia|].
  repeat split; vm_compute; reflexivity.
Qed.

(** C7.  [delete_train] reports that the train does not exist when no row
    of [trains] has its number.  When the date given differs from the date
    stored with the train it reports the mismatch.  In both cases the
    state, with the train record and its seat table, is as before.  In a
    state the program reaches, with the stored date it reports success,
    after which no row of [trains] has the number, the train has no seat
    table, and the records of the other trains are as before. *)
Theorem delete_train_cases tn d s :
  (find_train s tn = None →
     delete_train tn d s = (Ret (err_no_such_train tn), s)
     ∧ kind_of (err_no_such_train tn) = Some NotFound)
  ∧ (∀ r, find_train s tn = Some r →
       stored_date r ≠ departure_date_str d →
       delete_train tn d s = (Ret err_date_mismatch, s)
       ∧ kind_of err_date_mismatch = Some DateMismatch)
  ∧ (∀ r, reachable s → find_train s tn = Some r →
       stored_date r = departure_date_str d →
       ∃ s',
         delete_train tn d s = (Ret (ok_train_deleted tn), s')
         ∧ ¬ known s' tn
         ∧ find_train s' tn = None
         ∧ inventory s' tn = None
         ∧ (∀ r', train_number r' ≠ tn → r' ∈ trains s' ↔ r' ∈ trains s)).
Proof.
  split; [|split].
  - intros Hf. split; [|reflexivity]. apply delete_train_unknown.
    intros Hk%find_train_known. rewrite Hf in Hk. by destruct Hk.
  - intros r Hf Hd. split; [|reflexivity].
    rewrite (delete_train_run _ _ _ _ Hf). by case_decide.
  - intros r Hr Hf Hd.
    assert (known s tn) as Hk.
    { apply find_train_known. rewrite Hf. eauto. }
    pose proof (reachable_known_valid _ _ Hr Hk) as Hv.
    rewrite (delete_train_run _ _ _ _ Hf), (seat_table_name_valid _ Hv).
    case_decide; [|done].
    set (s' := Db (filter (λ r0, train_number r0 ≠ tn) (trains s))
                  (delete (table_key tn) (seat_tables s))).
    exists s'. split; [reflexivity|].
    assert (¬ known s' tn) as Hnk.
    { intros (r' & [Hne _]%list_elem_of_filter & Heq). cbn in Hne. done. }
    split; [done|]. split; [|split].
    + destruct (find_train s' tn) eqn:E; [|done].
      exfalso. apply Hnk, find_train_known. rewrite E. eauto.
    + unfold inventory. cbn. apply lookup_delete_eq.
    + intros r' Hne. cbn. rewrite list_elem_of_filter. tauto.
Qed.

Lemma delete_train_cases_witness :
  (delete_train "T9" (a_date 2025 1 1) after_alice
     = (Ret (err_no_such_train "T9"), after_alice)
   ∧ kind_of (err_no_such_train "T9") = Some NotFound)
  ∧ (delete_train "T1" (a_date 2025 1 2) after_alice
       = (Ret err_date_mismatch, after_alice)
     ∧ kind_of err_date_mismatch = Some DateMismatch)
  ∧ ∃ s',
      delete_train "T1" (a_date 2025 1 1) after_alice
        = (Ret (ok_train_deleted "T1"), s')
      ∧ ¬ known s' "T1"
      ∧ find_train s' "T1" = None
      ∧ inventory s' "T1" = None
      ∧ (∀ r', train_number r' ≠ "T1" → r' ∈ trains s' ↔ r' ∈ trains after_alice).
Proof.
  split; [|split].
  - apply (proj1 (delete_train_cases "T9" (a_date 2025 1 1) after_alice)).
    vm_compute. reflexivity.
  - apply (proj1 (proj2 (delete_train_cases "T1" (a_date 2025 1 2) after_alice))
             (TrainRow "T1" "Express" "2025-01-01" "A" "B")).
    + vm_compute. reflexivity.
    + vm_compute. discriminate.
  - apply (proj2 (proj2 (delete_train_cases "T1" (a_date 2025 1 1) after_alice))
             (TrainRow "T1" "Express" "2025-01-01" "A" "B")).
    + apply reachable_after_alice.
    + vm_compute. reflexivity.
    + vm_compute. reflexivity.
Defined.

Example number_with_space_refused :
  (add_train "12 34" "Express" (a_date 2025 1 1) "A" "B" init_db).1
  = Ret err_train_number_chars.
Proof. reflexivity. Qed.

Example number_with_underscore_accepted :
  (add_train "RJ12_EXP" "Express" (a_date 2025 1 1) "A" "B" init_db).1
  = Ret (ok_train_added "Express" "RJ12_EXP").
Proof. vm_compute. reflexivity. Qed.

(** C8, as the code has it.  [add_train] reports a validation error
    exactly when one of the four text fields (number, name, start, end) is
    empty or the number is not of the form [[A-Za-z0-9_]+]; the state is
    then as before.  The departure date takes no part in the validation,
    and [add_train] never raises. *)
Theorem add_train_validation tn name d start end_ s :
  (¬ fields_given tn name start end_ →
     add_train tn name d start end_ s = (Ret err_all_fields_required, s)
     ∧ kind_of err_all_fields_required = Some ValidationError)
  ∧ (fields_given tn name start end_ → ¬ valid_train_number tn →
     add_train tn name d start end_ s = (Ret err_train_number_chars, s)
     ∧ kind_of err_train_number_chars = Some ValidationError)
  ∧ (∃ n s',
       add_train tn name d start end_ s = (Ret n, s')
       ∧ (kind_of n = Some ValidationError
          ↔ ¬ fields_given tn name start end_ ∨ ¬ valid_train_number tn)).
Proof.
  split; [|split].
  - intros Hf. split; [by apply add_train_missing_field | reflexivity].
  - intros Hf Hv. split; [by apply add_train_bad_number | reflexivity].
  - destruct (fields_dec tn name start end_) as [Hf|Hf].
    2: { eexists _, _. split; [by apply add_train_missing_field|].
         cbn. split; auto. }
    destruct (valid_dec tn) as [Hv|Hv].
    2: { eexists _, _. split; [by apply add_train_bad_number|].
         cbn. split; auto. }
    destruct (known_dec s tn) as [Hk|Hk].
    + eexists _, _. split; [by apply add_train_duplicate|].
      cbn. split; [discriminate | tauto].
    + eexists _, _. split; [by apply add_train_run|].
      cbn. split; [discriminate | tauto].
Qed.

Lemma add_train_validation_witness :
  (add_train "T1" "" (a_date 2025 1 1) "A" "B" after_alice
     = (Ret err_all_fields_required, after_alice)
   ∧ kind_of err_all_fields_required = Some ValidationError)
  ∧ (add_train "12 34" "Express" (a_date 2025 1 1) "A" "B" after_alice
       = (Ret err_train_number_chars, after_alice)
     ∧ kind_of err_train_number_chars = Some ValidationError).
Proof.
  split.
  - apply (proj1 (add_train_validation "T1" "" (a_date 2025 1 1) "A" "B"
                    after_alice)).
    intros (_ & H & _). by apply H.
  - apply (proj1 (proj2 (add_train_validation "12 34" "Express"
                           (a_date 2025 1 1) "A" "B" after_alice))).
    + repeat split; discriminate.
    + vm_compute. discriminate.
Defined.

(** C8, the claim as stated, fails on the date: with an empty date string
    [add_train] reports success and stores the empty date. *)
Lemma add_train_empty_date_accepted :
  departure_date_str (a_str "") = ""
  ∧ (add_train "T1" "Express" (a_str "") "A" "B" init_db).1
    = Ret (ok_train_added "Express" "T1")
  ∧ kind_of (ok_train_added "Express" "T1") = None
  ∧ find_train (add_train "T1" "Express" (a_str "") "A" "B" init_db).2 "T1"
    = Some (TrainRow "T1" "Express" "" "A" "B").
Proof. repeat split; vm_compute; reflexivity. Qed.

Lemma seats_whole_put tn (t : gmap Z seat_row) s :
  seats_whole s → (∀ n r, t !! n = Some r → seat_whole r) →
  seats_whole (put_inventory tn t s).
Proof.
  intros Hs Ht k t' n r. rewrite put_inventory_lookup. case_decide.
  - intros [= <-]. apply Ht.
  - apply Hs.
Qed.

Lemma seats_whole_ensured tn total s :
  seats_whole s → seats_whole (ensured tn total s).
Proof.
  intros Hs. destruct (ensured_cases tn total s) as [-> | ->]; [done|].
  apply seats_whole_put; [done|].
  intros n r [_ ->]%seeded_lookup_Some. apply fresh_row_whole.
Qed.

Lemma seats_whole_alter tn (t : gmap Z seat_row) n f s :
  seats_whole s → inventory s tn = Some t → (∀ r, seat_whole (f r)) →
  seats_whole (put_inventory tn (alter f n t) s).
Proof.
  intros Hs Ht Hf. apply seats_whole_put; [done|].
  intros m r. destruct (decide (n = m)) as [->|Hne].
  - rewrite lookup_alter_eq. destruct (t !! m); [|done].
    intros [= <-]. apply Hf.
  - rewrite lookup_alter_ne by done. by apply (Hs _ _ _ _ Ht).
Qed.

(** C9.  Seeding, booking and cancelling each keep every seat of every
    seat table whole: booked with a passenger name, age and gender, or
    unbooked with none of the three.  This holds of the state they leave
    whether they report success, report an error or raise. *)
Theorem operations_keep_seats_whole s :
  seats_whole s →
  (∀ tn total, seats_whole (ensure_seat_table tn total s).2)
  ∧ (∀ tn name age gender ty,
       seats_whole (book_ticket tn name age gender ty s).2)
  ∧ (∀ tn n, seats_whole (cancel_tickets tn n s).2).
Proof.
  intros Hs. split; [|split].
  - intros tn total. destruct (valid_dec tn) as [Hv|Hv].
    + rewrite (ensure_seat_table_run _ _ _ Hv). by apply seats_whole_ensured.
    + by rewrite (ensure_seat_table_invalid _ _ _ Hv).
  - intros tn name age gender ty. destruct (known_dec s tn) as [Hk|Hk].
    2: by rewrite (book_ticket_unknown _ _ _ _ _ _ Hk).
    destruct (valid_dec tn) as [Hv|Hv].
    2: by rewrite (book_ticket_invalid _ _ _ _ _ _ Hk Hv).
    destruct (book_ticket_run tn name age gender ty s Hk Hv) as (t & Ht & ->).
    pose proof (seats_whole_ensured tn default_total_seats s Hs) as Hs'.
    destruct (truthy_seat _); cbn [snd]; [|done].
    destruct (forallb _ _); cbn [snd]; [|done].
    apply seats_whole_alter; try done. intros r. apply set_booked_whole.
  - intros tn n. destruct (known_dec s tn) as [Hk|Hk].
    2: by rewrite (cancel_tickets_unknown _ _ _ Hk).
    destruct (valid_dec tn) as [Hv|Hv].
    2: by rewrite (cancel_tickets_invalid _ _ _ Hk Hv).
    rewrite (cancel_tickets_run _ _ _ Hk Hv).
    destruct (inventory s tn) as [t|] eqn:Ht; [|done].
    destruct (Sql.sqlite_integer n); [|done].
    destruct (t !! n) eqn:Hn; cbn; [|done].
    apply seats_whole_alter; try done. intros r. apply set_cancelled_whole.
Qed.

Lemma operations_keep_seats_whole_witness :
  (∀ tn total, seats_whole (ensure_seat_table tn total after_alice).2)
  ∧ (∀ tn name age gender ty,
       seats_whole (book_ticket tn name age gender ty after_alice).2)
  ∧ (∀ tn n, seats_whole (cancel_tickets tn n after_alice).2).
Proof.
  apply (operations_keep_seats_whole after_alice).
  apply wf_seats_whole, reachable_wf, reachable_after_alice.
Defined.

(** What [add_train] leaves for a number that no train has, when no train
    has a number that differs from it in the case of letters only: the
    train is recorded and its inventory is the seeded table of 50 seats. *)
Lemma add_train_seeds_inventory tn name d start end_ s :
  reachable s → fields_given tn name start end_ → valid_train_number tn →
  ¬ known s tn →
  (∀ r, r ∈ trains s → table_key (train_number r) ≠ table_key tn) →
  ∃ s',
    add_train tn name d start end_ s = (Ret (ok_train_added name tn), s')
    ∧ known s' tn
    ∧ inventory s' tn = Some (seeded default_total_seats)
    ∧ (∀ n, seat s' tn n
            = if bool_decide (1 ≤ n ≤ 50) then Some (fresh_row n) else None).
Proof.
  intros Hr Hf Hv Hk Hcase. pose proof (reachable_wf _ Hr) as Hwf.
  rewrite (add_train_run _ _ _ _ _ _ Hf Hv Hk).
  set (s1 := Db (trains s ++ [TrainRow tn name (departure_date_str d) start end_])
               (seat_tables s)).
  assert (inventory (ensured tn default_total_seats s1) tn
          = Some (seeded default_total_seats)) as Hinv.
  { destruct (inventory s1 tn) as [t|] eqn:Ht.
    - assert (t = seeded default_total_seats) as ->.
      { destruct (wf_orphans _ Hwf (table_key tn) t Ht) as [(r & Hin & E)|E].
        - by destruct (Hcase r Hin).
        - done. }
      rewrite (ensured_nonempty _ _ _ _ Ht); [done|].
      apply table_ok_nonempty, seeded_ok.
    - unfold ensured. rewrite Ht. apply inventory_put. }
  eexists. split; [reflexivity|]. split; [|split; [done|]].
  - exists (TrainRow tn name (departure_date_str d) start end_).
    rewrite ensured_trains. split; [|done].
    apply elem_of_app. right. left.
  - intros n. unfold seat. rewrite Hinv. cbn. apply seeded_lookup.
Qed.

Example after_create_inventory :
  inventory after_create "T1" = Some (seeded 50)
  ∧ size (seeded 50) = 50%nat
  ∧ seat after_create "T1" 50 = Some (SeatRow "Window" 0 None None None)
  ∧ seat after_create "T1" 51 = None.
Proof. repeat split; vm_compute; reflexivity. Qed.

Lemma reachable_lower_case_booked : reachable lower_case_booked.
Proof.
  unfold lower_case_booked. eapply reach_step; [|apply step_book].
  eapply reach_step; [apply reach_init | apply step_add].
Qed.

(** C6 fails on the code for train numbers that differ in the case of
    letters only.  In the state reached by creating train t1 and booking
    its seat 4, no row of [trains] has the number T1 and [add_train]
    reports success for T1; but SQLite finds the table seats_t1 under the
    name seats_T1, so nothing is seeded, and seat 4 of the inventory of T1
    is booked for Alice. *)
Theorem add_train_shares_seat_table :
  reachable lower_case_booked
  ∧ find_train lower_case_booked "T1" = None
  ∧ (add_train "T1" "Express" (a_date 2025 1 1) "A" "B" lower_case_booked).1
    = Ret (ok_train_added "Express" "T1")
  ∧ seat (add_train "T1" "Express" (a_date 2025 1 1) "A" "B"
            lower_case_booked).2 "T1" 4
    = Some (SeatRow "Window" 1 (Some "Alice") (Some 30) (Some "Female"))
  ∧ table_key "T1" = table_key "t1".
Proof.
  split; [apply reachable_lower_case_booked|].
  repeat split; vm_compute; reflexivity.
Qed.


(** * Further properties of the code *)

(** ** The train registry *)

Lemma ensure_seat_table_trains tn total s :
  trains (ensure_seat_table tn total s).2 = trains s.
Proof.
  destruct (valid_dec tn) as [Hv|Hv].
  - rewrite (ensure_seat_table_run _ _ _ Hv). apply ensured_trains.
  - by rewrite (ensure_seat_table_invalid _ _ _ Hv).
Qed.

Lemma book_ticket_trains tn name age gender ty s :
  trains (book_ticket tn name age gender ty s).2 = trains s.
Proof.
  destruct (known_dec s tn) as [Hk|Hk].
  2: by rewrite (book_ticket_unknown _ _ _ _ _ _ Hk).
  destruct (valid_dec tn) as [Hv|Hv].
  2: by rewrite (book_ticket_invalid _ _ _ _ _ _ Hk Hv).
  destruct (book_ticket_run tn name age gender ty s Hk Hv) as (t & Ht & ->).
  destruct (truthy_seat _); [destruct (forallb _ _)|]; cbn [snd];
    apply ensured_trains.
Qed.

Lemma cancel_tickets_trains tn n s :
  trains (cancel_tickets tn n s).2 = trains s.
Proof.
  destruct (known_dec s tn) as [Hk|Hk].
  2: by rewrite (cancel_tickets_unknown _ _ _ Hk).
  destruct (valid_dec tn) as [Hv|Hv].
  2: by rewrite (cancel_tickets_invalid _ _ _ Hk Hv).
  rewrite (cancel_tickets_run _ _ _ Hk Hv).
  destruct (inventory s tn) as [t|]; [|done].
  destruct (Sql.sqlite_integer n); [|done].
  by destruct (t !! n).
Qed.

Lemma known_numbers s tn : known s tn ↔ tn ∈ train_number <$> trains s.
Proof.
  unfold known. rewrite list_elem_of_fmap. split.
  - intros (r & Hin & <-). eauto.
  - intros (r & -> & Hin). eauto.
Qed.

Lemma step_unique_numbers s s' :
  step s s' → NoDup (train_number <$> trains s) →
  NoDup (train_number <$> trains s').
Proof.
  intros Hstep.
  destruct Hstep as [tn name d start end_ s|tn d s|tn name age gender ty s
                    |tn n s|tn s]; intros Hs.
  - destruct (fields_dec tn name start end_) as [Hf|Hf].
    2: by rewrite (add_train_missing_field _ _ _ _ _ _ Hf).
    destruct (valid_dec tn) as [Hv|Hv].
    2: by rewrite (add_train_bad_number _ _ _ _ _ _ Hf Hv).
    destruct (known_dec s tn) as [Hk|Hk].
    1: by rewrite (add_train_duplicate _ _ _ _ _ _ Hf Hv Hk).
    rewrite (add_train_run _ _ _ _ _ _ Hf Hv Hk). cbn [snd].
    rewrite ensured_trains. cbn [trains]. rewrite fmap_app. cbn.
    apply NoDup_app. split; [done|]. split; [|apply NoDup_singleton].
    intros x Hx Hx'. apply list_elem_of_singleton in Hx' as ->.
    by apply Hk, known_numbers.
  - destruct (find_train s tn) as [r|] eqn:Hf.
    2: { rewrite delete_train_unknown; [done|].
         intros Hk%find_train_known. rewrite Hf in Hk. by destruct Hk. }
    rewrite (delete_train_run _ _ _ _ Hf).
    destruct (decide _); [|done].
    destruct (seat_table_name tn); [|done]. cbn.
    eapply sublist_NoDup; [exact Hs|].
    apply fmap_sublist, sublist_filter.
  - by rewrite book_ticket_trains.
  - by rewrite cancel_tickets_trains.
  - by rewrite ensure_seat_table_trains.
Qed.

(** X1.  In every state the program reaches, no two rows of [trains] have
    the same train number: the numbers of the rows are pairwise distinct,
    and two rows with one number are one row. *)
Theorem reachable_unique_numbers s :
  reachable s →
  NoDup (train_number <$> trains s)
  ∧ (∀ i j r r', trains s !! i = Some r → trains s !! j = Some r' →
       train_number r = train_number r' → i = j).
Proof.
  intros Hr.
  assert (NoDup (train_number <$> trains s)) as Hn.
  { induction Hr as [|s s' _ IH Hstep].
    - apply NoDup_nil_2.
    - by apply (step_unique_numbers s s'). }
  split; [done|]. intros i j r r' Hi Hj E.
  apply (NoDup_lookup _ i j (train_number r) Hn).
  - by rewrite list_lookup_fmap, Hi.
  - by rewrite list_lookup_fmap, Hj, E.
Qed.

Lemma reachable_unique_numbers_witness :
  NoDup (train_number <$> trains after_alice)
  ∧ (∀ i j r r', trains after_alice !! i = Some r →
       trains after_alice !! j = Some r' →
       train_number r = train_number r' → i = j).
Proof.
  apply (reachable_unique_numbers after_alice). apply reachable_after_alice.
Defined.

(** X2.  In a state the program reaches, [add_train] for a number that a
    row of [trains] has already, with the four text fields given, reports
    that the train exists and leaves the whole state as it is. *)
Theorem add_train_existing_number tn name d start end_ s :
  reachable s → known s tn → fields_given tn name start end_ →
  add_train tn name d start end_ s = (Ret (err_train_exists tn), s)
  ∧ kind_of (err_train_exists tn) = Some DuplicateTrain.
Proof.
  intros Hr Hk Hf. split; [|reflexivity].
  apply add_train_duplicate; [done | | done].
  by apply (reachable_known_valid s).
Qed.

Lemma add_train_existing_number_witness :
  add_train "T1" "Night Mail" (a_date 2026 3 4) "C" "D" after_alice
    = (Ret (err_train_exists "T1"), after_alice)
  ∧ kind_of (err_train_exists "T1") = Some DuplicateTrain.
Proof.
  apply (add_train_existing_number "T1" "Night Mail" (a_date 2026 3 4) "C" "D"
           after_alice).
  - apply reachable_after_alice.
  - apply known_T1_after_alice.
  - repeat split; discriminate.
Defined.

Lemma unknown_filter_nil s tn :
  ¬ known s tn → filter (λ r, train_number r = tn) (trains s) = [].
Proof.
  intros Hk. apply head_None.
  destruct (head _) eqn:E; [|done].
  exfalso. apply Hk, select_train_is_Some. rewrite E. eauto.
Qed.

(** X3.  When [add_train] succeeds, the train can be found at once: the
    search by number returns the new row, with the four text fields as
    given and the date normalised to its string; the search by route
    returns what it returned before followed by the new row; and the search
    by any other number returns what it returned before. *)
Theorem add_train_then_search tn name d start end_ s :
  fields_given tn name start end_ → valid_train_number tn → ¬ known s tn →
  ∃ s' before,
    add_train tn name d start end_ s = (Ret (ok_train_added name tn), s')
    ∧ search_train_by_train_number tn s'
      = (Ret (Some (TrainRow tn name (departure_date_str d) start end_)), s')
    ∧ search_trains_by_destinations start end_ s = (Ret before, s)
    ∧ search_trains_by_destinations start end_ s'
      = (Ret (before ++ [TrainRow tn name (departure_date_str d) start end_])%list,
         s')
    ∧ (∀ tn', tn' ≠ tn →
         (search_train_by_train_number tn' s').1
         = (search_train_by_train_number tn' s).1).
Proof.
  intros Hf Hv Hk. eexists _, _.
  split; [by apply add_train_run|].
  unfold search_train_by_train_number, search_trains_by_destinations,
    Sql.select_train, Sql.select_trains_by_route.
  rewrite !ensured_trains. cbn [trains fst].
  split; [|split; [reflexivity|split]].
  - rewrite filter_app, (unknown_filter_nil _ _ Hk). cbn.
    rewrite decide_True by done. reflexivity.
  - rewrite filter_app. cbn. rewrite decide_True by done. reflexivity.
  - intros tn' Hne. rewrite filter_app. cbn.
    rewrite decide_False by done. by rewrite app_nil_r.
Qed.

Lemma add_train_then_search_witness :
  ∃ s' before,
    add_train "T2" "Night Mail" (a_date 2026 3 4) "A" "B" after_alice
      = (Ret (ok_train_added "Night Mail" "T2"), s')
    ∧ search_train_by_train_number "T2" s'
      = (Ret (Some (TrainRow "T2" "Night Mail"
                      (departure_date_str (a_date 2026 3 4)) "A" "B")), s')
    ∧ search_trains_by_destinations "A" "B" after_alice = (Ret before, after_alice)
    ∧ search_trains_by_destinations "A" "B" s'
      = (Ret (before ++ [TrainRow "T2" "Night Mail"
                           (departure_date_str (a_date 2026 3 4)) "A" "B"])%list,
         s')
    ∧ (∀ tn', tn' ≠ "T2" →
         (search_train_by_train_number tn' s').1
         = (search_train_by_train_number tn' after_alice).1).
Proof.
  apply (add_train_then_search "T2" "Night Mail" (a_date 2026 3 4) "A" "B"
           after_alice).
  - repeat split; discriminate.
  - reflexivity.
  - rewrite <- select_train_is_Some. vm_compute. by intros [? ?].
Defined.

(** X4.  In a state the program reaches, deleting a train with its stored
    date and then adding a train with the same number leaves that number
    with the seeded inventory: 50 seats, all unbooked, whatever was booked
    on the deleted train. *)
Theorem delete_then_add_train tn d r name' d' start' end' s :
  reachable s → find_train s tn = Some r →
  stored_date r = departure_date_str d → fields_given tn name' start' end' →
  ∃ s1 s2,
    delete_train tn d s = (Ret (ok_train_deleted tn), s1)
    ∧ add_train tn name' d' start' end' s1 = (Ret (ok_train_added name' tn), s2)
    ∧ inventory s2 tn = Some (seeded default_total_seats)
    ∧ (∀ n, seat s2 tn n
            = if bool_decide (1 ≤ n ≤ 50) then Some (fresh_row n) else None).
Proof.
  intros Hr Hf Hd Hfields.
  assert (known s tn) as Hk by (apply find_train_known; rewrite Hf; eauto).
  pose proof (reachable_known_valid _ _ Hr Hk) as Hv.
  set (s1 := Db (filter (λ r0, train_number r0 ≠ tn) (trains s))
                (delete (table_key tn) (seat_tables s))).
  assert (delete_train tn d s = (Ret (ok_train_deleted tn), s1)) as Hdel.
  { rewrite (delete_train_run _ _ _ _ Hf), (seat_table_name_valid _ Hv).
    by rewrite decide_True. }
  assert (¬ known s1 tn) as Hnk.
  { intros (r' & [Hne _]%list_elem_of_filter & Heq). cbn in Hne. done. }
  assert (inventory s1 tn = None) as Hnone.
  { unfold inventory. cbn. apply lookup_delete_eq. }
  exists s1. eexists. split; [done|].
  split; [by apply add_train_run|].
  assert (∀ row, inventory
            (ensured tn default_total_seats (Db (trains s1 ++ [row]) (seat_tables s1)))
            tn = Some (seeded default_total_seats)) as Hinv.
  { intros row. unfold ensured.
    change (inventory (Db (trains s1 ++ [row]) (seat_tables s1)) tn)
      with (inventory s1 tn).
    rewrite Hnone. apply inventory_put. }
  split; [apply Hinv|].
  intros n. unfold seat. rewrite Hinv. cbn. apply seeded_lookup.
Qed.

Lemma delete_then_add_train_witness :
  ∃ s1 s2,
    delete_train "T1" (a_date 2025 1 1) after_alice
      = (Ret (ok_train_deleted "T1"), s1)
    ∧ add_train "T1" "Night Mail" (a_str "tomorrow") "C" "D" s1
      = (Ret (ok_train_added "Night Mail" "T1"), s2)
    ∧ inventory s2 "T1" = Some (seeded default_total_seats)
    ∧ (∀ n, seat s2 "T1" n
            = if bool_decide (1 ≤ n ≤ 50) then Some (fresh_row n) else None).
Proof.
  apply (delete_then_add_train "T1" (a_date 2025 1 1)
           (TrainRow "T1" "Express" "2025-01-01" "A" "B")
           "Night Mail" (a_str "tomorrow") "C" "D" after_alice).
  - apply reachable_after_alice.
  - vm_compute. reflexivity.
  - vm_compute. reflexivity.
  - repeat split; discriminate.
Defined.

(** ** Seat tables *)

Lemma table_ok_size t : table_ok t → size t = 50%nat.
Proof.
  intros Hok. rewrite <- size_dom.
  assert (dom t = dom (seeded default_total_seats)) as ->.
  { apply set_eq. intros n. rewrite !elem_of_dom.
    pose proof (Hok n) as H1. pose proof (seeded_ok n) as H2.
    destruct (t !! n), (seeded default_total_seats !! n);
      split; intros [? ?]; eauto; tauto. }
  rewrite size_dom. vm_compute. reflexivity.
Qed.

(** X5.  In every state the program reaches, a seat table holds exactly
    the 50 seats numbered 1 to 50; the stored type of each seat is the
    classification of its number, and each seat is fully booked or fully
    unbooked.  No operation adds or removes seats of a table or changes a
    seat type. *)
Theorem reachable_seat_table s tn t :
  reachable s → inventory s tn = Some t →
  size t = 50%nat
  ∧ (∀ n, is_Some (t !! n) ↔ 1 ≤ n ≤ 50)
  ∧ (∀ n r, t !! n = Some r → seat_type r = categorize_seat n ∧ seat_whole r).
Proof.
  intros Hr Ht. pose proof (wf_tables _ (reachable_wf _ Hr) _ _ Ht) as Hok.
  split; [by apply table_ok_size|]. split.
  - intros n. specialize (Hok n). unfold default_total_seats in Hok.
    destruct (t !! n).
    + split; [tauto | eauto].
    + split; [by intros [? ?] | tauto].
  - intros n r Hn. specialize (Hok n). rewrite Hn in Hok. tauto.
Qed.

Lemma reachable_seat_table_witness :
  size alice_table = 50%nat
  ∧ (∀ n, is_Some (alice_table !! n) ↔ 1 ≤ n ≤ 50)
  ∧ (∀ n r, alice_table !! n = Some r →
       seat_type r = categorize_seat n ∧ seat_whole r).
Proof.
  apply (reachable_seat_table after_alice "T1" alice_table).
  - apply reachable_after_alice.
  - vm_compute. reflexivity.
Defined.

(** X6.  In every state the program reaches, a seat that is not unbooked
    lies in the seat table of a train that [trains] records: a seat table
    that no recorded train leads to has no booking. *)
Theorem booked_seat_has_train s tn n r :
  reachable s → seat s tn n = Some r → booked r ≠ 0 →
  ∃ tr, tr ∈ trains s ∧ table_key (train_number tr) = table_key tn.
Proof.
  intros Hr Hseat Hb. unfold seat in Hseat.
  destruct (inventory s tn) as [t|] eqn:Ht; [cbn in Hseat | done].
  destruct (wf_orphans _ (reachable_wf _ Hr) _ _ Ht) as [Htr | ->]; [done|].
  apply seeded_lookup_Some in Hseat as [_ ->]. done.
Qed.

Lemma booked_seat_has_train_witness :
  ∃ tr, tr ∈ trains after_alice
        ∧ table_key (train_number tr) = table_key "T1".
Proof.
  apply (booked_seat_has_train after_alice "T1" 4
           (SeatRow "Window" 1 (Some "Alice") (Some 30) (Some "Female"))).
  - apply reachable_after_alice.
  - vm_compute. reflexivity.
  - discriminate.
Defined.

Lemma put_inventory_id tn t s : inventory s tn = Some t → put_inventory tn t s = s.
Proof.
  unfold inventory, put_inventory, Sql.with_tables. intros H.
  destruct s as [tr tb]. cbn in *. f_equal. by apply insert_id.
Qed.

Lemma put_inventory_twice tn t t' s :
  put_inventory tn t (put_inventory tn t' s) = put_inventory tn t s.
Proof. apply with_tables_insert_insert. Qed.

(** A free seat of a reachable state is a fresh row. *)
Lemma free_seat_row t ty n r :
  table_ok t → t !! n = Some r → booked r = 0 → seat_type r = ty →
  r = SeatRow ty 0 None None None ∧ 1 ≤ n ≤ default_total_seats.
Proof.
  intros Hok Hn Hb Hty. specialize (Hok n). rewrite Hn in Hok.
  destruct Hok as (Hrange & _ & [Hw|Hw]); (split; [|done]).
  - destruct Hw as [Hb1 _]. congruence.
  - destruct Hw as (_ & H1 & H2 & H3). destruct r. cbn in *. by subst.
Qed.

(** The successful run of [book_ticket] in a reachable state. *)
Lemma book_ticket_reachable_run tn name age gender ty s t :
  reachable s → known s tn → inventory s tn = Some t →
  (∃ m, free_seat t ty m) → - 2 ^ 63 ≤ age < 2 ^ 63 →
  ∃ n, Sql.first_free t ty = Some n
     ∧ t !! n = Some (SeatRow ty 0 None None None)
     ∧ 1 ≤ n ≤ default_total_seats
     ∧ book_ticket tn name age gender ty s
       = (Ret (ok_booked n ty name),
          put_inventory tn
            (alter (set_booked (PyStr.strip name) age gender) n t) s).
Proof.
  intros Hr Hk Ht [m0 Hm0] Hage.
  pose proof (reachable_wf _ Hr) as Hwf.
  pose proof (reachable_known_valid _ _ Hr Hk) as Hv.
  pose proof (wf_tables _ Hwf _ _ Ht) as Hok.
  pose proof (ensured_nonempty tn default_total_seats s t Ht
                (table_ok_nonempty _ Hok)) as He.
  destruct (book_ticket_run tn name age gender ty s Hk Hv) as (t' & Ht' & Hbook).
  rewrite He in *. assert (t' = t) as -> by congruence.
  destruct (Sql.first_free t ty) as [n|] eqn:Hff.
  2: { exfalso. eapply first_free_None; eauto. }
  pose proof Hff as Hff'.
  apply first_free_Some in Hff as [(r & Hn & Hb & Hty) Hmin].
  destruct (free_seat_row t ty n r Hok Hn Hb Hty) as [-> Hrange].
  exists n. split; [done|]. split; [done|]. split; [done|].
  rewrite Hbook. change (default 0 (Some n)) with n.
  assert (truthy_seat (Some n) = true) as ->.
  { cbn. apply negb_true_iff, Z.eqb_neq. lia. }
  cbn [forallb].
  rewrite (proj2 (sqlite_integer_true age) Hage).
  rewrite (seat_number_sqlite_integer n Hrange). reflexivity.
Qed.

Lemma known_book_ticket tn name age gender ty s tn' :
  known s tn' → known (book_ticket tn name age gender ty s).2 tn'.
Proof. unfold known. by rewrite book_ticket_trains. Qed.

(** X7.  Booking and then cancelling the seat just booked is a round trip:
    in a state the program reaches, when [book_ticket] succeeds with seat
    [n], [cancel_tickets] for [n] succeeds and leaves exactly the state
    before the booking. *)
Theorem book_then_cancel tn name age gender ty s t :
  reachable s → known s tn → inventory s tn = Some t →
  (∃ m, free_seat t ty m) → - 2 ^ 63 ≤ age < 2 ^ 63 →
  ∃ n s',
    book_ticket tn name age gender ty s = (Ret (ok_booked n ty name), s')
    ∧ cancel_tickets tn n s' = (Ret (ok_cancelled n tn), s).
Proof.
  intros Hr Hk Ht Hfree Hage.
  destruct (book_ticket_reachable_run tn name age gender ty s t Hr Hk Ht Hfree Hage)
    as (n & _ & Hn & Hrange & Hbook).
  eexists n, _. split; [exact Hbook|].
  pose proof (reachable_known_valid _ _ Hr Hk) as Hv.
  rewrite cancel_tickets_run; [|done..].
  rewrite inventory_put, (seat_number_sqlite_integer n Hrange).
  rewrite lookup_alter_eq, Hn. cbn [fmap option_fmap option_map].
  rewrite put_inventory_twice. f_equal.
  apply put_inventory_id. rewrite Ht. f_equal.
  apply map_eq. intros m. destruct (decide (n = m)) as [<-|Hne].
  - by rewrite !lookup_alter_eq, Hn.
  - by rewrite !lookup_alter_ne.
Qed.

Lemma book_then_cancel_witness :
  ∃ n s',
    book_ticket "T1" "Bob" 40 "Male" "Window" after_alice
      = (Ret (ok_booked n "Window" "Bob"), s')
    ∧ cancel_tickets "T1" n s' = (Ret (ok_cancelled n "T1"), after_alice).
Proof.
  apply (book_then_cancel "T1" "Bob" 40 "Male" "Window" after_alice alice_table).
  - apply reachable_after_alice.
  - apply known_T1_after_alice.
  - vm_compute. reflexivity.
  - exists 5. eexists. split; [vm_compute; reflexivity|]. split; reflexivity.
  - lia.
Defined.





Lemma seeded_empty_iff total : seeded total = ∅ ↔ total < 1.
Proof.
  split.
  - intros E. destruct (decide (total < 1)) as [|Hge]; [done|].
    assert (seeded total !! 1 = None) as H by (by rewrite E, lookup_empty).
    rewrite seeded_lookup, bool_decide_eq_true_2 in H by lia. discriminate.
  - intros Hlt. apply map_eq. intros n.
    rewrite seeded_lookup, lookup_empty, bool_decide_eq_false_2; [done | lia].
Qed.

Lemma ensured_twice tn total total' s :
  total' = total ∨ 1 ≤ total →
  ensured tn total' (ensured tn total s) = ensured tn total s.
Proof.
  intros Htot. destruct (ensured_cases tn total s) as [E|E].
  - rewrite E. unfold ensured in E |- *.
    destruct (inventory s tn) as [t|] eqn:Ht.
    + destruct (decide (t = ∅)) as [->|Hne]; [|done].
      destruct Htot as [->|Hge]; [done|].
      exfalso. assert (inventory s tn = Some (seeded total)) as H
        by (by rewrite <- E at 1; rewrite inventory_put).
      rewrite Ht in H. injection H as H. symmetry in H.
      apply seeded_empty_iff in H. lia.
    + exfalso. assert (inventory s tn = Some (seeded total)) as H
        by (by rewrite <- E at 1; rewrite inventory_put).
      by rewrite Ht in H.
  - rewrite E. unfold ensured at 1. rewrite inventory_put.
    destruct (decide (seeded total = ∅)) as [Hem|Hne]; [|done].
    rewrite put_inventory_twice. destruct Htot as [->|Hge]; [done|].
    apply seeded_empty_iff in Hem. lia.
Qed.

(** X10.  [ensure_seat_table] is idempotent: called twice in a row it
    returns or raises as one call does and leaves the state of one call.
    A table that was seeded with one seat or more is never seeded again,
    whatever [total_seats] a later call names. *)
Theorem ensure_seat_table_idempotent tn total total' s :
  (ensure_seat_table tn total;; ensure_seat_table tn total) s
    = ensure_seat_table tn total s
  ∧ (1 ≤ total →
     (ensure_seat_table tn total;; ensure_seat_table tn total') s
       = ensure_seat_table tn total s).
Proof.
  assert (∀ total', total' = total ∨ 1 ≤ total →
            (ensure_seat_table tn total;; ensure_seat_table tn total') s
            = ensure_seat_table tn total s) as H.
  { intros tot Htot. unfold mbind, M_bind.
    destruct (valid_dec tn) as [Hv|Hv].
    - rewrite !(ensure_seat_table_run _ _ _ Hv). by rewrite ensured_twice.
    - by rewrite !(ensure_seat_table_invalid _ _ _ Hv). }
  split; [apply H; by left | intros Hge; apply H; by right].
Qed.

Lemma ensure_seat_table_idempotent_witness :
  (ensure_seat_table "T7" 50;; ensure_seat_table "T7" 80) after_alice
  = ensure_seat_table "T7" 50 after_alice.
Proof.
  apply (proj2 (ensure_seat_table_idempotent "T7" 50 80 after_alice)). lia.
Defined.

Lemma get_seats_df_invalid tn s :
  ¬ valid_train_number tn → get_seats_df tn s = (Raise ValueError, s).
Proof.
  intros Hv. unfold get_seats_df. unfold mbind at 1, M_bind at 1.
  by rewrite (ensure_seat_table_invalid _ _ _ Hv).
Qed.

Lemma get_seat_availability_invalid tn s :
  ¬ valid_train_number tn → get_seat_availability tn s = (Raise ValueError, s).
Proof.
  intros Hv. unfold get_seat_availability. unfold mbind at 1, M_bind at 1.
  by rewrite (ensure_seat_table_invalid _ _ _ Hv).
Qed.

Lemma allocate_invalid tn ty s :
  ¬ valid_train_number tn →
  allocate_next_available_seat tn ty s = (Raise ValueError, s).
Proof.
  intros Hv. unfold allocate_next_available_seat.
  unfold mbind at 1, M_bind at 1.
  by rewrite (ensure_seat_table_invalid _ _ _ Hv).
Qed.

(** X11.  A train number that is not of the form [[A-Za-z0-9_]+] never
    reaches the database: [ensure_seat_table],
    [allocate_next_available_seat], [get_seats_df] and
    [get_seat_availability] raise [ValueError] with the state as before;
    and in a state the program reaches no train has such a number, so
    [book_ticket], [cancel_tickets] and [delete_train] report that the
    train does not exist, with the state as before. *)
Theorem invalid_train_number_refused tn s :
  ¬ valid_train_number tn →
  (∀ total, ensure_seat_table tn total s = (Raise ValueError, s))
  ∧ (∀ ty, allocate_next_available_seat tn ty s = (Raise ValueError, s))
  ∧ get_seats_df tn s = (Raise ValueError, s)
  ∧ get_seat_availability tn s = (Raise ValueError, s)
  ∧ (reachable s →
     (∀ name age gender ty,
        book_ticket tn name age gender ty s = (Ret (err_no_such_train tn), s))
     ∧ (∀ n, cancel_tickets tn n s = (Ret (err_no_such_train tn), s))
     ∧ (∀ d, delete_train tn d s = (Ret (err_no_such_train tn), s))).
Proof.
  intros Hv.
  split; [intros; by apply ensure_seat_table_invalid|].
  split; [intros; by apply allocate_invalid|].
  split; [by apply get_seats_df_invalid|].
  split; [by apply get_seat_availability_invalid|].
  intros Hr.
  assert (¬ known s tn) as Hk
    by (intros Hk; by apply Hv, (reachable_known_valid s)).
  split; [intros; by apply book_ticket_unknown|].
  split; [intros; by apply cancel_tickets_unknown|].
  intros; by apply delete_train_unknown.
Qed.

Lemma invalid_train_number_refused_witness :
  (∀ total, ensure_seat_table "T 1; --" total after_alice
            = (Raise ValueError, after_alice))
  ∧ (∀ ty, allocate_next_available_seat "T 1; --" ty after_alice
           = (Raise ValueError, after_alice))
  ∧ get_seats_df "T 1; --" after_alice = (Raise ValueError, after_alice)
  ∧ get_seat_availability "T 1; --" after_alice = (Raise ValueError, after_alice)
  ∧ (reachable after_alice →
     (∀ name age gender ty,
        book_ticket "T 1; --" name age gender ty after_alice
        = (Ret (err_no_such_train "T 1; --"), after_alice))
     ∧ (∀ n, cancel_tickets "T 1; --" n after_alice
             = (Ret (err_no_such_train "T 1; --"), after_alice))
     ∧ (∀ d, delete_train "T 1; --" d after_alice
             = (Ret (err_no_such_train "T 1; --"), after_alice))).
Proof.
  apply (invalid_train_number_refused "T 1; --" after_alice).
  vm_compute. discriminate.
Defined.

Lemma is_word_char_safe c : PyStr.is_word_char c = true ↔ safe_char c.
Proof.
  unfold safe_char.
  assert (PyStr.is_word_char c = bool_decide
            (c ∈ list_ascii_of_string
               "ABCDEFGHIJKLMNOPQRSTUVWXYZabcdefghijklmnopqrstuvwxyz0123456789_"))
    as ->.
  { destruct c as [[] [] [] [] [] [] [] []]; vm_compute; reflexivity. }
  apply bool_decide_eq_true.
Qed.

Lemma valid_train_number_safe tn : valid_train_number tn ↔ safe_name tn.
Proof.
  unfold valid_train_number, safe_name, PyStr.fullmatch_word_plus.
  destruct tn as [|a tn].
  - split; [discriminate | by intros [? _]].
  - rewrite all_chars_spec. split.
    + intros H. split; [discriminate|]. intros c Hc.
      by apply is_word_char_safe, H.
    + intros [_ H] c Hc. by apply is_word_char_safe, H.
Qed.

(** X12.  [seat_table_name] returns a name only for a train number made of
    letters, digits and underscores, one character or more, and raises
    [ValueError] for every other string; the name is [seats_] followed by
    the number, so it is itself made of letters, digits and underscores
    only: no space, quote or other character of SQL syntax gets into a
    statement through a table name. *)
Theorem seat_table_name_safe tn :
  (safe_name tn →
     seat_table_name tn = Ret ("seats_" +:+ tn) ∧ safe_name ("seats_" +:+ tn))
  ∧ (¬ safe_name tn → seat_table_name tn = Raise ValueError)
  ∧ (∀ name, seat_table_name tn = Ret name → safe_name tn ∧ safe_name name).
Proof.
  assert (safe_name tn → safe_name ("seats_" +:+ tn)) as Hsafe.
  { intros [_ H]. split; [discriminate|]. intros c.
    change (list_ascii_of_string ("seats_" +:+ tn))
      with (list_ascii_of_string "seats_" ++ list_ascii_of_string tn)%list.
    intros [Hc|Hc]%elem_of_app; [|by apply H].
    apply is_word_char_safe.
    cbn in Hc. repeat (apply elem_of_cons in Hc as [->|Hc]; [reflexivity|]).
    by apply elem_of_nil in Hc. }
  split; [|split].
  - intros H. split; [|by apply Hsafe].
    by apply seat_table_name_valid, valid_train_number_safe.
  - intros H. apply seat_table_name_invalid.
    by rewrite valid_train_number_safe.
  - intros name Hn. destruct (valid_dec tn) as [Hv|Hv].
    + rewrite (seat_table_name_valid _ Hv) in Hn. injection Hn as <-.
      apply valid_train_number_safe in Hv. auto.
    + by rewrite (seat_table_name_invalid _ Hv) in Hn.
Qed.

Lemma seat_table_name_safe_witness :
  seat_table_name "RJ12_EXP" = Ret ("seats_" +:+ "RJ12_EXP")
  ∧ safe_name ("seats_" +:+ "RJ12_EXP").
Proof.
  apply (proj1 (seat_table_name_safe "RJ12_EXP")).
  apply valid_train_number_safe. reflexivity.
Defined.

(** ** Stripping *)

(** X13.  [strip] takes white space, and nothing else, off the two ends
    of a string: the string is a blank prefix, the result and a blank
    suffix; the result neither starts nor ends with a white-space
    character; and stripping a stripped string changes nothing. *)
Theorem strip_spec s :
  (∃ pre post,
     s = pre +:+ PyStr.strip s +:+ post
     ∧ PyStr.all_chars PyStr.isspace pre = true
     ∧ PyStr.all_chars PyStr.isspace post = true)
  ∧ (∀ c rest, PyStr.strip s = String c rest → PyStr.isspace c = false)
  ∧ (∀ init c, PyStr.strip s = init +:+ String c "" → PyStr.isspace c = false)
  ∧ PyStr.strip (PyStr.strip s) = PyStr.strip s.
Proof.
  assert (∀ c rest, PyStr.strip s = String c rest → PyStr.isspace c = false)
    as Hhead.
  { unfold PyStr.strip. intros c rest H.
    apply rstrip_head in H as [rest' H]. by apply lstrip_head in H. }
  assert (∀ init c, PyStr.strip s = init +:+ String c "" →
                    PyStr.isspace c = false) as Hlast.
  { unfold PyStr.strip. intros init c H. by apply rstrip_last in H. }
  split; [|split; [done|split; [done|]]].
  - destruct (lstrip_split s) as (pre & E1 & Hpre).
    destruct (rstrip_split (PyStr.lstrip s)) as (post & E2 & Hpost).
    exists pre, post. split; [|done]. unfold PyStr.strip.
    by rewrite <- E2.
  - unfold PyStr.strip at 1. fold (PyStr.strip s).
    rewrite (lstrip_id (PyStr.strip s)) by done. by apply rstrip_id.
Qed.

Lemma strip_spec_witness :
  PyStr.strip (PyStr.strip "  Alice Liddell ") = PyStr.strip "  Alice Liddell ".
Proof. apply (proj2 (proj2 (proj2 (strip_spec "  Alice Liddell ")))). Defined.

(** ** Listing the seats *)

Global Instance by_seat_number_total : Total Sql.by_seat_number.
Proof. intros a b. unfold Sql.by_seat_number. lia. Qed.

Global Instance by_seat_number_trans : Transitive Sql.by_seat_number.
Proof. intros a b c. unfold Sql.by_seat_number. lia. Qed.

Lemma ensured_inventory tn s :
  ∃ t, inventory (ensured tn default_total_seats s) tn = Some t ∧ t ≠ ∅.
Proof.
  assert (seeded default_total_seats ≠ ∅) as Hs
    by apply table_ok_nonempty, seeded_ok.
  unfold ensured. destruct (inventory s tn) as [t|] eqn:Ht.
  - destruct (decide (t = ∅)).
    + exists (seeded default_total_seats). by rewrite inventory_put.
    + by exists t.
  - exists (seeded default_total_seats). by rewrite inventory_put.
Qed.

(** The lines of the frame for a table. *)
Lemma get_seats_df_run tn s :
  valid_train_number tn →
  ∃ t, inventory (ensured tn default_total_seats s) tn = Some t ∧ t ≠ ∅
     ∧ get_seats_df tn s
       = (Ret (seats_frame (merge_sort Sql.by_seat_number (map_to_list t))),
          ensured tn default_total_seats s).
Proof.
  intros Hv. destruct (ensured_inventory tn s) as (t & Ht & Hne).
  exists t. split; [done|]. split; [done|].
  unfold get_seats_df. unfold mbind at 1, M_bind at 1.
  rewrite (ensure_seat_table_run _ _ _ Hv), (seat_table_name_valid _ Hv).
  unfold inventory in Ht. unfold Sql.select_seats_ordered. run_step.
  fold (table_key tn). rewrite Ht. reflexivity.
Qed.

Lemma sorted_le_NoDup_lt (l : list Z) :
  StronglySorted Z.le l → NoDup l → StronglySorted Z.lt l.
Proof.
  induction 1 as [|x l Hs IH Hx]; intros Hn; [constructor|].
  apply NoDup_cons in Hn as [Hnin Hn]. constructor; [by apply IH|].
  rewrite Forall_forall in Hx |- *. intros y Hy.
  specialize (Hx y Hy). assert (x ≠ y) by congruence. lia.
Qed.

Lemma sorted_seats_keys (t : gmap Z seat_row) :
  StronglySorted Z.lt (merge_sort Sql.by_seat_number (map_to_list t)).*1
  ∧ ∀ n r, (n, r) ∈ merge_sort Sql.by_seat_number (map_to_list t)
           ↔ t !! n = Some r.
Proof.
  pose proof (merge_sort_Permutation Sql.by_seat_number (map_to_list t)) as Hp.
  split.
  - apply sorted_le_NoDup_lt.
    + apply (StronglySorted_fmap fst Sql.by_seat_number Z.le); [done|].
      apply StronglySorted_merge_sort; apply _.
    + rewrite Hp. apply NoDup_fst_map_to_list.
  - intros n r. rewrite Hp. apply elem_of_map_to_list.
Qed.

Lemma sorted_lt_le (l : list Z) : StronglySorted Z.lt l → StronglySorted Z.le l.
Proof.
  induction 1 as [|x l Hs IH Hx]; constructor; [done|].
  eapply Forall_impl; [exact Hx|]. intros y. cbn. lia.
Qed.

Lemma sorted_lt_NoDup (l : list Z) : StronglySorted Z.lt l → NoDup l.
Proof.
  induction 1 as [|x l Hs IH Hx]; constructor; [|done].
  rewrite Forall_forall in Hx. intros Hin. specialize (Hx x Hin). lia.
Qed.

Lemma seqZ_sorted : StronglySorted Z.le (seqZ 1 50).
Proof. apply (bool_decide_unpack _). vm_compute. exact I. Qed.

Lemma table_ok_sorted_keys t :
  table_ok t →
  (merge_sort Sql.by_seat_number (map_to_list t)).*1 = seqZ 1 50.
Proof.
  intros Hok. destruct (sorted_seats_keys t) as [Hs Hmem].
  apply (StronglySorted_unique Z.le).
  - by apply sorted_lt_le.
  - apply seqZ_sorted.
  - apply NoDup_Permutation.
    + by apply sorted_lt_NoDup.
    + apply NoDup_seqZ.
    + intros n. rewrite elem_of_seqZ, list_elem_of_fmap.
      unfold table_ok, default_total_seats in Hok. split.
      * intros ([k r] & -> & Hin). apply Hmem in Hin. cbn.
        specialize (Hok k). rewrite Hin in Hok. lia.
      * intros Hn. specialize (Hok n).
        destruct (t !! n) as [r|] eqn:E; [|lia].
        exists (n, r). split; [done|]. by apply Hmem.
Qed.

(** Between two neighbouring multiples of [2 ^ e] that have 53 bits there
    is no number that a float64 holds. *)
Lemma binary64_gap q e b m k :
  0 < e → 2 ^ 52 ≤ q → 0 ≤ k → 0 ≤ m < 2 ^ 53 → b = m * 2 ^ k →
  b ≤ q * 2 ^ e ∨ (q + 1) * 2 ^ e ≤ b.
Proof.
  intros He Hq Hk Hm ->.
  destruct (Z_lt_le_dec k e) as [Hlt|Hge].
  - left. replace e with ((e - k) + k) by lia.
    rewrite Z.pow_add_r by lia.
    assert (0 < 2 ^ k) by (apply Z.pow_pos_nonneg; lia).
    assert (2 ≤ 2 ^ (e - k)).
    { change 2 with (2 ^ 1) at 1. apply Z.pow_le_mono_r; lia. }
    assert (m ≤ q * 2 ^ (e - k)) by nia.
    nia.
  - replace k with ((k - e) + e) by lia.
    rewrite Z.pow_add_r by lia.
    assert (0 < 2 ^ e) by (apply Z.pow_pos_nonneg; lia).
    assert (0 < 2 ^ (k - e)) by (apply Z.pow_pos_nonneg; lia).
    set (c := m * 2 ^ (k - e)). replace (m * (2 ^ (k - e) * 2 ^ e)) with (c * 2 ^ e) by (unfold c; ring).
    destruct (Z_le_gt_dec c q); [left | right]; nia.
Qed.

Lemma float64_of_int_nonneg a :
  0 ≤ a < 2 ^ 64 →
  0 ≤ Pd.float64_of_int a ∧ nearest_float64 a (Pd.float64_of_int a).
Proof.
  intros Ha. unfold Pd.float64_of_int. rewrite Z.abs_eq by lia.
  set (e := Z.log2 a - 52).
  destruct (Z.leb_spec e 0) as [He|He].
  - split; [lia|]. split; [|intros y _; lia].
    exists a, 0. rewrite Z.mul_1_r. split; [done|]. split; [|lia].
    rewrite Z.abs_eq by lia.
    destruct (decide (a = 0)) as [->|Hne]; [done|].
    apply Z.log2_lt_pow2; lia.
  - assert (0 < a) as Hpos.
    { destruct (decide (a = 0)) as [->|]; [|lia]. unfold e in He. cbn in He. lia. }
    pose proof (Z.log2_spec a Hpos) as [Hlo Hhi].
    assert (Z.log2 a < 64) as Hlog by (apply Z.log2_lt_pow2; lia).
    replace (Z.log2 a) with (52 + e) in Hlo by (unfold e; lia).
    replace (Z.succ (Z.log2 a)) with (53 + e) in Hhi by (unfold e; lia).
    rewrite Z.pow_add_r in Hlo, Hhi by lia.
    assert (0 < 2 ^ e) as Hp by (apply Z.pow_pos_nonneg; lia).
    assert (2 ^ e = 2 * 2 ^ (e - 1)) as Hhalf.
    { replace e with (1 + (e - 1)) at 1 by lia. rewrite Z.pow_add_r by lia. done. }
    pose proof (Z.div_mod a (2 ^ e) ltac:(lia)) as Hdm.
    pose proof (Z.mod_pos_bound a (2 ^ e) Hp) as Hr.
    set (p := 2 ^ e) in *. set (h := 2 ^ (e - 1)) in *.
    set (q := a / p) in *. set (r := a mod p) in *.
    assert (2 ^ 52 ≤ q < 2 ^ 53) as Hq by nia.
    assert (Z.sgn a = 1) as -> by (apply Z.sgn_pos; lia).
    rewrite Z.mul_1_l.
    set (up := (h <? r) || ((r =? h) && Z.odd q)).
    set (q' := if up then q + 1 else q).
    assert (q ≤ q' ≤ q + 1) as Hq' by (unfold q'; destruct up; lia).
    assert (Z.abs (q' * p - a) ≤ r ∧ Z.abs (q' * p - a) ≤ p - r) as [Hd1 Hd2].
    { unfold q', up. destruct (Z.ltb_spec h r); cbn [orb].
      - rewrite Z.abs_eq by nia. nia.
      - destruct (Z.eqb_spec r h); cbn [andb].
        + destruct (Z.odd q); [rewrite Z.abs_eq by nia | rewrite Z.abs_neq by nia]; nia.
        + rewrite Z.abs_neq by nia. nia. }
    split; [nia|]. split.
    + destruct (decide (q' = 2 ^ 53)) as [E|E].
      * exists (2 ^ 52), (e + 1). split; [|split; [done | unfold e; lia]].
        rewrite E, Z.pow_add_r by lia. fold p. lia.
      * exists q', e. split; [done|]. split; [|unfold e; lia].
        rewrite Z.abs_eq by lia. lia.
    + intros y (m & k & -> & Hm & Hk).
      destruct (Z_le_gt_dec m 0) as [Hneg|Hmpos].
      * assert (0 < 2 ^ k) by (apply Z.pow_pos_nonneg; lia).
        rewrite (Z.abs_neq (m * 2 ^ k - a)) by nia. nia.
      * destruct (binary64_gap q e (m * 2 ^ k) m k He ltac:(lia) ltac:(lia)
                    ltac:(lia) eq_refl) as [Hle|Hge]; fold p in Hle || fold p in Hge.
        -- rewrite (Z.abs_neq (m * 2 ^ k - a)) by nia. nia.
        -- rewrite (Z.abs_eq (m * 2 ^ k - a)) by nia. nia.
Qed.

Lemma float64_of_int_opp n : Pd.float64_of_int (- n) = - Pd.float64_of_int n.
Proof.
  unfold Pd.float64_of_int. rewrite Z.abs_opp, Z.sgn_opp.
  destruct (_ <=? 0); [done|]. lia.
Qed.

Lemma binary64_int_opp x : binary64_int x → binary64_int (- x).
Proof.
  intros (m & e & -> & Hm & He). exists (- m), e.
  split; [ring|]. by rewrite Z.abs_opp.
Qed.

Lemma float64_of_int_nearest n :
  - 2 ^ 63 ≤ n < 2 ^ 63 → nearest_float64 n (Pd.float64_of_int n).
Proof.
  intros Hn. destruct (Z_le_gt_dec 0 n) as [Hpos|Hneg].
  - apply float64_of_int_nonneg. lia.
  - destruct (float64_of_int_nonneg (- n) ltac:(lia)) as [_ [Hb Hnear]].
    rewrite float64_of_int_opp in Hb, Hnear. split.
    + apply binary64_int_opp in Hb. by rewrite Z.opp_involutive in Hb.
    + intros y Hy. specialize (Hnear (- y) (binary64_int_opp _ Hy)).
      replace (- Pd.float64_of_int n - - n) with (- (Pd.float64_of_int n - n)) in Hnear by ring.
      replace (- y - - n) with (- (y - n)) in Hnear by ring.
      by rewrite !Z.abs_opp in Hnear.
Qed.

Lemma float64_of_int_exact n : Z.abs n ≤ 2 ^ 53 → Pd.float64_of_int n = n.
Proof.
  intros Hn. unfold Pd.float64_of_int.
  destruct (Z.leb_spec (Z.log2 (Z.abs n) - 52) 0) as [|He]; [done|].
  assert (Z.abs n = 2 ^ 53) as E.
  { assert (2 ^ 53 ≤ Z.abs n); [|lia].
    assert (0 < Z.abs n) as Hpos.
    { destruct (decide (Z.abs n = 0)) as [E0|]; [|lia]. rewrite E0 in He. cbn in He. lia. }
    pose proof (Z.log2_spec _ Hpos) as [Hlo _].
    etrans; [|exact Hlo]. apply Z.pow_le_mono_r; lia. }
  rewrite E. change (Z.log2 (2 ^ 53) - 52) with 1.
  change ((2 ^ 53) / 2 ^ 1) with (2 ^ 52). change ((2 ^ 53) mod 2 ^ 1) with 0.
  cbn [orb andb Z.ltb Z.eqb]. 
  destruct (Z.abs_spec n) as [[? E']|[? E']]; rewrite E' in E.
  - rewrite E. reflexivity.
  - replace n with (- 2 ^ 53) by lia. reflexivity.
Qed.

Example float64_of_int_ties :
  Pd.float64_of_int (2 ^ 53 + 1) = 2 ^ 53
  ∧ Pd.float64_of_int (2 ^ 53 + 3) = 2 ^ 53 + 4
  ∧ Pd.float64_of_int (2 ^ 63 - 1) = 2 ^ 63
  ∧ Pd.float64_of_int (- (2 ^ 53 + 1)) = - 2 ^ 53.
Proof. repeat split; vm_compute; reflexivity. Qed.

Lemma forallb_decide {A} (P : A → Prop) `{!∀ x, Decision (P x)} (l : list A) :
  forallb (λ x, bool_decide (P x)) l = true ↔ ∀ x, x ∈ l → P x.
Proof.
  rewrite forallb_forall. split.
  - intros Hall x Hx. apply list_elem_of_In in Hx.
    specialize (Hall x Hx). by apply bool_decide_eq_true in Hall.
  - intros Hall x Hx. apply list_elem_of_In in Hx.
    by apply bool_decide_eq_true, Hall.
Qed.

Lemma infer_dtype_object values :
  Pd.infer_dtype values = Pd.dtype_object ↔ ∀ v, v ∈ values → v = None.
Proof.
  unfold Pd.infer_dtype. rewrite <- (forallb_decide (λ v, v = None)).
  destruct (forallb (λ v, bool_decide (v = None)) values); [done|].
  by destruct (forallb _ values).
Qed.

Lemma infer_dtype_int64 values :
  (∃ v, v ∈ values) → (∀ v, v ∈ values → is_Some v) →
  Pd.infer_dtype values = Pd.dtype_int64.
Proof.
  intros [v0 Hv0] H. unfold Pd.infer_dtype.
  destruct (forallb (λ v, bool_decide (v = None)) values) eqn:E1.
  - rewrite (forallb_decide (λ v, v = None)) in E1.
    destruct (H v0 Hv0) as [a Ha]. rewrite (E1 v0 Hv0) in Ha. discriminate.
  - by rewrite (proj2 (forallb_decide (λ v, is_Some v) values) H).
Qed.

Lemma infer_dtype_float64 values v1 v2 :
  v1 ∈ values → v1 = None → v2 ∈ values → is_Some v2 →
  Pd.infer_dtype values = Pd.dtype_float64.
Proof.
  intros H1 E1 H2 [a E2]. unfold Pd.infer_dtype.
  destruct (forallb (λ v, bool_decide (v = None)) values) eqn:F1.
  - rewrite (forallb_decide (λ v, v = None)) in F1.
    rewrite (F1 v2 H2) in E2. discriminate.
  - destruct (forallb (λ v, bool_decide (is_Some v)) values) eqn:F2; [|done].
    rewrite (forallb_decide (λ v, is_Some v)) in F2.
    destruct (F2 v1 H1) as [b Hb]. rewrite E1 in Hb. discriminate.
Qed.

(** The column Passenger Age of the frame of a table. *)
Lemma seats_frame_age (t : gmap Z seat_row) n r :
  t !! n = Some r →
  age_shown t (passenger_age r)
    (Pd.cell_of
       (Pd.infer_dtype ((λ kr, passenger_age kr.2)
                        <$> merge_sort Sql.by_seat_number (map_to_list t)))
       (passenger_age r)).
Proof.
  intros Hn. destruct (sorted_seats_keys t) as [_ Hmem].
  set (rows := merge_sort Sql.by_seat_number (map_to_list t)) in *.
  set (ages := (λ kr : Z * seat_row, passenger_age kr.2) <$> rows).
  assert (∀ v, v ∈ ages ↔ ∃ m r', t !! m = Some r' ∧ passenger_age r' = v)
    as Hages.
  { intros v. unfold ages. rewrite list_elem_of_fmap. split.
    - intros ([m r'] & -> & Hin). exists m, r'. by rewrite <- Hmem.
    - intros (m & r' & Hm & <-). exists (m, r'). by rewrite Hmem. }
  assert (passenger_age r ∈ ages) as Hin by (apply Hages; eauto).
  unfold age_shown. destruct (passenger_age r) as [a|] eqn:Ha.
  - split.
    + intros Hall. rewrite infer_dtype_int64; [done | eauto |].
      intros v (m & r' & Hm & <-)%Hages. by apply (Hall m).
    + intros (m & r' & Hm & Hnone).
      rewrite (infer_dtype_float64 ages None (Some a)); [| |done| |by eexists].
      2: { apply Hages. eauto. }
      2: { done. }
      exists (Pd.float64_of_int a). split; [done|].
      split; [apply float64_of_int_exact | apply float64_of_int_nearest].
  - split.
    + intros (m & r' & Hm & [a Hsome]).
      rewrite (infer_dtype_float64 ages None (Some a)); [done|done|done| |by eexists].
      apply Hages. eauto.
    + intros Hall.
      rewrite (proj2 (infer_dtype_object ages)); [done|].
      intros v (m & r' & Hm & <-)%Hages. by apply (Hall m).
Qed.

(** X14.  For a train number of the right form, [get_seats_df] returns
    without raising and leaves the state that [ensure_seat_table] leaves.
    Its frame is never empty; its lines are in strictly ascending order of
    seat number; a line stands for each seat of the inventory and for
    nothing else.  A line shows the seat type, the booked flag, the
    passenger name and the gender as they are stored, and Status Booked
    when the flag is 1 and Available otherwise.  The passenger age is
    shown as stored only when every seat of the table has an age; beside
    seats without age it is shown as the nearest float64, which is the
    age itself up to 53 bits, and a missing age as NaN; when no seat has an
    age, each is shown as [None].  In a state the program reaches the seat
    numbers of the frame are 1, 2, ..., 50. *)
Theorem get_seats_df_lines tn s :
  valid_train_number tn →
  ∃ t lines,
    get_seats_df tn s = (Ret lines, ensured tn default_total_seats s)
    ∧ inventory (ensured tn default_total_seats s) tn = Some t
    ∧ lines ≠ []
    ∧ StronglySorted Z.lt (line_number <$> lines)
    ∧ (∀ n, n ∈ line_number <$> lines ↔ is_Some (t !! n))
    ∧ (∀ l, l ∈ lines →
         ∃ r, t !! line_number l = Some r
              ∧ line_type l = seat_type r
              ∧ line_booked l = booked r
              ∧ line_name l = passenger_name r
              ∧ line_gender l = passenger_gender r
              ∧ (booked r = 1 ∧ line_status l = "Booked"
                 ∨ booked r ≠ 1 ∧ line_status l = "Available")
              ∧ age_shown t (passenger_age r) (line_age l))
    ∧ (reachable s → line_number <$> lines = seqZ 1 50).
Proof.
  intros Hv. destruct (get_seats_df_run tn s Hv) as (t & Ht & Hne & Hrun).
  destruct (sorted_seats_keys t) as [Hs Hmem].
  set (rows := merge_sort Sql.by_seat_number (map_to_list t)) in *.
  assert (∀ b, (b = 1 ∧ status_of b = "Booked")
               ∨ (b ≠ 1 ∧ status_of b = "Available")) as Hstatus.
  { intros b. unfold status_of. destruct (Z.eqb_spec b 1); auto. }
  assert (line_number <$> seats_frame rows = rows.*1) as Hkeys.
  { unfold seats_frame. rewrite <- list_fmap_compose. by apply list_fmap_ext. }
  eexists t, _. split; [exact Hrun|]. split; [done|].
  split; [|split; [|split; [|split]]].
  - intros E. apply fmap_nil_inv in E.
    apply Hne, map_empty. intros n. destruct (t !! n) as [r|] eqn:Hn; [|done].
    apply Hmem in Hn. rewrite E in Hn. by apply elem_of_nil in Hn.
  - by rewrite Hkeys.
  - intros n. rewrite Hkeys, list_elem_of_fmap. split.
    + intros ([k r] & -> & Hin). apply Hmem in Hin. by eexists.
    + intros [r Hn]. exists (n, r). split; [done | by apply Hmem].
  - intros l. unfold seats_frame. rewrite list_elem_of_fmap.
    intros ([k r] & -> & Hin). cbn. apply Hmem in Hin. exists r.
    split; [done|]. do 4 (split; [done|]).
    split; [apply Hstatus | by apply (seats_frame_age t k)].
  - intros Hr. rewrite Hkeys. apply table_ok_sorted_keys.
    apply (wf_tables _ (wf_ensured tn s (reachable_wf _ Hr)) _ _ Ht).
Qed.

Lemma get_seats_df_lines_witness :
  ∃ lines,
    get_seats_df "T1" big_age_booked
      = (Ret lines, ensured "T1" default_total_seats big_age_booked)
    ∧ lines !! 0%nat
      = Some (SeatLine 1 "Middle" 0 None Pd.nan None "Available")
    ∧ lines !! 3%nat
      = Some (SeatLine 4 "Window" 1 (Some "Alice") (Pd.float64 (2 ^ 53))
                (Some "Female") "Booked")
    ∧ line_number <$> lines = seqZ 1 50.
Proof.
  destruct (get_seats_df_lines "T1" big_age_booked)
    as (t & lines & Hrun & _ & _ & _ & _ & _ & Hnumbers).
  - reflexivity.
  - exists lines. split; [exact Hrun|].
    assert (reachable big_age_booked) as Hr.
    { unfold big_age_booked. eapply reach_step; [|apply step_book].
      apply reachable_after_create. }
    split; [|split; [|by apply Hnumbers]].
    + assert (match (get_seats_df "T1" big_age_booked).1 with
              | Ret ls => ls !! 0%nat
              | Raise _ => None
              end = Some (SeatLine 1 "Middle" 0 None Pd.nan None "Available"))
        as E by (vm_compute; reflexivity).
      by rewrite Hrun in E.
    + assert (match (get_seats_df "T1" big_age_booked).1 with
              | Ret ls => ls !! 3%nat
              | Raise _ => None
              end = Some (SeatLine 4 "Window" 1 (Some "Alice")
                            (Pd.float64 (2 ^ 53)) (Some "Female") "Booked"))
        as E by (vm_compute; reflexivity).
      by rewrite Hrun in E.
Defined.

(** ** The availability summary *)

Lemma length_filter_map_to_list (P : Z * seat_row → Prop)
    `{∀ x, Decision (P x)} (t : gmap Z seat_row) :
  length (filter P (map_to_list t)) = size (filter P t).
Proof.
  rewrite <- length_map_to_list. apply Permutation_length, NoDup_Permutation.
  - apply NoDup_filter, NoDup_map_to_list.
  - apply NoDup_map_to_list.
  - intros [k r]. rewrite list_elem_of_filter, !elem_of_map_to_list,
      map_lookup_filter_Some. tauto.
Qed.

Lemma sum_case_group v ty (l : list (Z * seat_row)) :
  Sql.sum_case (λ r, booked r =? v) (Sql.group_of ty l.*2)
  = Z.of_nat (length (filter (λ kr, seat_type kr.2 = ty ∧ booked kr.2 = v) l)).
Proof.
  unfold Sql.sum_case, Sql.group_of.
  induction l as [|[k r] l IH]; [done|].
  cbn [fmap list_fmap snd]. rewrite !filter_cons. cbn [snd].
  destruct (decide (seat_type r = ty)) as [Hty|Hty].
  - cbn [fmap list_fmap foldr]. rewrite IH.
    destruct (Z.eqb_spec (booked r) v) as [Hb|Hb].
    + rewrite decide_True by done. cbn [length]. lia.
    + rewrite decide_False by tauto. lia.
  - rewrite decide_False by tauto. exact IH.
Qed.

Lemma sum_case_seat_count v ty (t : gmap Z seat_row) :
  Sql.sum_case (λ r, booked r =? v) (Sql.group_of ty (map_to_list t).*2)
  = seat_count t ty v.
Proof.
  rewrite sum_case_group. unfold seat_count. f_equal.
  apply length_filter_map_to_list.
Qed.

Lemma get_seat_availability_run tn s :
  valid_train_number tn →
  ∃ t, inventory (ensured tn default_total_seats s) tn = Some t ∧ t ≠ ∅
     ∧ get_seat_availability tn s
       = (Ret ((λ ty, (ty, seat_count t ty 0, seat_count t ty 1))
               <$> merge_sort String.le
                     (remove_dups (seat_type <$> (map_to_list t).*2)),
               Z.of_nat (size t)),
          ensured tn default_total_seats s).
Proof.
  intros Hv. destruct (ensured_inventory tn s) as (t & Ht & Hne).
  exists t. split; [done|]. split; [done|].
  unfold get_seat_availability. unfold mbind at 1, M_bind at 1.
  rewrite (ensure_seat_table_run _ _ _ Hv), (seat_table_name_valid _ Hv).
  unfold inventory in Ht. unfold Sql.select_availability. run_step.
  fold (table_key tn). rewrite Ht. cbv beta iota. rewrite Ht.
  do 3 f_equal. apply list_fmap_ext. intros _ ty _.
  by rewrite !sum_case_seat_count.
Qed.

Lemma seat_types_spec (t : gmap Z seat_row) ty :
  ty ∈ merge_sort String.le (remove_dups (seat_type <$> (map_to_list t).*2))
  ↔ ∃ n r, t !! n = Some r ∧ seat_type r = ty.
Proof.
  rewrite merge_sort_Permutation, elem_of_remove_dups, list_elem_of_fmap.
  split.
  - intros (r & -> & [[n r'] [-> Hin]]%list_elem_of_fmap).
    apply elem_of_map_to_list in Hin. eauto.
  - intros (n & r & Hn & <-). exists r. split; [done|].
    apply list_elem_of_fmap. exists (n, r). split; [done|].
    by apply elem_of_map_to_list.
Qed.

(** X15.  For a train number of the right form, [get_seat_availability]
    returns without raising and leaves the state that [ensure_seat_table]
    leaves.  The total is the number of seats of the inventory.  The
    summary has one row for each seat type that occurs in the inventory
    and no other row, in ascending order of the type strings without
    repetition; the row of a type gives the number of its seats whose
    [booked] is 0 and the number of its seats whose [booked] is 1. *)
Theorem get_seat_availability_rows tn s :
  valid_train_number tn →
  ∃ t rows,
    get_seat_availability tn s
      = (Ret (rows, Z.of_nat (size t)), ensured tn default_total_seats s)
    ∧ inventory (ensured tn default_total_seats s) tn = Some t
    ∧ StronglySorted String.le (rows.*1.*1)
    ∧ NoDup (rows.*1.*1)
    ∧ (∀ ty a b, (ty, a, b) ∈ rows
                 ↔ (∃ n r, t !! n = Some r ∧ seat_type r = ty)
                   ∧ a = seat_count t ty 0 ∧ b = seat_count t ty 1).
Proof.
  intros Hv. destruct (get_seat_availability_run tn s Hv) as (t & Ht & _ & Hrun).
  set (types := merge_sort String.le
                  (remove_dups (seat_type <$> (map_to_list t).*2))) in *.
  assert (((λ ty, (ty, seat_count t ty 0, seat_count t ty 1)) <$> types).*1.*1
          = types) as Htypes.
  { rewrite <- !list_fmap_compose. rewrite <- (list_fmap_id types) at 2.
    by apply list_fmap_ext. }
  eexists t, _. split; [exact Hrun|]. split; [done|].
  split; [|split].
  - rewrite Htypes. apply StronglySorted_merge_sort; apply _.
  - rewrite Htypes. unfold types. rewrite merge_sort_Permutation.
    apply NoDup_remove_dups.
  - intros ty a b. rewrite list_elem_of_fmap. split.
    + intros (ty' & [= -> -> ->] & Hin). split; [|done].
      by apply seat_types_spec.
    + intros (Hin & -> & ->). exists ty. split; [done|].
      by apply seat_types_spec.
Qed.

Lemma get_seat_availability_rows_witness :
  ∃ t rows,
    get_seat_availability "T1" after_alice
      = (Ret (rows, Z.of_nat (size t)),
         ensured "T1" default_total_seats after_alice)
    ∧ inventory (ensured "T1" default_total_seats after_alice) "T1" = Some t
    ∧ StronglySorted String.le (rows.*1.*1)
    ∧ NoDup (rows.*1.*1)
    ∧ (∀ ty a b, (ty, a, b) ∈ rows
                 ↔ (∃ n r, t !! n = Some r ∧ seat_type r = ty)
                   ∧ a = seat_count t ty 0 ∧ b = seat_count t ty 1).
Proof.
  apply (get_seat_availability_rows "T1" after_alice). reflexivity.
Defined.

Lemma table_ok_keys t : table_ok t → (map_to_list t).*1 ≡ₚ seqZ 1 50.
Proof.
  intros Hok. rewrite <- (table_ok_sorted_keys t Hok).
  by rewrite (merge_sort_Permutation Sql.by_seat_number (map_to_list t)).
Qed.

Lemma count_by_type ty (l : list (Z * seat_row)) :
  Forall (λ kr, seat_type kr.2 = categorize_seat kr.1
                ∧ (booked kr.2 = 0 ∨ booked kr.2 = 1)) l →
  Nat.add (length (filter (λ kr, seat_type kr.2 = ty ∧ booked kr.2 = 0) l))
          (length (filter (λ kr, seat_type kr.2 = ty ∧ booked kr.2 = 1) l))
  = length (filter (λ n, categorize_seat n = ty) l.*1).
Proof.
  induction 1 as [|[k r] l [Hty Hb] _ IH]; [done|].
  cbn [fmap list_fmap fst]. rewrite !filter_cons. cbn [fst snd] in *.
  rewrite <- Hty.
  destruct (decide (seat_type r = ty)) as [E|E].
  - destruct Hb as [Hb|Hb]; rewrite Hb.
    + rewrite (decide_True (P := seat_type r = ty ∧ 0 = 0)) by done.
      rewrite (decide_False (P := seat_type r = ty ∧ 0 = 1)) by (intros [_ ?]; lia).
      cbn [length]. lia.
    + rewrite (decide_False (P := seat_type r = ty ∧ 1 = 0)) by (intros [_ ?]; lia).
      rewrite (decide_True (P := seat_type r = ty ∧ 1 = 1)) by done.
      cbn [length]. lia.
  - rewrite !decide_False by tauto. exact IH.
Qed.

Lemma table_ok_seat_counts t ty :
  table_ok t →
  seat_count t ty 0 + seat_count t ty 1
  = Z.of_nat (length (filter (λ n, categorize_seat n = ty) (seqZ 1 50))).
Proof.
  intros Hok. unfold seat_count.
  rewrite <- !length_filter_map_to_list, <- Nat2Z.inj_add. f_equal.
  rewrite count_by_type.
  - by rewrite (table_ok_keys t Hok).
  - apply Forall_forall. intros [k r] Hin%elem_of_map_to_list.
    specialize (Hok k). rewrite Hin in Hok. cbn.
    destruct Hok as (_ & Hty & [[Hb _]|[Hb _]]); auto.
Qed.

Lemma table_ok_types t :
  table_ok t →
  merge_sort String.le (remove_dups (seat_type <$> (map_to_list t).*2))
  = ["Aisle"; "Middle"; "Window"].
Proof.
  intros Hok. apply (StronglySorted_unique String.le).
  - apply StronglySorted_merge_sort; apply _.
  - apply (bool_decide_unpack _). vm_compute. exact I.
  - apply NoDup_Permutation.
    + rewrite merge_sort_Permutation. apply NoDup_remove_dups.
    + apply (bool_decide_unpack _). vm_compute. exact I.
    + intros ty. rewrite seat_types_spec. split.
      * intros (n & r & Hn & <-). specialize (Hok n). rewrite Hn in Hok.
        destruct Hok as (_ & -> & _).
        pose proof (categorize_seat_values n) as H.
        repeat (apply elem_of_cons in H as [->|H];
                [apply (bool_decide_unpack _); vm_compute; exact I|]).
        by apply elem_of_nil in H.
      * assert (∀ n, 1 ≤ n ≤ 50 → ∃ r, t !! n = Some r
                                      ∧ seat_type r = categorize_seat n) as Hrow.
        { intros n Hn. specialize (Hok n). unfold default_total_seats in Hok.
          destruct (t !! n) as [r|]; [|lia]. exists r. tauto. }
        intros H.
        repeat (apply elem_of_cons in H as [->|H]).
        -- destruct (Hrow 2 ltac:(lia)) as (r & ? & ?). by exists 2, r.
        -- destruct (Hrow 1 ltac:(lia)) as (r & ? & ?). by exists 1, r.
        -- destruct (Hrow 4 ltac:(lia)) as (r & ? & ?). by exists 4, r.
        -- by apply elem_of_nil in H.
Qed.

(** X16.  In a state the program reaches, for a train number of the right
    form, the summary of [get_seat_availability] has exactly the rows
    Aisle, Middle and Window, in this order; in each row the available and
    the booked seats add up to the seats of the type, 20, 10 and 20, and
    the total is 50, the sum over the rows. *)
Theorem get_seat_availability_reachable tn s :
  reachable s → valid_train_number tn →
  ∃ t a m w,
    inventory (ensured tn default_total_seats s) tn = Some t
    ∧ a = seat_count t "Aisle" 0 ∧ m = seat_count t "Middle" 0
    ∧ w = seat_count t "Window" 0
    ∧ 0 ≤ a ≤ 20 ∧ 0 ≤ m ≤ 10 ∧ 0 ≤ w ≤ 20
    ∧ get_seat_availability tn s
      = (Ret ([("Aisle", a, 20 - a); ("Middle", m, 10 - m); ("Window", w, 20 - w)],
              50),
         ensured tn default_total_seats s).
Proof.
  intros Hr Hv. destruct (get_seat_availability_run tn s Hv) as (t & Ht & _ & Hrun).
  pose proof (wf_tables _ (wf_ensured tn s (reachable_wf _ Hr)) _ _ Ht) as Hok.
  rewrite (table_ok_types t Hok), (table_ok_size t Hok) in Hrun.
  pose proof (table_ok_seat_counts t "Aisle" Hok) as Ha.
  pose proof (table_ok_seat_counts t "Middle" Hok) as Hm.
  pose proof (table_ok_seat_counts t "Window" Hok) as Hw.
  change (Z.of_nat (length (filter (λ n, categorize_seat n = "Aisle") (seqZ 1 50))))
    with 20 in Ha.
  change (Z.of_nat (length (filter (λ n, categorize_seat n = "Middle") (seqZ 1 50))))
    with 10 in Hm.
  change (Z.of_nat (length (filter (λ n, categorize_seat n = "Window") (seqZ 1 50))))
    with 20 in Hw.
  assert (∀ ty v, 0 ≤ seat_count t ty v) as Hpos
    by (intros; unfold seat_count; lia).
  pose proof (Hpos "Aisle" 0). pose proof (Hpos "Aisle" 1).
  pose proof (Hpos "Middle" 0). pose proof (Hpos "Middle" 1).
  pose proof (Hpos "Window" 0). pose proof (Hpos "Window" 1).
  exists t, (seat_count t "Aisle" 0), (seat_count t "Middle" 0),
    (seat_count t "Window" 0).
  split; [done|]. do 3 (split; [done|]). do 3 (split; [lia|]).
  rewrite Hrun. cbn [fmap list_fmap].
  replace (seat_count t "Aisle" 1) with (20 - seat_count t "Aisle" 0) by lia.
  replace (seat_count t "Middle" 1) with (10 - seat_count t "Middle" 0) by lia.
  replace (seat_count t "Window" 1) with (20 - seat_count t "Window" 0) by lia.
  reflexivity.
Qed.

Lemma get_seat_availability_reachable_witness :
  ∃ t a m w,
    inventory (ensured "T1" default_total_seats after_alice) "T1" = Some t
    ∧ a = seat_count t "Aisle" 0 ∧ m = seat_count t "Middle" 0
    ∧ w = seat_count t "Window" 0
    ∧ 0 ≤ a ≤ 20 ∧ 0 ≤ m ≤ 10 ∧ 0 ≤ w ≤ 20
    ∧ get_seat_availability "T1" after_alice
      = (Ret ([("Aisle", a, 20 - a); ("Middle", m, 10 - m); ("Window", w, 20 - w)],
              50),
         ensured "T1" default_total_seats after_alice).
Proof.
  apply (get_seat_availability_reachable "T1" after_alice).
  - apply reachable_after_alice.
  - reflexivity.
Defined.

Lemma alter_as_insert (t : gmap Z seat_row) n r f :
  t !! n = Some r → alter f n t = <[n := f r]> t.
Proof.
  intros Hn. apply map_eq. intros m. destruct (decide (n = m)) as [<-|Hne].
  - by rewrite lookup_alter_eq, lookup_insert_eq, Hn.
  - by rewrite lookup_alter_ne, lookup_insert_ne.
Qed.

(** Replacing the row of a seat changes a count by what the old row took
    part in it and what the new row takes part in it. *)
Lemma seat_count_insert (t : gmap Z seat_row) n r r' ty v :
  t !! n = Some r →
  seat_count (<[n := r']> t) ty v
  = seat_count t ty v
    - (if decide (seat_type r = ty ∧ booked r = v) then 1 else 0)
    + (if decide (seat_type r' = ty ∧ booked r' = v) then 1 else 0).
Proof.
  intros Hn. unfold seat_count.
  set (P := λ kr : Z * seat_row, seat_type kr.2 = ty ∧ booked kr.2 = v).
  rewrite (map_filter_insert P). change (P (n, r')) with (seat_type r' = ty ∧ booked r' = v).
  assert (filter P t !! n = if decide (seat_type r = ty ∧ booked r = v)
                            then Some r else None) as Hf.
  { case_decide as HP.
    - by apply map_lookup_filter_Some.
    - apply map_lookup_filter_None. right. intros r0 Hr0.
      assert (r0 = r) as -> by congruence. done. }
  destruct (decide (seat_type r' = ty ∧ booked r' = v)).
  - rewrite map_size_insert, Hf. case_decide; cbn; lia.
  - rewrite map_filter_delete, map_size_delete, Hf.
    case_decide as HP; cbn; [|lia].
    assert (size (filter P t) ≠ 0%nat); [|lia].
    apply map_size_non_empty_iff. intros E. rewrite E, lookup_empty in Hf.
    discriminate.
Qed.

(** X17.  A booking moves one seat of the requested type from available
    to booked and changes no other count: in a state the program reaches,
    after a successful [book_ticket] the inventory has one seat less of
    that type with [booked] 0, one more with [booked] 1, and the counts of
    the other types are as before. *)
Theorem book_ticket_seat_counts tn name age gender ty s t :
  reachable s → known s tn → inventory s tn = Some t →
  (∃ m, free_seat t ty m) → - 2 ^ 63 ≤ age < 2 ^ 63 →
  ∃ n s' t',
    book_ticket tn name age gender ty s = (Ret (ok_booked n ty name), s')
    ∧ inventory s' tn = Some t'
    ∧ seat_count t' ty 0 = seat_count t ty 0 - 1
    ∧ seat_count t' ty 1 = seat_count t ty 1 + 1
    ∧ (∀ ty' v, ty' ≠ ty → seat_count t' ty' v = seat_count t ty' v).
Proof.
  intros Hr Hk Ht Hfree Hage.
  destruct (book_ticket_reachable_run tn name age gender ty s t Hr Hk Ht Hfree Hage)
    as (n & _ & Hn & _ & Hbook).
  eexists n, _, _. split; [exact Hbook|]. split; [apply inventory_put|].
  rewrite (alter_as_insert _ _ _ _ Hn). unfold set_booked. cbn [seat_type].
  split; [|split].
  - rewrite (seat_count_insert _ _ _ _ _ _ Hn). cbn [seat_type booked].
    rewrite decide_True by done.
    rewrite decide_False by (intros [_ ?]; discriminate). lia.
  - rewrite (seat_count_insert _ _ _ _ _ _ Hn). cbn [seat_type booked].
    rewrite decide_False by (intros [_ ?]; discriminate).
    rewrite decide_True by done. lia.
  - intros ty' v Hne.
    rewrite (seat_count_insert _ _ _ _ _ _ Hn). cbn [seat_type booked].
    rewrite !decide_False by (intros [? _]; congruence). lia.
Qed.

Lemma book_ticket_seat_counts_witness :
  ∃ n s' t',
    book_ticket "T1" "Bob" 40 "Male" "Window" after_alice
      = (Ret (ok_booked n "Window" "Bob"), s')
    ∧ inventory s' "T1" = Some t'
    ∧ seat_count t' "Window" 0 = seat_count alice_table "Window" 0 - 1
    ∧ seat_count t' "Window" 1 = seat_count alice_table "Window" 1 + 1
    ∧ (∀ ty' v, ty' ≠ "Window" →
         seat_count t' ty' v = seat_count alice_table ty' v).
Proof.
  apply (book_ticket_seat_counts "T1" "Bob" 40 "Male" "Window" after_alice
           alice_table).
  - apply reachable_after_alice.
  - apply known_T1_after_alice.
  - vm_compute. reflexivity.
  - exists 5. eexists. split; [vm_compute; reflexivity|]. split; reflexivity.
  - lia.
Defined.

(** X18.  A cancellation of a booked seat moves one seat of its type from
    booked to available and changes no other count; a cancellation of an
    unbooked seat changes no count.  This holds in a state the program
    reaches, for a known train and a seat of its inventory. *)
Theorem cancel_tickets_seat_counts tn n s t r :
  reachable s → known s tn → inventory s tn = Some t → t !! n = Some r →
  ∃ s' t',
    cancel_tickets tn n s = (Ret (ok_cancelled n tn), s')
    ∧ inventory s' tn = Some t'
    ∧ (booked r = 1 →
       seat_count t' (seat_type r) 0 = seat_count t (seat_type r) 0 + 1
       ∧ seat_count t' (seat_type r) 1 = seat_count t (seat_type r) 1 - 1
       ∧ (∀ ty' v, ty' ≠ seat_type r → seat_count t' ty' v = seat_count t ty' v))
    ∧ (booked r = 0 → ∀ ty' v, seat_count t' ty' v = seat_count t ty' v).
Proof.
  intros Hr Hk Ht Hn.
  pose proof (reachable_known_valid _ _ Hr Hk) as Hv.
  assert (Sql.sqlite_integer n = true) as Hfit.
  { apply seat_number_sqlite_integer,
      (reachable_inventory_range s tn t n Hr Ht). eauto. }
  eexists _, _. split.
  { by rewrite (cancel_tickets_run _ _ _ Hk Hv), Ht, Hfit, Hn. }
  split; [apply inventory_put|].
  rewrite (alter_as_insert _ _ _ _ Hn). unfold set_cancelled.
  split.
  - intros Hb. split; [|split].
    + rewrite (seat_count_insert _ _ _ _ _ _ Hn). cbn [seat_type booked].
      rewrite decide_False by (intros [_ ?]; lia).
      rewrite decide_True by done. lia.
    + rewrite (seat_count_insert _ _ _ _ _ _ Hn). cbn [seat_type booked].
      rewrite decide_True by done.
      rewrite decide_False by (intros [_ ?]; discriminate). lia.
    + intros ty' v Hne.
      rewrite (seat_count_insert _ _ _ _ _ _ Hn). cbn [seat_type booked].
      rewrite !decide_False by (intros [? _]; congruence). lia.
  - intros Hb ty' v.
    rewrite (seat_count_insert _ _ _ _ _ _ Hn). cbn [seat_type booked].
    destruct (decide (seat_type r = ty' ∧ booked r = v)) as [[E1 E2]|Hno].
    + rewrite decide_True by (split; [done | congruence]). lia.
    + rewrite decide_False; [lia|]. intros [E1 E2]. apply Hno.
      split; [done | congruence].
Qed.

Lemma cancel_tickets_seat_counts_witness :
  ∃ s' t',
    cancel_tickets "T1" 4 after_alice = (Ret (ok_cancelled 4 "T1"), s')
    ∧ inventory s' "T1" = Some t'
    ∧ (booked (SeatRow "Window" 1 (Some "Alice") (Some 30) (Some "Female")) = 1 →
       seat_count t' "Window" 0 = seat_count alice_table "Window" 0 + 1
       ∧ seat_count t' "Window" 1 = seat_count alice_table "Window" 1 - 1
       ∧ (∀ ty' v, ty' ≠ "Window" →
            seat_count t' ty' v = seat_count alice_table ty' v))
    ∧ (booked (SeatRow "Window" 1 (Some "Alice") (Some 30) (Some "Female")) = 0 →
       ∀ ty' v, seat_count t' ty' v = seat_count alice_table ty' v).
Proof.
  apply (cancel_tickets_seat_counts "T1" 4 after_alice alice_table
           (SeatRow "Window" 1 (Some "Alice") (Some 30) (Some "Female"))).
  - apply reachable_after_alice.
  - apply known_T1_after_alice.
  - vm_compute. reflexivity.
  - vm_compute. reflexivity.
Defined.

(** ** Dates *)

Lemma zero_padded_checked width bound :
  forallb (λ n, (String.length (PyStr.zero_padded width n) =? width)%nat
                && (digits_value (PyStr.zero_padded width n) =? n))
    (seqZ 0 bound) = true →
  ∀ n, 0 ≤ n < bound →
    String.length (PyStr.zero_padded width n) = width
    ∧ digits_value (PyStr.zero_padded width n) = n.
Proof.
  intros H n Hn. rewrite forallb_forall in H.
  specialize (H n). rewrite andb_true_iff, Nat.eqb_eq, Z.eqb_eq in H.
  apply H, list_elem_of_In, elem_of_seqZ. lia.
Qed.

Lemma zero_padded_4 n :
  0 ≤ n < 10000 →
  String.length (PyStr.zero_padded 4 n) = 4%nat
  ∧ digits_value (PyStr.zero_padded 4 n) = n.
Proof. apply zero_padded_checked. vm_compute. reflexivity. Qed.

Lemma zero_padded_2 n :
  0 ≤ n < 100 →
  String.length (PyStr.zero_padded 2 n) = 2%nat
  ∧ digits_value (PyStr.zero_padded 2 n) = n.
Proof. apply zero_padded_checked. vm_compute. reflexivity. Qed.

Lemma app_inj_length a a' b b' :
  String.length a = String.length a' → a +:+ b = a' +:+ b' → a = a' ∧ b = b'.
Proof.
  revert a'. induction a as [|c a IH]; intros [|c' a'] Hlen E;
    try discriminate.
  - done.
  - change (String c (a +:+ b) = String c' (a' +:+ b')) in E.
    injection E as -> E. injection Hlen as Hlen.
    destruct (IH a' Hlen E) as [-> ->]. done.
Qed.

Lemma length_app a b :
  String.length (a +:+ b) = (String.length a + String.length b)%nat.
Proof.
  induction a as [|c a IH]; [done|].
  change (S (String.length (a +:+ b)) = S (String.length a + String.length b)).
  by rewrite IH.
Qed.

Lemma isoformat_inj y m d y' m' d' :
  date_in_range y m d → date_in_range y' m' d' →
  isoformat y m d = isoformat y' m' d' → y = y' ∧ m = m' ∧ d = d'.
Proof.
  intros (Hy & Hm & Hd) (Hy' & Hm' & Hd') E. unfold isoformat in E.
  destruct (zero_padded_4 y ltac:(lia)) as [Ly Vy].
  destruct (zero_padded_4 y' ltac:(lia)) as [Ly' Vy'].
  destruct (zero_padded_2 m ltac:(lia)) as [Lm Vm].
  destruct (zero_padded_2 m' ltac:(lia)) as [Lm' Vm'].
  destruct (zero_padded_2 d ltac:(lia)) as [_ Vd].
  destruct (zero_padded_2 d' ltac:(lia)) as [_ Vd'].
  apply app_inj_length in E as [E1 E]; [|congruence].
  apply (app_inj_length "-" "-") in E as [_ E]; [|done].
  apply app_inj_length in E as [E2 E]; [|congruence].
  apply (app_inj_length "-" "-") in E as [_ E3]; [|done].
  rewrite <- Vy, <- Vy', <- Vm, <- Vm', <- Vd, <- Vd'.
  by rewrite E1, E2, E3.
Qed.

(** X19.  [isoformat] writes a date as ten characters, and two dates that
    differ in their year, month or day are written differently; so
    [delete_train], given a date other than the one stored with the train,
    reports the mismatch and leaves the state as it is. *)
Theorem delete_train_other_date tn s r y m d y' m' d' :
  find_train s tn = Some r → stored_date r = isoformat y m d →
  date_in_range y m d → date_in_range y' m' d' →
  (y', m', d') ≠ (y, m, d) →
  String.length (isoformat y' m' d') = 10%nat
  ∧ isoformat y' m' d' ≠ isoformat y m d
  ∧ delete_train tn (a_date y' m' d') s = (Ret err_date_mismatch, s).
Proof.
  intros Hf Hs Hr Hr' Hne.
  assert (isoformat y' m' d' ≠ isoformat y m d) as Hiso.
  { intros E. apply isoformat_inj in E as (-> & -> & ->); done. }
  split; [|split; [done|]].
  - destruct Hr' as (Hy' & Hm' & Hd'). unfold isoformat.
    destruct (zero_padded_4 y' ltac:(lia)) as [Ly _].
    destruct (zero_padded_2 m' ltac:(lia)) as [Lm _].
    destruct (zero_padded_2 d' ltac:(lia)) as [Ld _].
    rewrite !length_app, Ly, Lm, Ld. reflexivity.
  - rewrite (delete_train_run _ _ _ _ Hf). cbn [departure_date_str].
    rewrite decide_False; [done|]. by rewrite Hs.
Qed.

Lemma delete_train_other_date_witness :
  String.length (isoformat 2025 1 10) = 10%nat
  ∧ isoformat 2025 1 10 ≠ isoformat 2025 1 1
  ∧ delete_train "T1" (a_date 2025 1 10) after_alice
    = (Ret err_date_mismatch, after_alice).
Proof.
  apply (delete_train_other_date "T1" after_alice
           (TrainRow "T1" "Express" "2025-01-01" "A" "B") 2025 1 1 2025 1 10).
  - vm_compute. reflexivity.
  - vm_compute. reflexivity.
  - unfold date_in_range. lia.
  - unfold date_in_range. lia.
  - discriminate.
Defined.

(** ** The forms *)

Lemma truthy_false x : PyStr.truthy x = false ↔ x = "".
Proof. destruct x; cbn; split; congruence. Qed.

Lemma availability_rows_nonempty (t : gmap Z seat_row) :
  t ≠ ∅ →
  merge_sort String.le (remove_dups (seat_type <$> (map_to_list t).*2)) ≠ [].
Proof.
  intros Hne E. apply Hne, map_empty. intros n.
  destruct (t !! n) as [r|] eqn:Hn; [|done].
  assert (seat_type r ∈ merge_sort String.le
            (remove_dups (seat_type <$> (map_to_list t).*2))) as Hin
    by (apply seat_types_spec; eauto).
  rewrite E in Hin. by apply elem_of_nil in Hin.
Qed.

Lemma view_seats_run tn s :
  PyStr.strip tn ≠ "" →
  (valid_train_number (PyStr.strip tn) →
   ∃ lines rows total,
     get_seats_df (PyStr.strip tn) s
       = (Ret lines, ensured (PyStr.strip tn) default_total_seats s)
     ∧ get_seat_availability (PyStr.strip tn) s
       = (Ret (rows, total), ensured (PyStr.strip tn) default_total_seats s)
     ∧ lines ≠ [] ∧ rows ≠ []
     ∧ train_functions (act_view_seats tn) s
       = (Ret (seats_shown (Some (rows, total)) lines),
          ensured (PyStr.strip tn) default_total_seats s))
  ∧ (¬ valid_train_number (PyStr.strip tn) →
     train_functions (act_view_seats tn) s = (Ret seats_error, s)).
Proof.
  intros Hne. apply truthy_true in Hne.
  unfold train_functions. rewrite Hne. unfold except_ValueError.
  split.
  - intros Hv.
    destruct (get_seats_df_run _ s Hv) as (t & Ht & Hnt & Hdf).
    destruct (get_seat_availability_run _ s Hv) as (t1 & Ht1 & _ & Hav).
    destruct (get_seat_availability_run _
                (ensured (PyStr.strip tn) default_total_seats s) Hv)
      as (t2 & Ht2 & _ & Hav2).
    rewrite ensured_twice in Ht2, Hav2 by (by left).
    assert (t1 = t) as -> by congruence. assert (t2 = t) as -> by congruence.
    pose proof (availability_rows_nonempty t Hnt) as Hrows.
    set (types := merge_sort String.le
                    (remove_dups (seat_type <$> (map_to_list t).*2))) in *.
    set (lines := seats_frame (merge_sort Sql.by_seat_number (map_to_list t)))
      in *.
    set (rows := (λ ty, (ty, seat_count t ty 0, seat_count t ty 1)) <$> types)
      in *.
    assert (lines ≠ []) as Hlines.
    { intros E. apply fmap_nil_inv in E. apply Hnt, map_to_list_empty_iff.
      apply Permutation_nil.
      by rewrite <- (merge_sort_Permutation Sql.by_seat_number (map_to_list t)), E. }
    assert (rows ≠ []) as Hrows'.
    { intros E. by apply fmap_nil_inv in E. }
    exists lines, rows, (Z.of_nat (size t)).
    split; [done|]. split; [done|]. split; [done|]. split; [done|].
    unfold mbind at 1, M_bind at 1. rewrite Hdf.
    destruct lines as [|l0 lines']; [done|].
    unfold mbind at 1, M_bind at 1. rewrite Hav2. cbn [fst].
    destruct rows as [|r0 rows']; [done|]. reflexivity.
  - intros Hv. unfold mbind at 1, M_bind at 1.
    by rewrite (get_seats_df_invalid _ _ Hv).
Qed.

(** X20.  The form View Seats never raises, whatever is typed and
    whatever the state: for a number of the right form it shows the
    summary and the seats, neither of them empty, so the message that no
    seats were found and the display without a summary never appear; for
    any other number that is not blank it shows the error of
    [sanitize_train_number] and leaves the state as it is. *)
Theorem view_seats_form tn s :
  ∃ out s',
    train_functions (act_view_seats tn) s = (Ret out, s')
    ∧ out ≠ no_seats_info
    ∧ (∀ lines, out ≠ seats_shown None lines)
    ∧ (PyStr.strip tn = "" → out = please_enter_the_train_number ∧ s' = s)
    ∧ (PyStr.strip tn ≠ "" → ¬ valid_train_number (PyStr.strip tn) →
       out = seats_error ∧ s' = s)
    ∧ (valid_train_number (PyStr.strip tn) →
       ∃ lines rows total,
         out = seats_shown (Some (rows, total)) lines
         ∧ lines ≠ [] ∧ rows ≠ []
         ∧ s' = ensured (PyStr.strip tn) default_total_seats s).
Proof.
  destruct (decide (PyStr.strip tn = "")) as [E|E].
  - exists please_enter_the_train_number, s.
    assert (train_functions (act_view_seats tn) s
            = (Ret please_enter_the_train_number, s)) as ->.
    { unfold train_functions. by rewrite (proj2 (truthy_false _) E). }
    split; [done|]. split; [done|]. split; [done|]. split; [done|].
    split; [done|]. intros Hv. exfalso.
    unfold valid_train_number in Hv. by rewrite E in Hv.
  - destruct (view_seats_run tn s E) as [Hvalid Hinvalid].
    destruct (valid_dec (PyStr.strip tn)) as [Hv|Hv].
    + destruct (Hvalid Hv) as (lines & rows & total & _ & _ & Hl & Hr & ->).
      eexists _, _. split; [reflexivity|]. split; [done|].
      split; [intros ? [=]|]. split; [done|]. split; [done|].
      intros _. by exists lines, rows, total.
    + rewrite (Hinvalid Hv). eexists _, _. split; [reflexivity|].
      split; [done|]. split; [done|]. split; [done|]. split; [done|]. done.
Qed.

Lemma seeded_has_free_seat c :
  truthy_seat (Sql.first_free (seeded default_total_seats) (seat_choice_str c))
  = true.
Proof. destruct c; vm_compute; reflexivity. Qed.

(** In a reachable state, a booking of one of the three seat types that
    finds no seat has not touched the state. *)
Lemma book_ticket_choice_no_seat tn c s t :
  reachable s → inventory (ensured tn default_total_seats s) tn = Some t →
  truthy_seat (Sql.first_free t (seat_choice_str c)) = false →
  ensured tn default_total_seats s = s.
Proof.
  intros Hr Ht Hff. destruct (inventory s tn) as [t0|] eqn:Ht0.
  - apply (ensured_nonempty _ _ _ t0 Ht0).
    apply table_ok_nonempty, (wf_tables _ (reachable_wf _ Hr) _ _ Ht0).
  - exfalso. unfold ensured in Ht. rewrite Ht0, inventory_put in Ht.
    injection Ht as <-. by rewrite seeded_has_free_seat in Hff.
Qed.

(** X21.  Through the forms, whatever does not end in a report of success
    or in a display of the seats leaves the database exactly as it was: a
    message of the form itself, and every error that [add_train],
    [delete_train], [book_ticket] and [cancel_tickets] report.  This holds
    in every state the program reaches. *)
Theorem form_error_keeps_state a s out s' :
  reachable s → train_functions a s = (Ret out, s') →
  s' = s
  ∨ (∃ n, out = reported n ∧ kind_of n = None)
  ∨ (∃ summary lines, out = seats_shown summary lines).
Proof.
  intros Hr. destruct a as [tn name y m d start end_| |tn|start end_|tn y m d
                           |tn c name age gender|tn n|tn]; unfold train_functions.
  - destruct (_ && _); [|intros [= <- <-]; by left].
    unfold mbind, M_bind, mret, M_ret.
    set (tn' := PyStr.strip tn). set (name' := PyStr.strip name).
    set (start' := PyStr.strip start). set (end' := PyStr.strip end_).
    destruct (fields_dec tn' name' start' end') as [Hf|Hf].
    2: { rewrite (add_train_missing_field _ _ _ _ _ _ Hf).
         intros [= <- <-]. by left. }
    destruct (valid_dec tn') as [Hv|Hv].
    2: { rewrite (add_train_bad_number _ _ _ _ _ _ Hf Hv).
         intros [= <- <-]. by left. }
    destruct (known_dec s tn') as [Hk|Hk].
    + rewrite (add_train_duplicate _ _ _ _ _ _ Hf Hv Hk).
      intros [= <- <-]. by left.
    + rewrite (add_train_run _ _ _ _ _ _ Hf Hv Hk).
      intros [= <- <-]. right. left. eauto.
  - unfold mbind, M_bind, Sql.select_all_trains, mret, M_ret.
    destruct (trains s); intros [= <- <-]; by left.
  - destruct (PyStr.truthy _); [|intros [= <- <-]; by left].
    unfold mbind, M_bind, search_train_by_train_number, Sql.select_train,
      mret, M_ret.
    destruct (head _); intros [= <- <-]; by left.
  - destruct (_ && _); [|intros [= <- <-]; by left].
    unfold mbind, M_bind, search_trains_by_destinations,
      Sql.select_trains_by_route, mret, M_ret.
    destruct (filter _ _); intros [= <- <-]; by left.
  - destruct (PyStr.truthy _); [|intros [= <- <-]; by left].
    unfold mbind, M_bind, mret, M_ret. set (tn' := PyStr.strip tn).
    destruct (find_train s tn') as [r|] eqn:Hf.
    2: { rewrite delete_train_unknown.
         - intros [= <- <-]. by left.
         - intros Hk%find_train_known. rewrite Hf in Hk. by destruct Hk. }
    rewrite (delete_train_run _ _ _ _ Hf).
    destruct (decide _); [|intros [= <- <-]; by left].
    destruct (seat_table_name tn'); intros [= <- <-].
    + right. left. eauto.
    + by left.
  - destruct (_ && _); [|intros [= <- <-]; by left].
    unfold mbind, M_bind, mret, M_ret. set (tn' := PyStr.strip tn).
    destruct (known_dec s tn') as [Hk|Hk].
    2: { rewrite (book_ticket_unknown _ _ _ _ _ _ Hk).
         intros [= <- <-]. by left. }
    pose proof (reachable_known_valid _ _ Hr Hk) as Hv.
    destruct (book_ticket_run tn' (PyStr.strip name) (Z.pos age)
                (gender_choice_str gender) (seat_choice_str c) s Hk Hv)
      as (t & Ht & ->).
    destruct (truthy_seat _) eqn:Hff.
    + destruct (forallb _ _); [|discriminate].
      intros [= <- <-]. right. left. eauto.
    + intros [= <- <-]. left.
      by apply (book_ticket_choice_no_seat tn' c s t).
  - destruct (PyStr.truthy _); [|intros [= <- <-]; by left].
    unfold mbind, M_bind, mret, M_ret. set (tn' := PyStr.strip tn).
    destruct (known_dec s tn') as [Hk|Hk].
    2: { rewrite (cancel_tickets_unknown _ _ _ Hk).
         intros [= <- <-]. by left. }
    pose proof (reachable_known_valid _ _ Hr Hk) as Hv.
    rewrite (cancel_tickets_run _ _ _ Hk Hv).
    destruct (inventory s tn') as [t|]; [|discriminate].
    destruct (Sql.sqlite_integer _); [|discriminate].
    destruct (t !! Z.pos n); intros [= <- <-].
    + right. left. eauto.
    + by left.
  - fold (train_functions (act_view_seats tn)).
    destruct (decide (PyStr.strip tn = "")) as [E|E].
    { unfold train_functions. rewrite (proj2 (truthy_false _) E).
      intros [= <- <-]. by left. }
    destruct (view_seats_run tn s E) as [Hvalid Hinvalid].
    destruct (valid_dec (PyStr.strip tn)) as [Hv|Hv].
    + destruct (Hvalid Hv) as (lines & rows & total & _ & _ & _ & _ & ->).
      intros [= <- <-]. right. right. eauto.
    + rewrite (Hinvalid Hv). intros [= <- <-]. by left.
Qed.

Lemma form_error_keeps_state_witness :
  windows_sold_out = windows_sold_out
  ∨ (∃ n, reported (err_no_available_seat "Window") = reported n
          ∧ kind_of n = None)
  ∨ (∃ summary lines,
       reported (err_no_available_seat "Window") = seats_shown summary lines).
Proof.
  apply (form_error_keeps_state
           (act_book_ticket " T1 " choice_window "Ann" 28 choice_female)
           windows_sold_out (reported (err_no_available_seat "Window"))
           windows_sold_out).
  - apply reachable_windows_sold_out.
  - vm_compute. reflexivity.
Defined.

Lemma strip_strip x : PyStr.strip (PyStr.strip x) = PyStr.strip x.
Proof.
  assert (∀ c rest, PyStr.strip x = String c rest → PyStr.isspace c = false)
    as Hhead.
  { unfold PyStr.strip. intros c rest H.
    apply rstrip_head in H as [rest' H]. by apply lstrip_head in H. }
  assert (∀ init c, PyStr.strip x = init +:+ String c "" →
                    PyStr.isspace c = false) as Hlast.
  { unfold PyStr.strip. intros init c H. by apply rstrip_last in H. }
  unfold PyStr.strip at 1. fold (PyStr.strip x).
  rewrite (lstrip_id (PyStr.strip x)) by done. by apply rstrip_id.
Qed.

Lemma truthy_strip_trimmed x :
  PyStr.truthy (PyStr.strip x) = true → trimmed (PyStr.strip x).
Proof. intros H. split; [by apply truthy_true | apply strip_strip]. Qed.

Lemma train_functions_reachable a s :
  reachable s → reachable (train_functions a s).2.
Proof.
  intros Hr. destruct a as [tn name y m d start end_| |tn|start end_|tn y m d
                           |tn c name age gender|tn n|tn]; unfold train_functions.
  - destruct (_ && _); [|done].
    unfold mbind, M_bind, mret, M_ret.
    apply (reach_step s); [done|].
    pose proof (step_add (PyStr.strip tn) (PyStr.strip name) (a_date y m d)
                  (PyStr.strip start) (PyStr.strip end_) s) as Hs.
    by destruct (add_train _ _ _ _ _ s) as [[?|?] ?].
  - unfold mbind, M_bind, Sql.select_all_trains, mret, M_ret.
    by destruct (trains s).
  - destruct (PyStr.truthy _); [|done].
    unfold mbind, M_bind, search_train_by_train_number, Sql.select_train,
      mret, M_ret.
    by destruct (head _).
  - destruct (_ && _); [|done].
    unfold mbind, M_bind, search_trains_by_destinations,
      Sql.select_trains_by_route, mret, M_ret.
    by destruct (filter _ _).
  - destruct (PyStr.truthy _); [|done].
    unfold mbind, M_bind, mret, M_ret.
    apply (reach_step s); [done|].
    pose proof (step_delete (PyStr.strip tn) (a_date y m d) s) as Hs.
    by destruct (delete_train _ _ s) as [[?|?] ?].
  - destruct (_ && _); [|done].
    unfold mbind, M_bind, mret, M_ret.
    apply (reach_step s); [done|].
    pose proof (step_book (PyStr.strip tn) (PyStr.strip name) (Z.pos age)
                  (gender_choice_str gender) (seat_choice_str c) s) as Hs.
    by destruct (book_ticket _ _ _ _ _ s) as [[?|?] ?].
  - destruct (PyStr.truthy _); [|done].
    unfold mbind, M_bind, mret, M_ret.
    apply (reach_step s); [done|].
    pose proof (step_cancel (PyStr.strip tn) (Z.pos n) s) as Hs.
    by destruct (cancel_tickets _ _ s) as [[?|?] ?].
  - fold (train_functions (act_view_seats tn)).
    destruct (decide (PyStr.strip tn = "")) as [E|E].
    { unfold train_functions. by rewrite (proj2 (truthy_false _) E). }
    destruct (view_seats_run tn s E) as [Hvalid Hinvalid].
    destruct (valid_dec (PyStr.strip tn)) as [Hv|Hv].
    + destruct (Hvalid Hv) as (lines & rows & total & _ & _ & _ & _ & ->).
      cbn [snd]. apply (reach_step s); [done|].
      pose proof (step_view (PyStr.strip tn) s) as Hs.
      by rewrite (ensure_seat_table_run _ default_total_seats s Hv) in Hs.
    + by rewrite (Hinvalid Hv).
Qed.

Lemma ui_reachable_reachable s : ui_reachable s → reachable s.
Proof.
  induction 1; [apply reach_init | by apply train_functions_reachable].
Qed.

(** A property of rows that fresh rows have is kept by every operation
    whose updates keep it. *)
Section row_invariant.
Variable Q : seat_row → Prop.
Hypothesis Q_fresh : ∀ n, Q (fresh_row n).

Definition all_rows (s : db) : Prop :=
  ∀ k t n r, seat_tables s !! k = Some t → t !! n = Some r → Q r.

Lemma all_rows_put tn (t : gmap Z seat_row) s :
  all_rows s → (∀ n r, t !! n = Some r → Q r) →
  all_rows (put_inventory tn t s).
Proof.
  intros Hs Ht k t' n r. rewrite put_inventory_lookup. case_decide.
  - intros [= <-]. apply Ht.
  - apply Hs.
Qed.

Lemma all_rows_ensured tn total s : all_rows s → all_rows (ensured tn total s).
Proof.
  intros Hs. destruct (ensured_cases tn total s) as [-> | ->]; [done|].
  apply all_rows_put; [done|].
  intros n r [_ ->]%seeded_lookup_Some. apply Q_fresh.
Qed.

Lemma all_rows_alter tn (t : gmap Z seat_row) n f s :
  all_rows s → inventory s tn = Some t → (∀ r, Q (f r)) →
  all_rows (put_inventory tn (alter f n t) s).
Proof.
  intros Hs Ht Hf. apply all_rows_put; [done|].
  intros m r. destruct (decide (n = m)) as [->|Hne].
  - rewrite lookup_alter_eq. destruct (t !! m); [|done].
    intros [= <-]. apply Hf.
  - rewrite lookup_alter_ne by done. by apply (Hs _ _ _ _ Ht).
Qed.

Lemma all_rows_add_train tn name d start end_ s :
  all_rows s → all_rows (add_train tn name d start end_ s).2.
Proof.
  intros Hs. destruct (fields_dec tn name start end_) as [Hf|Hf].
  2: by rewrite (add_train_missing_field _ _ _ _ _ _ Hf).
  destruct (valid_dec tn) as [Hv|Hv].
  2: by rewrite (add_train_bad_number _ _ _ _ _ _ Hf Hv).
  destruct (known_dec s tn) as [Hk|Hk].
  1: by rewrite (add_train_duplicate _ _ _ _ _ _ Hf Hv Hk).
  rewrite (add_train_run _ _ _ _ _ _ Hf Hv Hk). cbn [snd].
  by apply all_rows_ensured.
Qed.

Lemma all_rows_delete_train tn d s :
  all_rows s → all_rows (delete_train tn d s).2.
Proof.
  intros Hs. destruct (find_train s tn) as [r|] eqn:Hf.
  2: { rewrite delete_train_unknown; [done|].
       intros Hk%find_train_known. rewrite Hf in Hk. by destruct Hk. }
  rewrite (delete_train_run _ _ _ _ Hf).
  destruct (decide _); [|done].
  destruct (seat_table_name tn); [|done]. cbn.
  intros k t n r' Hkt. cbn in Hkt.
  apply lookup_delete_Some in Hkt as [_ Hkt]. by apply (Hs k).
Qed.

Lemma all_rows_book_ticket tn name age gender ty s :
  all_rows s → (∀ r, Q (set_booked (PyStr.strip name) age gender r)) →
  all_rows (book_ticket tn name age gender ty s).2.
Proof.
  intros Hs Hb. destruct (known_dec s tn) as [Hk|Hk].
  2: by rewrite (book_ticket_unknown _ _ _ _ _ _ Hk).
  destruct (valid_dec tn) as [Hv|Hv].
  2: by rewrite (book_ticket_invalid _ _ _ _ _ _ Hk Hv).
  destruct (book_ticket_run tn name age gender ty s Hk Hv) as (t & Ht & ->).
  pose proof (all_rows_ensured tn default_total_seats s Hs) as Hs'.
  destruct (truthy_seat _); cbn [snd]; [|done].
  destruct (forallb _ _); cbn [snd]; [|done].
  by apply all_rows_alter.
Qed.

Lemma all_rows_cancel_tickets tn n s :
  all_rows s → (∀ r, Q (set_cancelled r)) →
  all_rows (cancel_tickets tn n s).2.
Proof.
  intros Hs Hc. destruct (known_dec s tn) as [Hk|Hk].
  2: by rewrite (cancel_tickets_unknown _ _ _ Hk).
  destruct (valid_dec tn) as [Hv|Hv].
  2: by rewrite (cancel_tickets_invalid _ _ _ Hk Hv).
  rewrite (cancel_tickets_run _ _ _ Hk Hv).
  destruct (inventory s tn) as [t|] eqn:Ht; [|done].
  destruct (Sql.sqlite_integer n); [|done].
  destruct (t !! n) eqn:Hn; cbn; [|done].
  by apply all_rows_alter.
Qed.

End row_invariant.

Lemma gender_choice_values g :
  gender_choice_str g ∈ ["Male"; "Female"; "Other"].
Proof. destruct g; [left | right; left | do 2 right; left]. Qed.

Lemma train_functions_passengers a s :
  all_rows (λ r, booked r ≠ 0 → passenger_ok r) s →
  all_rows (λ r, booked r ≠ 0 → passenger_ok r) (train_functions a s).2.
Proof.
  set (Q := λ r, booked r ≠ 0 → passenger_ok r).
  assert (∀ n, Q (fresh_row n)) as Hfresh by (intros n H; by destruct H).
  intros Hs. destruct a as [tn name y m d start end_| |tn|start end_|tn y m d
                           |tn c name age gender|tn n|tn]; unfold train_functions.
  - destruct (_ && _); [|done].
    unfold mbind, M_bind, mret, M_ret.
    pose proof (all_rows_add_train Q Hfresh (PyStr.strip tn) (PyStr.strip name)
                  (a_date y m d) (PyStr.strip start) (PyStr.strip end_) s Hs) as H.
    by destruct (add_train _ _ _ _ _ s) as [[?|?] ?].
  - unfold mbind, M_bind, Sql.select_all_trains, mret, M_ret.
    by destruct (trains s).
  - destruct (PyStr.truthy _); [|done].
    unfold mbind, M_bind, search_train_by_train_number, Sql.select_train,
      mret, M_ret.
    by destruct (head _).
  - destruct (_ && _); [|done].
    unfold mbind, M_bind, search_trains_by_destinations,
      Sql.select_trains_by_route, mret, M_ret.
    by destruct (filter _ _).
  - destruct (PyStr.truthy _); [|done].
    unfold mbind, M_bind, mret, M_ret.
    pose proof (all_rows_delete_train Q (PyStr.strip tn) (a_date y m d) s Hs) as H.
    by destruct (delete_train _ _ s) as [[?|?] ?].
  - destruct (PyStr.truthy (PyStr.strip tn)); [|done].
    destruct (PyStr.truthy (PyStr.strip name)) eqn:Hname; [|done].
    cbn [andb]. unfold mbind, M_bind, mret, M_ret.
    assert (∀ r, Q (set_booked (PyStr.strip (PyStr.strip name)) (Z.pos age)
                      (gender_choice_str gender) r)) as Hb.
    { intros r _. exists (PyStr.strip name), (Z.pos age), (gender_choice_str gender).
      cbn. rewrite strip_strip. split; [done|].
      split; [by apply truthy_strip_trimmed|]. split; [done|].
      split; [lia|]. split; [done | apply gender_choice_values]. }
    pose proof (all_rows_book_ticket Q Hfresh (PyStr.strip tn) (PyStr.strip name)
                  (Z.pos age) (gender_choice_str gender) (seat_choice_str c) s
                  Hs Hb) as H.
    by destruct (book_ticket _ _ _ _ _ s) as [[?|?] ?].
  - destruct (PyStr.truthy _); [|done].
    unfold mbind, M_bind, mret, M_ret.
    assert (∀ r, Q (set_cancelled r)) as Hc by (intros r H; by destruct H).
    pose proof (all_rows_cancel_tickets Q (PyStr.strip tn) (Z.pos n) s
                  Hs Hc) as H.
    by destruct (cancel_tickets _ _ s) as [[?|?] ?].
  - fold (train_functions (act_view_seats tn)).
    destruct (decide (PyStr.strip tn = "")) as [E|E].
    { unfold train_functions. by rewrite (proj2 (truthy_false _) E). }
    destruct (view_seats_run tn s E) as [Hvalid Hinvalid].
    destruct (valid_dec (PyStr.strip tn)) as [Hv|Hv].
    + destruct (Hvalid Hv) as (lines & rows & total & _ & _ & _ & _ & ->).
      cbn [snd]. by apply all_rows_ensured.
    + by rewrite (Hinvalid Hv).
Qed.

Lemma ui_reachable_passengers s :
  ui_reachable s → all_rows (λ r, booked r ≠ 0 → passenger_ok r) s.
Proof.
  induction 1 as [|a s Hui IH].
  - intros k t m r'. cbn. by rewrite lookup_empty.
  - by apply train_functions_passengers.
Qed.

(** X22.  In every state reached through the forms, a seat that is not
    unbooked has [booked] 1 and carries a passenger name that is not empty
    and has no white space at its ends, an age of 1 or more, and one of
    the genders Male, Female and Other. *)
Theorem ui_booked_seat_passenger s tn n r :
  ui_reachable s → seat s tn n = Some r → booked r ≠ 0 →
  booked r = 1 ∧ passenger_ok r.
Proof.
  intros Hui Hseat Hb.
  pose proof (ui_reachable_passengers s Hui) as Hall.
  unfold seat in Hseat.
  destruct (inventory s tn) as [t|] eqn:Ht; [cbn in Hseat | done].
  split; [|by apply (Hall _ _ _ _ Ht Hseat)].
  pose proof (wf_tables _ (reachable_wf _ (ui_reachable_reachable _ Hui)) _ _ Ht n)
    as Hok.
  rewrite Hseat in Hok. destruct Hok as (_ & _ & [[H1 _]|[H0 _]]); [done|].
  by destruct Hb.
Qed.

Lemma ui_booked_seat_passenger_witness :
  booked (set_booked "Ann" 28 "Female" (fresh_row 1)) = 1
  ∧ passenger_ok (set_booked "Ann" 28 "Female" (fresh_row 1)).
Proof.
  apply (ui_booked_seat_passenger
           (train_functions
              (act_book_ticket " T1 " choice_middle "  Ann " 28 choice_female)
              (train_functions
                 (act_add_train "T1" "Express" 2025 1 10 "Pune" "Delhi")
                 init_db).2).2
           "T1" 1).
  - apply ui_step, ui_step, ui_init.
  - vm_compute. reflexivity.
  - vm_compute. discriminate.
Defined.

Lemma add_train_trains tn name d start end_ s r :
  r ∈ trains (add_train tn name d start end_ s).2 →
  r ∈ trains s
  ∨ r = TrainRow tn name (departure_date_str d) start end_
    ∧ fields_given tn name start end_ ∧ valid_train_number tn.
Proof.
  destruct (fields_dec tn name start end_) as [Hf|Hf].
  2: { rewrite (add_train_missing_field _ _ _ _ _ _ Hf). by left. }
  destruct (valid_dec tn) as [Hv|Hv].
  2: { rewrite (add_train_bad_number _ _ _ _ _ _ Hf Hv). by left. }
  destruct (known_dec s tn) as [Hk|Hk].
  1: { rewrite (add_train_duplicate _ _ _ _ _ _ Hf Hv Hk). by left. }
  rewrite (add_train_run _ _ _ _ _ _ Hf Hv Hk). cbn [snd].
  rewrite ensured_trains. cbn.
  intros [H | ->%list_elem_of_singleton]%elem_of_app; [by left | by right].
Qed.

Lemma delete_train_trains tn d s r :
  r ∈ trains (delete_train tn d s).2 → r ∈ trains s.
Proof.
  destruct (find_train s tn) as [r'|] eqn:Hf.
  2: { rewrite delete_train_unknown; [done|].
       intros Hk%find_train_known. rewrite Hf in Hk. by destruct Hk. }
  rewrite (delete_train_run _ _ _ _ Hf).
  destruct (decide _); [|done].
  destruct (seat_table_name tn); [|done]. cbn.
  by intros [_ H]%list_elem_of_filter.
Qed.

Lemma train_functions_trains a s r :
  (∀ r, r ∈ trains s → train_ok r) →
  r ∈ trains (train_functions a s).2 → train_ok r.
Proof.
  intros Hs. destruct a as [tn name y m d start end_| |tn|start end_|tn y m d
                           |tn c name age gender|tn n|tn]; unfold train_functions.
  - destruct (PyStr.truthy (PyStr.strip tn)) eqn:H1; [|by apply Hs].
    destruct (PyStr.truthy (PyStr.strip name)) eqn:H2; [|by apply Hs].
    destruct (PyStr.truthy (PyStr.strip start)) eqn:H3; [|by apply Hs].
    destruct (PyStr.truthy (PyStr.strip end_)) eqn:H4; [|by apply Hs].
    cbn [andb]. unfold mbind, M_bind, mret, M_ret.
    pose proof (add_train_trains (PyStr.strip tn) (PyStr.strip name)
                  (a_date y m d) (PyStr.strip start) (PyStr.strip end_) s r) as H.
    destruct (add_train _ _ _ _ _ s) as [[?|?] ?]; cbn [snd] in *;
      (intros Hr; destruct (H Hr) as [Hold | (-> & _ & Hv)]; [by apply Hs|]);
      (split; [done|]; repeat (split; [by apply truthy_strip_trimmed|]));
      by exists y, m, d.
  - unfold mbind, M_bind, Sql.select_all_trains, mret, M_ret.
    assert (∀ l : list train_row,
               (match l with
                | [] => λ s0 : db, (Ret no_trains_info, s0)
                | _ :: _ => λ s0 : db, (Ret (trains_shown l), s0)
                end s).2 = s) as H by (by intros []).
    rewrite H. apply Hs.
  - destruct (PyStr.truthy _); [|by apply Hs].
    unfold mbind, M_bind, search_train_by_train_number, Sql.select_train,
      mret, M_ret.
    destruct (head _); apply Hs.
  - destruct (_ && _); [|by apply Hs].
    unfold mbind, M_bind, search_trains_by_destinations,
      Sql.select_trains_by_route, mret, M_ret.
    destruct (filter _ _); apply Hs.
  - destruct (PyStr.truthy _); [|by apply Hs].
    unfold mbind, M_bind, mret, M_ret.
    pose proof (delete_train_trains (PyStr.strip tn) (a_date y m d) s r) as H.
    destruct (delete_train _ _ s) as [[?|?] ?]; cbn [snd] in *;
      intros Hr; by apply Hs, H.
  - destruct (_ && _); [|by apply Hs].
    unfold mbind, M_bind, mret, M_ret.
    pose proof (book_ticket_trains (PyStr.strip tn) (PyStr.strip name)
                  (Z.pos age) (gender_choice_str gender) (seat_choice_str c) s)
      as H.
    destruct (book_ticket _ _ _ _ _ s) as [[?|?] ?]; cbn [snd] in *;
      rewrite H; apply Hs.
  - destruct (PyStr.truthy _); [|by apply Hs].
    unfold mbind, M_bind, mret, M_ret.
    pose proof (cancel_tickets_trains (PyStr.strip tn) (Z.pos n) s) as H.
    destruct (cancel_tickets _ _ s) as [[?|?] ?]; cbn [snd] in *;
      rewrite H; apply Hs.
  - fold (train_functions (act_view_seats tn)).
    destruct (decide (PyStr.strip tn = "")) as [E|E].
    { unfold train_functions. rewrite (proj2 (truthy_false _) E). apply Hs. }
    destruct (view_seats_run tn s E) as [Hvalid Hinvalid].
    destruct (valid_dec (PyStr.strip tn)) as [Hv|Hv].
    + destruct (Hvalid Hv) as (lines & rows & total & _ & _ & _ & _ & ->).
      cbn [snd]. rewrite ensured_trains. apply Hs.
    + rewrite (Hinvalid Hv). apply Hs.
Qed.

(** X23.  In every state reached through the forms, each train record has
    a train number of letters, digits and underscores, a name, a start
    and an end that are not empty and have no white space at their ends,
    and as its date the ISO text of a date of the date picker. *)
Theorem ui_train_rows s r :
  ui_reachable s → r ∈ trains s → train_ok r.
Proof.
  intros Hui. revert r. induction Hui as [|a s Hui IH]; intros r.
  - cbn. by intros ?%elem_of_nil.
  - by apply train_functions_trains.
Qed.

Lemma ui_train_rows_witness :
  train_ok (TrainRow "T1" "Express" "2025-01-10" "Pune" "New Delhi").
Proof.
  apply (ui_train_rows
           (train_functions
              (act_add_train " T1" "Express  " 2025 1 10 " Pune" "New Delhi ")
              init_db).2).
  - apply ui_step, ui_init.
  - vm_compute. constructor.
Defined.
